(** * PBFT sealing engine (libpbftseal/PBFT.cpp): a shallow embedding

    The engine state behind [m_mutex] is a record; every entry point that
    takes the mutex ([handleMsg], [checkTimeout], [shouldSeal],
    [reportBlock], ...) is a function on that record.  What the engine does
    to its collaborators (packets handed to the host, the backup store, the
    [onSealGenerated] callback) is appended to the [outbox] member, in
    program order.  What it reads from them (clock, roster, executor, peer
    table) is a [World] snapshot taken for the duration of one entry point. *)

From Stdlib Require Import ZArith List Bool Lia.
From stdpp Require Import base gmap list fin_maps.

Open Scope Z_scope.

(** ** Machine integers

    [u256] is boost's unchecked 256-bit unsigned integer, [h256]/[h512]/
    [Signature] are fixed-size hashes; all are carried as [Z].  Wrap-around
    is written out where the source does arithmetic. *)
Abbreviation u256 := Z (only parsing).
Abbreviation h256 := Z (only parsing).
Abbreviation h512 := Z (only parsing).
Abbreviation Signature := Z (only parsing).
Abbreviation bytes := (list Byte.byte) (only parsing).

Definition add256 (a b : Z) : Z := (a + b) mod 2 ^ 256.
Definition sub256 (a b : Z) : Z := (a - b) mod 2 ^ 256.
Definition sub64 (a b : Z) : Z := (a - b) mod 2 ^ 64.
Definition add32 (a b : Z) : Z := (a + b) mod 2 ^ 32.

(** ** Messages *)

(** [PBFTMsg]: the seven fields shared by the four packet kinds.  [SignReq],
    [CommitReq] and [ViewChangeReq] add nothing to it. *)
Record PBFTMsg := mkMsg {
  height : u256;
  view : u256;
  idx : u256;
  timestamp : u256;
  block_hash : h256;
  sig : Signature;
  sig2 : Signature
}.

(** [PrepareReq] is a [PBFTMsg] plus the serialised block. *)
Record PrepareReq := mkPrepare {
  msg :> PBFTMsg;
  block : bytes
}.

Inductive PacketId := PrepareReqPacket | SignReqPacket | CommitReqPacket | ViewChangeReqPacket.

(** A decoded inbound packet ([req.populate(_r)] already done); [PktOther]
    is any id that falls to the [default:] arm of [handleMsg]. *)
Inductive Packet :=
| PktPrepare (req : PrepareReq)
| PktSign (req : PBFTMsg)
| PktCommit (req : PBFTMsg)
| PktViewChange (req : PBFTMsg)
| PktOther (id : Z).

(** The members of [BlockHeader] the engine reads. *)
Record BlockHeader := mkHeader {
  number : u256;
  hash_WithoutSeal : h256;
  nodeList : list h512;
  hdr_timestamp : u256
}.

(** [NodeConnParams] (roster entry); [_sNodeId] is kept as the public key
    that [jsToPublic(toJS(_sNodeId))] yields. *)
Record NodeConnParams := mkNode {
  _sNodeId : h512;
  _iIdentityType : Z;
  _iIdx : u256
}.

(** ** Collaborators *)

(** Result of running a proposal through the executor in [handlePrepareMsg]:
    [checkBlockValid] either throws or fills [outBlock]. *)
Record Executed := mkExecuted {
  exec_hash : h256;          (* outBlock.info().hash(WithoutSeal) after checkBlockValid *)
  exec_pending : nat;        (* outBlock.pending().size() *)
  exec_seal_ok : bool;       (* outBlock.sealBlock(...) *)
  exec_sealed_hash : h256;   (* outBlock.info().hash(WithoutSeal) after commitToSeal/sealBlock *)
  exec_block_data : bytes    (* outBlock.blockData() *)
}.

Inductive ExecResult := ExecThrows | ExecDone (x : Executed).

(** What one entry point observes of the outside while it holds the mutex. *)
Record World := mkWorld {
  now : Z;                                   (* utcTime() *)
  system_clock_now : Z;                      (* std::chrono::system_clock::now(), seconds *)
  host_alive : bool;                         (* m_host.lock() succeeds *)
  isConnected : h512 -> bool;                (* h->isConnected(node_id) *)
  session_peer_ok : bool;                    (* session.lock() and capabilityFromSession *)
  getPublicKey : u256 -> option h512;        (* roster: public key of an index *)
  getAccountType_self : option Z;            (* roster: getAccountType(m_key_pair.pub(), _) *)
  getMinerNum : u256;                        (* roster: getMinerNum() *)
  getIdx_self : option u256;                 (* roster: getIdx(m_key_pair.pub(), _) *)
  getAllNodeConnInfo : Z -> list NodeConnParams; (* roster snapshot by block number, key order *)
  checkBlockValid : h256 -> bytes -> ExecResult; (* m_bc->checkBlockValid and re-seal *)
  chain_block_size : h256 -> nat             (* m_bc->block(hash).size() *)
}.

(** Constants, types and pure helpers that PBFT.cpp uses but that are
    declared in headers outside this translation unit (PBFT.h,
    libdevcore, libdevcrypto).  They are parameters of the development. *)
Class Env := mkEnv {
  Invalid256 : u256;
  EN_ACCOUNT_TYPE_MINER : Z;
  kMaxChangeCycle : Z;
  empty_req : PrepareReq;                    (* PrepareReq() and PBFTMsg::clear() *)
  signHash : h256 -> Signature;              (* dev::sign(m_key_pair.sec(), _) *)
  verify : h512 -> Signature -> h256 -> bool;(* dev::verify *)
  fieldsWithoutBlock : PBFTMsg -> h256;      (* PBFTMsg::fieldsWithoutBlock() *)
  timeout_interval : Z -> Z -> Z;            (* (uint64_t)(m_view_timeout * pow(1.5, cycle)) *)
  static_cast_int : u256 -> Z;               (* static_cast<int>(u256) *)
  static_cast_unsigned : u256 -> Z;          (* static_cast<unsigned>(u256) *)
  rlp_item : bytes -> nat -> bytes;          (* RLP(b)[i].data() *)
  header_valid : BlockHeader -> bool         (* BlockHeader::operator bool *)
}.

(** ** Outbound actions

    What an entry point does to the outside, in program order.  The
    hash in [OnSealGenerated] is [m_prepare_cache.block_hash], which the
    source logs next to the call; the payload is the five-item list
    [r[0]; r[1]; r[2]; r[3]; sig_list] before RLP encoding.
    [LogReachConsensus] is the record "Reach consensus, to_view=" that
    [checkAndChangeView] writes when, and only when, it completes a view
    change.  Other log lines are not modelled. *)
Inductive Effect :=
| Broadcast (id : PacketId) (req : PBFTMsg) (blk : bytes) (filter : list h512)
                                             (* broadcastMsg with the host alive *)
| ClearMask                                  (* clearMask *)
| SendViewChange (req : PBFTMsg)             (* unicast in handleViewChangeMsg *)
| BackupMsg (req : PrepareReq)               (* backupMsg(backup_key_committed, _) *)
| AddBlockCache (x : Executed)               (* m_bc->addBlockCache *)
| OnSealGenerated (h : h256) (items : list bytes) (sig_list : list (u256 * Signature))
                  (isPrimary : bool)         (* m_onSealGenerated *)
| OnViewChange                               (* m_onViewChange *)
| Notify                                     (* m_signalled.notify_all *)
| LogReachConsensus (to_view : u256).

(** ** Engine state

    The data members of [class PBFT] that PBFT.cpp reads or writes under
    [m_mutex], under their own names.  The vote caches map a block hash to
    the votes for it, keyed by the hex text of the vote's [sig];
    [m_recv_view_change_req] maps a view to the requests for it, keyed by
    sender index; [m_commitMap] maps a block hash to the flag that
    [checkAndSave] sets.  [outbox] is not a member: it records the
    outbound actions. *)
Record State := mkState {
  m_cfg_err : bool;
  m_account_type : Z;
  m_node_num : Z;
  m_node_idx : Z;
  m_f : Z;
  m_miner_list : list Z;
  m_view : Z;
  m_to_view : Z;
  m_change_cycle : Z;
  m_leader_failed : bool;
  m_empty_block_flag : bool;
  m_omit_empty_block : bool;
  m_view_timeout : Z;
  m_last_consensus_time : Z;
  m_last_sign_time : Z;
  m_last_exec_finish_time : Z;
  m_last_collect_time : Z;
  m_highest_block : BlockHeader;
  m_consensus_block_number : Z;
  m_raw_prepare_cache : PrepareReq;
  m_prepare_cache : PrepareReq;
  m_committed_prepare_cache : PrepareReq;
  m_future_prepare_cache : Z * PrepareReq;
  m_sign_cache : gmap Z (gmap Z PBFTMsg);
  m_commit_cache : gmap Z (gmap Z PBFTMsg);
  m_recv_view_change_req : gmap Z (gmap Z PBFTMsg);
  m_commitMap : gmap Z bool;
  outbox : list Effect
}.

(** Field assignments [x.f = v], one per member. *)
Definition set_m_cfg_err (v : bool) (s : State) : State :=
  mkState v (m_account_type s) (m_node_num s) (m_node_idx s) (m_f s) (m_miner_list s) (m_view s) (m_to_view
    s) (m_change_cycle s) (m_leader_failed s) (m_empty_block_flag s) (m_omit_empty_block s) (m_view_timeout
    s) (m_last_consensus_time s) (m_last_sign_time s) (m_last_exec_finish_time s) (m_last_collect_time s)
    (m_highest_block s) (m_consensus_block_number s) (m_raw_prepare_cache s) (m_prepare_cache s)
    (m_committed_prepare_cache s) (m_future_prepare_cache s) (m_sign_cache s) (m_commit_cache s)
    (m_recv_view_change_req s) (m_commitMap s) (outbox s).
Definition set_m_account_type (v : Z) (s : State) : State :=
  mkState (m_cfg_err s) v (m_node_num s) (m_node_idx s) (m_f s) (m_miner_list s) (m_view s) (m_to_view s)
    (m_change_cycle s) (m_leader_failed s) (m_empty_block_flag s) (m_omit_empty_block s) (m_view_timeout s)
    (m_last_consensus_time s) (m_last_sign_time s) (m_last_exec_finish_time s) (m_last_collect_time s)
    (m_highest_block s) (m_consensus_block_number s) (m_raw_prepare_cache s) (m_prepare_cache s)
    (m_committed_prepare_cache s) (m_future_prepare_cache s) (m_sign_cache s) (m_commit_cache s)
    (m_recv_view_change_req s) (m_commitMap s) (outbox s).
Definition set_m_node_num (v : Z) (s : State) : State :=
  mkState (m_cfg_err s) (m_account_type s) v (m_node_idx s) (m_f s) (m_miner_list s) (m_view s) (m_to_view
    s) (m_change_cycle s) (m_leader_failed s) (m_empty_block_flag s) (m_omit_empty_block s) (m_view_timeout
    s) (m_last_consensus_time s) (m_last_sign_time s) (m_last_exec_finish_time s) (m_last_collect_time s)
    (m_highest_block s) (m_consensus_block_number s) (m_raw_prepare_cache s) (m_prepare_cache s)
    (m_committed_prepare_cache s) (m_future_prepare_cache s) (m_sign_cache s) (m_commit_cache s)
    (m_recv_view_change_req s) (m_commitMap s) (outbox s).
Definition set_m_node_idx (v : Z) (s : State) : State :=
  mkState (m_cfg_err s) (m_account_type s) (m_node_num s) v (m_f s) (m_miner_list s) (m_view s) (m_to_view
    s) (m_change_cycle s) (m_leader_failed s) (m_empty_block_flag s) (m_omit_empty_block s) (m_view_timeout
    s) (m_last_consensus_time s) (m_last_sign_time s) (m_last_exec_finish_time s) (m_last_collect_time s)
    (m_highest_block s) (m_consensus_block_number s) (m_raw_prepare_cache s) (m_prepare_cache s)
    (m_committed_prepare_cache s) (m_future_prepare_cache s) (m_sign_cache s) (m_commit_cache s)
    (m_recv_view_change_req s) (m_commitMap s) (outbox s).
Definition set_m_f (v : Z) (s : State) : State :=
  mkState (m_cfg_err s) (m_account_type s) (m_node_num s) (m_node_idx s) v (m_miner_list s) (m_view s)
    (m_to_view s) (m_change_cycle s) (m_leader_failed s) (m_empty_block_flag s) (m_omit_empty_block s)
    (m_view_timeout s) (m_last_consensus_time s) (m_last_sign_time s) (m_last_exec_finish_time s)
    (m_last_collect_time s) (m_highest_block s) (m_consensus_block_number s) (m_raw_prepare_cache s)
    (m_prepare_cache s) (m_committed_prepare_cache s) (m_future_prepare_cache s) (m_sign_cache s)
    (m_commit_cache s) (m_recv_view_change_req s) (m_commitMap s) (outbox s).
Definition set_m_miner_list (v : list Z) (s : State) : State :=
  mkState (m_cfg_err s) (m_account_type s) (m_node_num s) (m_node_idx s) (m_f s) v (m_view s) (m_to_view s)
    (m_change_cycle s) (m_leader_failed s) (m_empty_block_flag s) (m_omit_empty_block s) (m_view_timeout s)
    (m_last_consensus_time s) (m_last_sign_time s) (m_last_exec_finish_time s) (m_last_collect_time s)
    (m_highest_block s) (m_consensus_block_number s) (m_raw_prepare_cache s) (m_prepare_cache s)
    (m_committed_prepare_cache s) (m_future_prepare_cache s) (m_sign_cache s) (m_commit_cache s)
    (m_recv_view_change_req s) (m_commitMap s) (outbox s).
Definition set_m_view (v : Z) (s : State) : State :=
  mkState (m_cfg_err s) (m_account_type s) (m_node_num s) (m_node_idx s) (m_f s) (m_miner_list s) v
    (m_to_view s) (m_change_cycle s) (m_leader_failed s) (m_empty_block_flag s) (m_omit_empty_block s)
    (m_view_timeout s) (m_last_consensus_time s) (m_last_sign_time s) (m_last_exec_finish_time s)
    (m_last_collect_time s) (m_highest_block s) (m_consensus_block_number s) (m_raw_prepare_cache s)
    (m_prepare_cache s) (m_committed_prepare_cache s) (m_future_prepare_cache s) (m_sign_cache s)
    (m_commit_cache s) (m_recv_view_change_req s) (m_commitMap s) (outbox s).
Definition set_m_to_view (v : Z) (s : State) : State :=
  mkState (m_cfg_err s) (m_account_type s) (m_node_num s) (m_node_idx s) (m_f s) (m_miner_list s) (m_view s)
    v (m_change_cycle s) (m_leader_failed s) (m_empty_block_flag s) (m_omit_empty_block s) (m_view_timeout
    s) (m_last_consensus_time s) (m_last_sign_time s) (m_last_exec_finish_time s) (m_last_collect_time s)
    (m_highest_block s) (m_consensus_block_number s) (m_raw_prepare_cache s) (m_prepare_cache s)
    (m_committed_prepare_cache s) (m_future_prepare_cache s) (m_sign_cache s) (m_commit_cache s)
    (m_recv_view_change_req s) (m_commitMap s) (outbox s).
Definition set_m_change_cycle (v : Z) (s : State) : State :=
  mkState (m_cfg_err s) (m_account_type s) (m_node_num s) (m_node_idx s) (m_f s) (m_miner_list s) (m_view s)
    (m_to_view s) v (m_leader_failed s) (m_empty_block_flag s) (m_omit_empty_block s) (m_view_timeout s)
    (m_last_consensus_time s) (m_last_sign_time s) (m_last_exec_finish_time s) (m_last_collect_time s)
    (m_highest_block s) (m_consensus_block_number s) (m_raw_prepare_cache s) (m_prepare_cache s)
    (m_committed_prepare_cache s) (m_future_prepare_cache s) (m_sign_cache s) (m_commit_cache s)
    (m_recv_view_change_req s) (m_commitMap s) (outbox s).
Definition set_m_leader_failed (v : bool) (s : State) : State :=
  mkState (m_cfg_err s) (m_account_type s) (m_node_num s) (m_node_idx s) (m_f s) (m_miner_list s) (m_view s)
    (m_to_view s) (m_change_cycle s) v (m_empty_block_flag s) (m_omit_empty_block s) (m_view_timeout s)
    (m_last_consensus_time s) (m_last_sign_time s) (m_last_exec_finish_time s) (m_last_collect_time s)
    (m_highest_block s) (m_consensus_block_number s) (m_raw_prepare_cache s) (m_prepare_cache s)
    (m_committed_prepare_cache s) (m_future_prepare_cache s) (m_sign_cache s) (m_commit_cache s)
    (m_recv_view_change_req s) (m_commitMap s) (outbox s).
Definition set_m_empty_block_flag (v : bool) (s : State) : State :=
  mkState (m_cfg_err s) (m_account_type s) (m_node_num s) (m_node_idx s) (m_f s) (m_miner_list s) (m_view s)
    (m_to_view s) (m_change_cycle s) (m_leader_failed s) v (m_omit_empty_block s) (m_view_timeout s)
    (m_last_consensus_time s) (m_last_sign_time s) (m_last_exec_finish_time s) (m_last_collect_time s)
    (m_highest_block s) (m_consensus_block_number s) (m_raw_prepare_cache s) (m_prepare_cache s)
    (m_committed_prepare_cache s) (m_future_prepare_cache s) (m_sign_cache s) (m_commit_cache s)
    (m_recv_view_change_req s) (m_commitMap s) (outbox s).
Definition set_m_omit_empty_block (v : bool) (s : State) : State :=
  mkState (m_cfg_err s) (m_account_type s) (m_node_num s) (m_node_idx s) (m_f s) (m_miner_list s) (m_view s)
    (m_to_view s) (m_change_cycle s) (m_leader_failed s) (m_empty_block_flag s) v (m_view_timeout s)
    (m_last_consensus_time s) (m_last_sign_time s) (m_last_exec_finish_time s) (m_last_collect_time s)
    (m_highest_block s) (m_consensus_block_number s) (m_raw_prepare_cache s) (m_prepare_cache s)
    (m_committed_prepare_cache s) (m_future_prepare_cache s) (m_sign_cache s) (m_commit_cache s)
    (m_recv_view_change_req s) (m_commitMap s) (outbox s).
Definition set_m_view_timeout (v : Z) (s : State) : State :=
  mkState (m_cfg_err s) (m_account_type s) (m_node_num s) (m_node_idx s) (m_f s) (m_miner_list s) (m_view s)
    (m_to_view s) (m_change_cycle s) (m_leader_failed s) (m_empty_block_flag s) (m_omit_empty_block s) v
    (m_last_consensus_time s) (m_last_sign_time s) (m_last_exec_finish_time s) (m_last_collect_time s)
    (m_highest_block s) (m_consensus_block_number s) (m_raw_prepare_cache s) (m_prepare_cache s)
    (m_committed_prepare_cache s) (m_future_prepare_cache s) (m_sign_cache s) (m_commit_cache s)
    (m_recv_view_change_req s) (m_commitMap s) (outbox s).
Definition set_m_last_consensus_time (v : Z) (s : State) : State :=
  mkState (m_cfg_err s) (m_account_type s) (m_node_num s) (m_node_idx s) (m_f s) (m_miner_list s) (m_view s)
    (m_to_view s) (m_change_cycle s) (m_leader_failed s) (m_empty_block_flag s) (m_omit_empty_block s)
    (m_view_timeout s) v (m_last_sign_time s) (m_last_exec_finish_time s) (m_last_collect_time s)
    (m_highest_block s) (m_consensus_block_number s) (m_raw_prepare_cache s) (m_prepare_cache s)
    (m_committed_prepare_cache s) (m_future_prepare_cache s) (m_sign_cache s) (m_commit_cache s)
    (m_recv_view_change_req s) (m_commitMap s) (outbox s).
Definition set_m_last_sign_time (v : Z) (s : State) : State :=
  mkState (m_cfg_err s) (m_account_type s) (m_node_num s) (m_node_idx s) (m_f s) (m_miner_list s) (m_view s)
    (m_to_view s) (m_change_cycle s) (m_leader_failed s) (m_empty_block_flag s) (m_omit_empty_block s)
    (m_view_timeout s) (m_last_consensus_time s) v (m_last_exec_finish_time s) (m_last_collect_time s)
    (m_highest_block s) (m_consensus_block_number s) (m_raw_prepare_cache s) (m_prepare_cache s)
    (m_committed_prepare_cache s) (m_future_prepare_cache s) (m_sign_cache s) (m_commit_cache s)
    (m_recv_view_change_req s) (m_commitMap s) (outbox s).
Definition set_m_last_exec_finish_time (v : Z) (s : State) : State :=
  mkState (m_cfg_err s) (m_account_type s) (m_node_num s) (m_node_idx s) (m_f s) (m_miner_list s) (m_view s)
    (m_to_view s) (m_change_cycle s) (m_leader_failed s) (m_empty_block_flag s) (m_omit_empty_block s)
    (m_view_timeout s) (m_last_consensus_time s) (m_last_sign_time s) v (m_last_collect_time s)
    (m_highest_block s) (m_consensus_block_number s) (m_raw_prepare_cache s) (m_prepare_cache s)
    (m_committed_prepare_cache s) (m_future_prepare_cache s) (m_sign_cache s) (m_commit_cache s)
    (m_recv_view_change_req s) (m_commitMap s) (outbox s).
Definition set_m_last_collect_time (v : Z) (s : State) : State :=
  mkState (m_cfg_err s) (m_account_type s) (m_node_num s) (m_node_idx s) (m_f s) (m_miner_list s) (m_view s)
    (m_to_view s) (m_change_cycle s) (m_leader_failed s) (m_empty_block_flag s) (m_omit_empty_block s)
    (m_view_timeout s) (m_last_consensus_time s) (m_last_sign_time s) (m_last_exec_finish_time s) v
    (m_highest_block s) (m_consensus_block_number s) (m_raw_prepare_cache s) (m_prepare_cache s)
    (m_committed_prepare_cache s) (m_future_prepare_cache s) (m_sign_cache s) (m_commit_cache s)
    (m_recv_view_change_req s) (m_commitMap s) (outbox s).
Definition set_m_highest_block (v : BlockHeader) (s : State) : State :=
  mkState (m_cfg_err s) (m_account_type s) (m_node_num s) (m_node_idx s) (m_f s) (m_miner_list s) (m_view s)
    (m_to_view s) (m_change_cycle s) (m_leader_failed s) (m_empty_block_flag s) (m_omit_empty_block s)
    (m_view_timeout s) (m_last_consensus_time s) (m_last_sign_time s) (m_last_exec_finish_time s)
    (m_last_collect_time s) v (m_consensus_block_number s) (m_raw_prepare_cache s) (m_prepare_cache s)
    (m_committed_prepare_cache s) (m_future_prepare_cache s) (m_sign_cache s) (m_commit_cache s)
    (m_recv_view_change_req s) (m_commitMap s) (outbox s).
Definition set_m_consensus_block_number (v : Z) (s : State) : State :=
  mkState (m_cfg_err s) (m_account_type s) (m_node_num s) (m_node_idx s) (m_f s) (m_miner_list s) (m_view s)
    (m_to_view s) (m_change_cycle s) (m_leader_failed s) (m_empty_block_flag s) (m_omit_empty_block s)
    (m_view_timeout s) (m_last_consensus_time s) (m_last_sign_time s) (m_last_exec_finish_time s)
    (m_last_collect_time s) (m_highest_block s) v (m_raw_prepare_cache s) (m_prepare_cache s)
    (m_committed_prepare_cache s) (m_future_prepare_cache s) (m_sign_cache s) (m_commit_cache s)
    (m_recv_view_change_req s) (m_commitMap s) (outbox s).
Definition set_m_raw_prepare_cache (v : PrepareReq) (s : State) : State :=
  mkState (m_cfg_err s) (m_account_type s) (m_node_num s) (m_node_idx s) (m_f s) (m_miner_list s) (m_view s)
    (m_to_view s) (m_change_cycle s) (m_leader_failed s) (m_empty_block_flag s) (m_omit_empty_block s)
    (m_view_timeout s) (m_last_consensus_time s) (m_last_sign_time s) (m_last_exec_finish_time s)
    (m_last_collect_time s) (m_highest_block s) (m_consensus_block_number s) v (m_prepare_cache s)
    (m_committed_prepare_cache s) (m_future_prepare_cache s) (m_sign_cache s) (m_commit_cache s)
    (m_recv_view_change_req s) (m_commitMap s) (outbox s).
Definition set_m_prepare_cache (v : PrepareReq) (s : State) : State :=
  mkState (m_cfg_err s) (m_account_type s) (m_node_num s) (m_node_idx s) (m_f s) (m_miner_list s) (m_view s)
    (m_to_view s) (m_change_cycle s) (m_leader_failed s) (m_empty_block_flag s) (m_omit_empty_block s)
    (m_view_timeout s) (m_last_consensus_time s) (m_last_sign_time s) (m_last_exec_finish_time s)
    (m_last_collect_time s) (m_highest_block s) (m_consensus_block_number s) (m_raw_prepare_cache s) v
    (m_committed_prepare_cache s) (m_future_prepare_cache s) (m_sign_cache s) (m_commit_cache s)
    (m_recv_view_change_req s) (m_commitMap s) (outbox s).
Definition set_m_committed_prepare_cache (v : PrepareReq) (s : State) : State :=
  mkState (m_cfg_err s) (m_account_type s) (m_node_num s) (m_node_idx s) (m_f s) (m_miner_list s) (m_view s)
    (m_to_view s) (m_change_cycle s) (m_leader_failed s) (m_empty_block_flag s) (m_omit_empty_block s)
    (m_view_timeout s) (m_last_consensus_time s) (m_last_sign_time s) (m_last_exec_finish_time s)
    (m_last_collect_time s) (m_highest_block s) (m_consensus_block_number s) (m_raw_prepare_cache s)
    (m_prepare_cache s) v (m_future_prepare_cache s) (m_sign_cache s) (m_commit_cache s)
    (m_recv_view_change_req s) (m_commitMap s) (outbox s).
Definition set_m_future_prepare_cache (v : Z * PrepareReq) (s : State) : State :=
  mkState (m_cfg_err s) (m_account_type s) (m_node_num s) (m_node_idx s) (m_f s) (m_miner_list s) (m_view s)
    (m_to_view s) (m_change_cycle s) (m_leader_failed s) (m_empty_block_flag s) (m_omit_empty_block s)
    (m_view_timeout s) (m_last_consensus_time s) (m_last_sign_time s) (m_last_exec_finish_time s)
    (m_last_collect_time s) (m_highest_block s) (m_consensus_block_number s) (m_raw_prepare_cache s)
    (m_prepare_cache s) (m_committed_prepare_cache s) v (m_sign_cache s) (m_commit_cache s)
    (m_recv_view_change_req s) (m_commitMap s) (outbox s).
Definition set_m_sign_cache (v : gmap Z (gmap Z PBFTMsg)) (s : State) : State :=
  mkState (m_cfg_err s) (m_account_type s) (m_node_num s) (m_node_idx s) (m_f s) (m_miner_list s) (m_view s)
    (m_to_view s) (m_change_cycle s) (m_leader_failed s) (m_empty_block_flag s) (m_omit_empty_block s)
    (m_view_timeout s) (m_last_consensus_time s) (m_last_sign_time s) (m_last_exec_finish_time s)
    (m_last_collect_time s) (m_highest_block s) (m_consensus_block_number s) (m_raw_prepare_cache s)
    (m_prepare_cache s) (m_committed_prepare_cache s) (m_future_prepare_cache s) v (m_commit_cache s)
    (m_recv_view_change_req s) (m_commitMap s) (outbox s).
Definition set_m_commit_cache (v : gmap Z (gmap Z PBFTMsg)) (s : State) : State :=
  mkState (m_cfg_err s) (m_account_type s) (m_node_num s) (m_node_idx s) (m_f s) (m_miner_list s) (m_view s)
    (m_to_view s) (m_change_cycle s) (m_leader_failed s) (m_empty_block_flag s) (m_omit_empty_block s)
    (m_view_timeout s) (m_last_consensus_time s) (m_last_sign_time s) (m_last_exec_finish_time s)
    (m_last_collect_time s) (m_highest_block s) (m_consensus_block_number s) (m_raw_prepare_cache s)
    (m_prepare_cache s) (m_committed_prepare_cache s) (m_future_prepare_cache s) (m_sign_cache s) v
    (m_recv_view_change_req s) (m_commitMap s) (outbox s).
Definition set_m_recv_view_change_req (v : gmap Z (gmap Z PBFTMsg)) (s : State) : State :=
  mkState (m_cfg_err s) (m_account_type s) (m_node_num s) (m_node_idx s) (m_f s) (m_miner_list s) (m_view s)
    (m_to_view s) (m_change_cycle s) (m_leader_failed s) (m_empty_block_flag s) (m_omit_empty_block s)
    (m_view_timeout s) (m_last_consensus_time s) (m_last_sign_time s) (m_last_exec_finish_time s)
    (m_last_collect_time s) (m_highest_block s) (m_consensus_block_number s) (m_raw_prepare_cache s)
    (m_prepare_cache s) (m_committed_prepare_cache s) (m_future_prepare_cache s) (m_sign_cache s)
    (m_commit_cache s) v (m_commitMap s) (outbox s).
Definition set_m_commitMap (v : gmap Z bool) (s : State) : State :=
  mkState (m_cfg_err s) (m_account_type s) (m_node_num s) (m_node_idx s) (m_f s) (m_miner_list s) (m_view s)
    (m_to_view s) (m_change_cycle s) (m_leader_failed s) (m_empty_block_flag s) (m_omit_empty_block s)
    (m_view_timeout s) (m_last_consensus_time s) (m_last_sign_time s) (m_last_exec_finish_time s)
    (m_last_collect_time s) (m_highest_block s) (m_consensus_block_number s) (m_raw_prepare_cache s)
    (m_prepare_cache s) (m_committed_prepare_cache s) (m_future_prepare_cache s) (m_sign_cache s)
    (m_commit_cache s) (m_recv_view_change_req s) v (outbox s).
Definition set_outbox (v : list Effect) (s : State) : State :=
  mkState (m_cfg_err s) (m_account_type s) (m_node_num s) (m_node_idx s) (m_f s) (m_miner_list s) (m_view s)
    (m_to_view s) (m_change_cycle s) (m_leader_failed s) (m_empty_block_flag s) (m_omit_empty_block s)
    (m_view_timeout s) (m_last_consensus_time s) (m_last_sign_time s) (m_last_exec_finish_time s)
    (m_last_collect_time s) (m_highest_block s) (m_consensus_block_number s) (m_raw_prepare_cache s)
    (m_prepare_cache s) (m_committed_prepare_cache s) (m_future_prepare_cache s) (m_sign_cache s)
    (m_commit_cache s) (m_recv_view_change_req s) (m_commitMap s) v.

Definition emit (e : Effect) (s : State) : State := set_outbox (outbox s ++ [e]) s.

(** [m[k]] on a C++ map default-constructs a missing entry before it is
    read; [touch] is that side effect on a map of maps. *)
Definition touch (k : Z) (m : gmap Z (gmap Z PBFTMsg)) : gmap Z (gmap Z PBFTMsg) :=
  match m !! k with
  | Some _ => m
  | None => <[k := ∅]> m
  end.

Definition at_key (k : Z) (m : gmap Z (gmap Z PBFTMsg)) : gmap Z PBFTMsg := default ∅ (m !! k).

Section Engine.
Context {E : Env}.

(** ** Quorum and leader *)

(** Modelled from the spec: [quorum()] is an inline member of PBFT.h, which
    is not part of the sources; section 3 of the specification gives
    [quorum = N - f].  [m_node_num] and [m_f] are [u256]. *)
Definition quorum (s : State) : Z := sub256 (m_node_num s) (m_f s).

(** [m_f = (m_node_num - 1) / 3] as assigned in [resetConfig]. *)
Definition faulty_of (node_num : Z) : Z := sub256 node_num 1 / 3.

(** [getLeader].  The [%] is only reached with [m_cfg_err] false, which
    [resetConfig] establishes together with [m_node_num != 0]. *)
Definition getLeader (s : State) : bool * Z :=
  if m_cfg_err s || m_leader_failed s || (number (m_highest_block s) =? Invalid256)
  then (false, Invalid256)
  else (true, add256 (m_view s) (number (m_highest_block s)) mod m_node_num s).

(** ** Signing and checking *)

(** The common prologue of every [broadcast*Req]: fill the fields, sign the
    hash, then sign [fieldsWithoutBlock()] of the record built so far. *)
Definition sign_msg (h v i t : Z) (bh : Z) : PBFTMsg :=
  let r := mkMsg h v i t bh (signHash bh) (sig2 (empty_req)) in
  mkMsg h v i t bh (signHash bh) (signHash (fieldsWithoutBlock r)).

(** [checkSign(PBFTMsg const&)] *)
Definition checkSign (w : World) (req : PBFTMsg) : bool :=
  match getPublicKey w (idx req) with
  | None => false
  | Some pub_id =>
      verify pub_id (sig req) (block_hash req)
      && verify pub_id (sig2 req) (fieldsWithoutBlock req)
  end.

(** ** Cache primitives *)

(** [addRawPrepare] *)
Definition addRawPrepare (req : PrepareReq) (s : State) : State :=
  set_m_prepare_cache (empty_req) (set_m_raw_prepare_cache req s).

Definition same_view (v : Z) (kv : Z * PBFTMsg) : Prop := view kv.2 = v.

#[local] Instance same_view_dec v kv : Decision (same_view v kv).
Proof. unfold same_view. apply _. Defined.

(** [addPrepareReq]: store the proposal and drop cached votes for its hash
    that were cast in another view. *)
Definition addPrepareReq (req : PrepareReq) (s : State) : State :=
  let s := set_m_prepare_cache req s in
  let h := block_hash req in
  let s := set_m_sign_cache (alter (filter (same_view (view req))) h (m_sign_cache s)) s in
  set_m_commit_cache (alter (filter (same_view (view req))) h (m_commit_cache s)) s.

(** [m[_req.block_hash][_req.sig.hex()] = _req].  The inner key is the hex
    rendering of [sig], which is one-to-one with [sig] itself. *)
Definition put_vote (req : PBFTMsg) (m : gmap Z (gmap Z PBFTMsg)) : gmap Z (gmap Z PBFTMsg) :=
  <[block_hash req := <[sig req := req]> (at_key (block_hash req) m)]> m.

(** [addSignReq] *)
Definition addSignReq (req : PBFTMsg) (s : State) : State :=
  set_m_sign_cache (put_vote req (m_sign_cache s)) s.

(** [addCommitReq]; the roster lookup that follows the insertion only logs. *)
Definition addCommitReq (req : PBFTMsg) (s : State) : State :=
  set_m_commit_cache (put_vote req (m_commit_cache s)) s.

Definition has_vote (req : PBFTMsg) (m : gmap Z (gmap Z PBFTMsg)) : bool :=
  match m !! block_hash req with
  | None => false
  | Some inner => bool_decide (is_Some (inner !! sig req))
  end.

(** [isExistPrepare], [isExistSign], [isExistCommit], [isExistViewChange] *)
Definition isExistPrepare (req : PrepareReq) (s : State) : bool :=
  block_hash (m_raw_prepare_cache s) =? block_hash req.

Definition isExistSign (req : PBFTMsg) (s : State) : bool := has_vote req (m_sign_cache s).

Definition isExistCommit (req : PBFTMsg) (s : State) : bool := has_vote req (m_commit_cache s).

Definition isExistViewChange (req : PBFTMsg) (s : State) : bool :=
  match m_recv_view_change_req s !! view req with
  | None => false
  | Some inner => bool_decide (is_Some (inner !! idx req))
  end.

(** [delCache] *)
Definition delCache (h : Z) (s : State) : State :=
  let s := set_m_sign_cache (delete h (m_sign_cache s)) s in
  let s := set_m_commit_cache (delete h (m_commit_cache s)) s in
  let s := if h =? block_hash (m_prepare_cache s) then set_m_prepare_cache (empty_req) s else s in
  set_m_commitMap (delete h (m_commitMap s)) s.

(** A cached view change survives [delViewChange] / the purge in
    [checkTimeout] unless it is below the tip, or at the tip with another
    hash. *)
Definition vc_fresh (tip : BlockHeader) (kv : Z * PBFTMsg) : Prop :=
  ¬ (height kv.2 < number tip) ∧
  ¬ (height kv.2 = number tip ∧ block_hash kv.2 ≠ hash_WithoutSeal tip).

#[local] Instance vc_fresh_dec tip kv : Decision (vc_fresh tip kv).
Proof. unfold vc_fresh. apply _. Defined.

Definition prune_empty (inner : gmap Z PBFTMsg) : option (gmap Z PBFTMsg) :=
  if decide (size inner = 0%nat) then None else Some inner.

(** [delViewChange] *)
Definition delViewChange (s : State) : State :=
  set_m_recv_view_change_req
    (omap (λ inner, prune_empty (filter (vc_fresh (m_highest_block s)) inner))
          (m_recv_view_change_req s)) s.

Definition not_below (tip : Z) (kv : Z * PBFTMsg) : Prop := ¬ (height kv.2 < tip).

#[local] Instance not_below_dec tip kv : Decision (not_below tip kv).
Proof. unfold not_below. apply _. Defined.

Definition gc_votes (tip : Z) (m : gmap Z (gmap Z PBFTMsg)) : gmap Z (gmap Z PBFTMsg) :=
  omap (λ inner, prune_empty (filter (not_below tip) inner)) m.

(** Hashes whose sign-cache entry is erased by a collection: their
    [m_commitMap] entry goes with them. *)
Definition gc_keeps_flag (tip : Z) (signs : gmap Z (gmap Z PBFTMsg)) (kv : Z * bool) : Prop :=
  signs !! kv.1 = None ∨ is_Some (gc_votes tip signs !! kv.1).

#[local] Instance gc_keeps_flag_dec tip signs kv : Decision (gc_keeps_flag tip signs kv).
Proof. unfold gc_keeps_flag. apply _. Defined.

Definition kCollectInterval : Z := 60.

(** [collectGarbage] *)
Definition collectGarbage (w : World) (s : State) : State :=
  if negb (header_valid (m_highest_block s)) then s
  else if system_clock_now w - m_last_collect_time s >=? kCollectInterval then
    let tip := number (m_highest_block s) in
    let signs := m_sign_cache s in
    let s := set_m_commitMap (filter (gc_keeps_flag tip signs) (m_commitMap s)) s in
    let s := set_m_sign_cache (gc_votes tip signs) s in
    let s := set_m_commit_cache (gc_votes tip (m_commit_cache s)) s in
    set_m_last_collect_time (system_clock_now w) s
  else s.

(** ** Roster and the block-signature verifier *)

Definition is_miner (n : NodeConnParams) : bool :=
  _iIdentityType n =? EN_ACCOUNT_TYPE_MINER.

(** Second loop of [getMinerList]: place each miner at its index, give up
    at the first index that does not fit. *)
Fixpoint fill_miner_list (miner_num : Z) (all_node : list NodeConnParams) (ml : list Z)
  : bool * list Z :=
  match all_node with
  | [] => (true, ml)
  | n :: rest =>
      if is_miner n then
        let i := static_cast_unsigned (_iIdx n) in
        if i >=? miner_num then (false, ml)
        else fill_miner_list miner_num rest (<[Z.to_nat i := _sNodeId n]> ml)
      else fill_miner_list miner_num rest ml
  end.

(** [getMinerList(_blk_no, _miner_list)]: the result flag and the contents
    of the out-parameter, which is resized and partly written even when
    the flag is false. *)
Definition getMinerList (w : World) (blk_no : Z) (ml : list Z) : bool * list Z :=
  let all_node := getAllNodeConnInfo w blk_no in
  let miner_num := length (List.filter is_miner all_node) in
  fill_miner_list (Z.of_nat miner_num) all_node (resize miner_num 0 ml).

(** [resetConfig] *)
Definition resetConfig (w : World) (s : State) : State :=
  match getAccountType_self w with
  | None => set_m_cfg_err true s
  | Some t =>
      let s := set_m_account_type t s in
      let node_num := getMinerNum w in
      if node_num =? 0 then set_m_cfg_err true s
      else
        match getIdx_self w with
        | None => set_m_cfg_err true s
        | Some node_idx =>
            if negb (node_num =? m_node_num s) || negb (node_idx =? m_node_idx s) then
              let s := set_m_node_num node_num s in
              let s := set_m_node_idx node_idx s in
              let s := set_m_f (faulty_of (m_node_num s)) s in
              let s := set_m_prepare_cache (empty_req) s in
              let s := set_m_sign_cache ∅ s in
              let s := set_m_recv_view_change_req ∅ s in
              let s := set_m_commitMap ∅ s in
              let r := getMinerList w (-1) (m_miner_list s) in
              let s := set_m_miner_list (snd r) s in
              if negb (fst r) then set_m_cfg_err true s
              else if negb (Z.of_nat (length (m_miner_list s)) =? m_node_num s)
                   then set_m_cfg_err true s
                   else set_m_cfg_err false s
            else set_m_cfg_err false s
        end
  end.

(** The count test of [checkBlockSign]:
    [miner_list.size() - (miner_list.size() - 1) / 3] in [size_t]. *)
Definition sign_threshold (n : Z) : Z := sub64 n (sub64 n 1 / 3).

(** The verification loop of [checkBlockSign]. *)
Fixpoint check_sigs (ml : list Z) (hash : Z) (sl : list (Z * Z)) : bool :=
  match sl with
  | [] => true
  | item :: rest =>
      if item.1 >=? Z.of_nat (length ml) then false
      else if negb (verify (default 0 (ml !! Z.to_nat (static_cast_int item.1))) item.2 hash)
           then false
           else check_sigs ml hash rest
  end.

(** [checkBlockSign] *)
Definition checkBlockSign (w : World) (header : BlockHeader) (sign_list : list (Z * Z)) : bool :=
  let r := getMinerList w (static_cast_int (sub256 (number header) 1)) [] in
  if negb (fst r) then false
  else if negb (bool_decide (nodeList header = snd r)) then false
  else if Z.of_nat (length sign_list) <? sign_threshold (Z.of_nat (length (snd r))) then false
  else check_sigs (snd r) (hash_WithoutSeal header) sign_list.

(** ** Broadcast layer, seen from the engine

    [broadcastMsg] succeeds exactly when the host is still alive; which
    peers actually get the packet is decided by the per-peer filters
    inside the host and is not part of the engine state. *)
Definition broadcastMsg (w : World) (id : PacketId) (req : PBFTMsg) (blk : bytes)
    (filter : list Z) (s : State) : bool * State :=
  if host_alive w then (true, emit (Broadcast id req blk filter) s) else (false, s).

(** [clearMask] *)
Definition clearMask (w : World) (s : State) : State :=
  if host_alive w then emit ClearMask s else s.

(** [broadcastViewChangeReq] *)
Definition broadcastViewChangeReq (w : World) (s : State) : bool * State :=
  if negb (m_account_type s =? EN_ACCOUNT_TYPE_MINER) then (true, s)
  else
    let req := sign_msg (number (m_highest_block s)) (m_to_view s) (m_node_idx s) (now w)
                        (hash_WithoutSeal (m_highest_block s)) in
    let s := set_m_empty_block_flag false s in
    broadcastMsg w ViewChangeReqPacket req [] [] s.

(** [broadcastSignReq] *)
Definition broadcastSignReq (w : World) (req : PrepareReq) (s : State) : bool * State :=
  let sign_req := sign_msg (height req) (view req) (m_node_idx s) (now w) (block_hash req) in
  let r := broadcastMsg w SignReqPacket sign_req [] [] s in
  if fst r then (true, addSignReq sign_req (snd r)) else (false, snd r).

(** [broadcastCommitReq] *)
Definition broadcastCommitReq (w : World) (req : PrepareReq) (s : State) : bool * State :=
  let commit_req := sign_msg (height req) (view req) (m_node_idx s) (now w) (block_hash req) in
  let r := broadcastMsg w CommitReqPacket commit_req [] [] s in
  if fst r then (true, addCommitReq commit_req (snd r)) else (false, snd r).

(** [broadcastPrepareReq] *)
Definition broadcastPrepareReq (w : World) (bi : BlockHeader) (block_data : bytes) (s : State)
  : bool * State :=
  let req := mkPrepare (sign_msg (number bi) (m_view s) (m_node_idx s) (now w)
                                 (hash_WithoutSeal bi)) block_data in
  let r := broadcastMsg w PrepareReqPacket req block_data [] s in
  if fst r then (true, addRawPrepare req (snd r)) else (false, snd r).

(** ** Phase transitions *)

(** The signature list built in [checkAndSave]: one pair per entry of the
    commit cache of the hash, [idx] from the stored vote and the signature
    read back from the key.  The iteration order is the container's. *)
Definition sig_list_of (commits : gmap Z PBFTMsg) : list (Z * Z) :=
  (λ item : Z * PBFTMsg, (idx item.2, item.1)) <$> map_to_list commits.

(** The four raw items copied from the proposal's block. *)
Definition block_items (blk : bytes) : list bytes :=
  [rlp_item blk 0; rlp_item blk 1; rlp_item blk 2; rlp_item blk 3].

(** [checkAndSave] *)
Definition checkAndSave (s : State) : State :=
  let h := block_hash (m_prepare_cache s) in
  let s := set_m_sign_cache (touch h (m_sign_cache s)) s in
  let s := set_m_commit_cache (touch h (m_commit_cache s)) s in
  let have_sign := Z.of_nat (size (at_key h (m_sign_cache s))) in
  let have_commit := Z.of_nat (size (at_key h (m_commit_cache s))) in
  let committed := default false (m_commitMap s !! h) in
  if (have_sign >=? quorum s) && (have_commit >=? quorum s) && negb committed then
    let s := set_m_commitMap (<[h := true]> (m_commitMap s)) s in
    if negb (view (m_prepare_cache s) =? m_view s) then s
    else if height (m_prepare_cache s) >? number (m_highest_block s) then
      emit (OnSealGenerated h (block_items (block (m_prepare_cache s)))
                            (sig_list_of (at_key h (m_commit_cache s)))
                            (idx (m_prepare_cache s) =? m_node_idx s)) s
    else s
  else s.

(** [checkAndCommit] *)
Definition checkAndCommit (w : World) (s : State) : State :=
  let h := block_hash (m_prepare_cache s) in
  let s := set_m_sign_cache (touch h (m_sign_cache s)) s in
  let have_sign := Z.of_nat (size (at_key h (m_sign_cache s))) in
  if have_sign =? quorum s then
    if negb (view (m_prepare_cache s) =? m_view s) then s
    else
      let s := set_m_committed_prepare_cache (m_raw_prepare_cache s) s in
      let s := emit (BackupMsg (m_committed_prepare_cache s)) s in
      let s := if m_account_type s =? EN_ACCOUNT_TYPE_MINER
               then snd (broadcastCommitReq w (m_prepare_cache s) s) else s in
      let s := set_m_last_sign_time (now w) s in
      checkAndSave s
  else s.

Definition above (v : Z) (kv : Z * gmap Z PBFTMsg) : Prop := ¬ (kv.1 ≤ v).

#[local] Instance above_dec v kv : Decision (above v kv).
Proof. unfold above. apply _. Defined.

(** [checkAndChangeView] *)
Definition checkAndChangeView (s : State) : State :=
  let s := set_m_recv_view_change_req (touch (m_to_view s) (m_recv_view_change_req s)) s in
  let count := Z.of_nat (size (at_key (m_to_view s) (m_recv_view_change_req s))) in
  if count >=? sub256 (quorum s) 1 then
    let s := emit (LogReachConsensus (m_to_view s)) s in
    let s := set_m_leader_failed false s in
    let s := set_m_view (m_to_view s) s in
    let s := set_m_raw_prepare_cache (empty_req) s in
    let s := set_m_prepare_cache (empty_req) s in
    let s := set_m_sign_cache ∅ s in
    let s := set_m_commit_cache ∅ s in
    let s := set_m_commitMap ∅ s in
    set_m_recv_view_change_req (filter (above (m_view s)) (m_recv_view_change_req s)) s
  else s.

(** ** Handlers *)

(** [recvFutureBlock] *)
Definition recvFutureBlock (from : Z) (req : PrepareReq) (s : State) : State :=
  if negb (block_hash (snd (m_future_prepare_cache s)) =? block_hash req)
  then set_m_future_prepare_cache (from, req) s
  else s.

(** [changeViewForEmptyBlockWithoutLock] *)
Definition changeViewForEmptyBlockWithoutLock (s : State) : State :=
  let s := set_m_last_consensus_time 0 s in
  let s := set_m_last_sign_time 0 s in
  let s := set_m_change_cycle 0 s in
  let s := set_m_empty_block_flag true s in
  emit Notify s.

(** [changeViewForEmptyBlockWithLock] *)
Definition changeViewForEmptyBlockWithLock (s : State) : State :=
  let s := set_m_last_consensus_time 0 s in
  let s := set_m_last_sign_time 0 s in
  let s := set_m_change_cycle 0 s in
  let s := set_m_empty_block_flag true s in
  let s := set_m_leader_failed true s in
  emit Notify s.

(** The tail of [handlePrepareMsg] once the executor has produced
    [outBlock]: re-seal, rebuild the proposal over the executed hash, store
    it, vote. *)
Definition acceptExecuted (w : World) (from : Z) (req : PrepareReq) (x : Executed) (s : State)
  : State :=
  if negb (exec_hash x =? block_hash req) then s
  else
    let s := set_m_last_exec_finish_time (now w) s in
    if (Nat.eqb (exec_pending x) 0) && m_omit_empty_block s
    then changeViewForEmptyBlockWithoutLock s
    else
      let s := emit (AddBlockCache x) s in
      if negb (exec_seal_ok x) then s
      else
        let req' := mkPrepare (sign_msg (height req) (view req) (idx req) (now w)
                                        (exec_sealed_hash x)) (exec_block_data x) in
        let s := addPrepareReq req' s in
        let s := if m_account_type s =? EN_ACCOUNT_TYPE_MINER
                 then snd (broadcastSignReq w req' s) else s in
        checkAndCommit w s.

(** [handlePrepareMsg] *)
Definition handlePrepareMsg (w : World) (from : Z) (req : PrepareReq) (self : bool) (s : State)
  : State :=
  if isExistPrepare req s then s
  else if negb self && (idx req =? m_node_idx s) then s
  else if (height req <? m_consensus_block_number s) || (view req <? m_view s) then s
  else if (height req >? m_consensus_block_number s) || (view req >? m_view s)
  then recvFutureBlock from req s
  else
    let leader := getLeader s in
    if negb (fst leader) || negb (idx req =? snd leader) then s
    else if (height req =? height (m_committed_prepare_cache s))
            && negb (block_hash req =? block_hash (m_committed_prepare_cache s)) then s
    else if negb (checkSign w req) then s
    else
      let s := addRawPrepare req s in
      match checkBlockValid w (block_hash req) (block req) with
      | ExecThrows => s
      | ExecDone x => acceptExecuted w from req x s
      end.

(** [reHandlePrepareReq] *)
Definition reHandlePrepareReq (w : World) (req : PrepareReq) (s : State) : State :=
  let s := clearMask w s in
  let req' := mkPrepare (sign_msg (height req) (m_view s) (m_node_idx s) (now w)
                                  (block_hash req)) (block req) in
  let s := snd (broadcastMsg w PrepareReqPacket req' (block req') [] s) in
  handlePrepareMsg w (m_node_idx s) req' true s.

(** [handleSignMsg] *)
Definition handleSignMsg (w : World) (from : Z) (req : PBFTMsg) (s : State) : State :=
  if isExistSign req s then s
  else if idx req =? m_node_idx s then s
  else if negb (block_hash (m_prepare_cache s) =? block_hash req) then
    let future_msg := (height req >=? m_consensus_block_number s) || (view req >? m_view s) in
    if future_msg && checkSign w req then addSignReq req s else s
  else if negb (view (m_prepare_cache s) =? view req) then s
  else if negb (checkSign w req) then s
  else checkAndCommit w (addSignReq req s).

(** [handleCommitMsg] *)
Definition handleCommitMsg (w : World) (from : Z) (req : PBFTMsg) (s : State) : State :=
  if isExistCommit req s then s
  else if idx req =? m_node_idx s then s
  else if negb (block_hash (m_prepare_cache s) =? block_hash req) then
    let future_msg := (height req >=? m_consensus_block_number s) || (view req >? m_view s) in
    if future_msg && checkSign w req then addCommitReq req s else s
  else if negb (view (m_prepare_cache s) =? view req) then s
  else if negb (checkSign w req) then s
  else checkAndSave (addCommitReq req s).

(** The running values of the signer scan in [handleViewChangeMsg]. *)
Record VcScan := mkScan {
  idx_view_map : gmap Z Z;
  min_view : Z;
  min_height : Z
}.

Definition vc_scan_vote (tip v : Z) (acc : VcScan) (kv : Z * PBFTMsg) : VcScan :=
  let newer := match idx_view_map acc !! kv.1 with
               | None => true
               | Some v0 => v >? v0
               end in
  if (height kv.2 >=? tip) && newer then
    mkScan (<[kv.1 := v]> (idx_view_map acc))
           (if min_view acc >? v then v else min_view acc)
           (if min_height acc >? height kv.2 then height kv.2 else min_height acc)
  else acc.

Definition vc_scan_view (tip to_view : Z) (acc : VcScan) (kv : Z * gmap Z PBFTMsg) : VcScan :=
  if kv.1 >? to_view then foldl (vc_scan_vote tip kv.1) acc (map_to_list kv.2) else acc.

Definition vc_scan (s : State) : VcScan :=
  foldl (vc_scan_view (number (m_highest_block s)) (m_to_view s))
        (mkScan ∅ (Invalid256) (Invalid256))
        (map_to_list (m_recv_view_change_req s)).

(** [handleViewChangeMsg] *)
Definition handleViewChangeMsg (w : World) (from : Z) (req : PBFTMsg) (s : State) : State :=
  let tip := m_highest_block s in
  if isExistViewChange req s then s
  else if idx req =? m_node_idx s then s
  else
    let s :=
      if (add256 (view req) 1 <? m_to_view s) && (idx req =? from)
         && (m_account_type s =? EN_ACCOUNT_TYPE_MINER) && session_peer_ok w
      then emit (SendViewChange (sign_msg (number tip) (m_to_view s) (m_node_idx s) (now w)
                                          (hash_WithoutSeal tip))) s
      else s in
    if (height req <? number tip) || (view req <=? m_view s) then s
    else if (height req =? number tip) && negb (block_hash req =? hash_WithoutSeal tip)
            && Nat.eqb (chain_block_size w (block_hash req)) 0 then s
    else if negb (checkSign w req) then s
    else
      let vcs := m_recv_view_change_req s in
      let s := set_m_recv_view_change_req
                 (<[view req := <[idx req := req]> (at_key (view req) vcs)]> vcs) s in
      if view req =? m_to_view s then checkAndChangeView s
      else
        let sc := vc_scan s in
        let count := Z.of_nat (size (idx_view_map sc)) in
        let flag := (min_height sc =? m_consensus_block_number s)
                    && (min_height sc =? height (m_committed_prepare_cache s)) in
        if (count >? m_f s) && negb flag then
          let s := set_m_last_consensus_time 0 s in
          let s := set_m_last_sign_time 0 s in
          let s := set_m_to_view (sub256 (min_view sc) 1) s in
          let s := set_m_change_cycle
                     (Z.min (static_cast_unsigned (m_to_view s)) (kMaxChangeCycle)) s in
          emit Notify s
        else s.

(** [handleMsg]: dispatch, then relay the packet when it is recent enough
    and came from its author. *)
Definition relay (w : World) (id : PacketId) (pbft_msg : PBFTMsg) (raw : bytes)
    (from node : Z) (s : State) : State :=
  let tip := number (m_highest_block s) in
  let height_flag := (height pbft_msg >? tip) || (sub256 tip (height pbft_msg) <? 10) in
  if height_flag && (idx pbft_msg =? from) then
    let filter := node :: match getPublicKey w (idx pbft_msg) with
                          | Some gen_node_id => [gen_node_id]
                          | None => []
                          end in
    snd (broadcastMsg w id pbft_msg raw filter s)
  else s.

Definition handleMsg (w : World) (pkt : Packet) (from node : Z) (s : State) : State :=
  match pkt with
  | PktPrepare req =>
      relay w PrepareReqPacket req (block req) from node (handlePrepareMsg w from req false s)
  | PktSign req => relay w SignReqPacket req [] from node (handleSignMsg w from req s)
  | PktCommit req => relay w CommitReqPacket req [] from node (handleCommitMsg w from req s)
  | PktViewChange req =>
      relay w ViewChangeReqPacket req [] from node (handleViewChangeMsg w from req s)
  | PktOther _ => s
  end.

(** [checkTimeout]; [m_onViewChange] is taken to be registered. *)
Definition checkTimeout (w : World) (s : State) : State :=
  let last_time := Z.max (m_last_consensus_time s) (m_last_sign_time s) in
  let interval := timeout_interval (m_view_timeout s) (m_change_cycle s) in
  if sub64 (now w) last_time >=? interval then
    let s := set_m_leader_failed true s in
    let s := set_m_to_view (add256 (m_to_view s) 1) s in
    let s := set_m_change_cycle (Z.min (add32 (m_change_cycle s) 1) (kMaxChangeCycle)) s in
    let s := set_m_last_consensus_time (now w) s in
    let vcs := m_recv_view_change_req s in
    let s := set_m_recv_view_change_req
               (<[m_to_view s := filter (vc_fresh (m_highest_block s)) (at_key (m_to_view s) vcs)]>
                  vcs) s in
    let r := broadcastViewChangeReq w s in
    if negb (fst r) then snd r
    else emit OnViewChange (checkAndChangeView (snd r))
  else s.

(** [handleFutureBlock] *)
Definition handleFutureBlock (w : World) (s : State) : State :=
  let fut := m_future_prepare_cache s in
  if (height (snd fut) =? m_consensus_block_number s) && (view (snd fut) =? m_view s) then
    let s := handlePrepareMsg w (fst fut) (snd fut) false s in
    set_m_future_prepare_cache (Invalid256, empty_req) s
  else s.

(** ** Entry points called by the client *)

(** [generateSeal]: the flag and the view written to [_view]. *)
Definition generateSeal (w : World) (bi : BlockHeader) (block_data : bytes) (s : State)
  : (bool * Z) * State :=
  let r := broadcastPrepareReq w bi block_data s in
  ((fst r, m_view s), snd r).

(** [generateCommit] *)
Definition generateCommit (w : World) (bi : BlockHeader) (block_data : bytes) (v : Z) (s : State)
  : bool * State :=
  if negb (v =? m_view s) then (false, s)
  else
    let req := mkPrepare (sign_msg (number bi) v (m_node_idx s) (now w) (hash_WithoutSeal bi))
                         block_data in
    let s := addPrepareReq req s in
    let r := broadcastSignReq w req s in
    (true, if fst r then checkAndCommit w (snd r) else snd r).

(** [shouldSeal] *)
Definition shouldSeal (w : World) (s : State) : bool * State :=
  if m_cfg_err s || negb (m_account_type s =? EN_ACCOUNT_TYPE_MINER) then (false, s)
  else
    let ret := getLeader s in
    if negb (fst ret) then (false, s)
    else if negb (snd ret =? m_node_idx s) then
      (false,
       match (if host_alive w then getPublicKey w (snd ret) else None) with
       | Some node_id =>
           if negb (isConnected w node_id)
           then emit Notify (set_m_last_sign_time 0 (set_m_last_consensus_time 0 s))
           else s
       | None => s
       end)
    else if m_consensus_block_number s =? height (m_committed_prepare_cache s) then
      (false,
       if negb (m_consensus_block_number s =? height (m_raw_prepare_cache s))
       then reHandlePrepareReq w (m_committed_prepare_cache s) s
       else s)
    else (true, s).

(** [reportBlock] *)
Definition reportBlock (w : World) (b : BlockHeader) (s : State) : State :=
  let s := set_m_highest_block b s in
  let s :=
    if number (m_highest_block s) >=? m_consensus_block_number s then
      let s := set_m_change_cycle 0 s in
      let s := set_m_to_view 0 s in
      let s := set_m_view 0 s in
      let s := set_m_leader_failed false s in
      let s := set_m_last_consensus_time (now w) s in
      let s := set_m_consensus_block_number (add256 (number (m_highest_block s)) 1) s in
      delViewChange s
    else s in
  let s := resetConfig w s in
  delCache (hash_WithoutSeal (m_highest_block s)) s.

(** ** One run of the engine *)

(** The entry points that take [m_mutex]. *)
Inductive Event :=
| EGenerateSeal (bi : BlockHeader) (block_data : bytes)
| EGenerateCommit (bi : BlockHeader) (block_data : bytes) (v : Z)
| EShouldSeal
| EReportBlock (b : BlockHeader)
| EHandleMsg (pkt : Packet) (from node : Z)
| ECheckTimeout
| EHandleFutureBlock
| ECollectGarbage
| EChangeViewForEmptyBlock.

Definition step (w : World) (ev : Event) (s : State) : State :=
  match ev with
  | EGenerateSeal bi block_data => snd (generateSeal w bi block_data s)
  | EGenerateCommit bi block_data v => snd (generateCommit w bi block_data v s)
  | EShouldSeal => snd (shouldSeal w s)
  | EReportBlock b => reportBlock w b s
  | EHandleMsg pkt from node => handleMsg w pkt from node s
  | ECheckTimeout => checkTimeout w s
  | EHandleFutureBlock => handleFutureBlock w s
  | ECollectGarbage => collectGarbage w s
  | EChangeViewForEmptyBlock => changeViewForEmptyBlockWithLock s
  end.

(** A schedule: each entry point with the world it runs in. *)
Fixpoint run (sched : list (World * Event)) (s : State) : State :=
  match sched with
  | [] => s
  | (w, ev) :: rest => run rest (step w ev s)
  end.

End Engine.

(** * The peer-seen filters behind [broadcastMsg]

    [broadcastMsg] above is the engine's view of a broadcast.  What
    follows is the body of its [foreachPeer] loop with [broadcastFilter],
    [broadcastMark] and [clearMask], on the four per-peer key sets. *)
Section PeerFilter.
Context {E : Env} {K : Type} `{EqDecision K}.

(** Modelled from the spec: the container of [m_knownPrepare],
    [m_knownSign], [m_knownCommit] and [m_knownViewChange] is declared in
    the peer header, which is not part of the sources; section 4.2 of the
    specification describes it as an insertion-ordered set whose oldest
    entry is evicted.  The list holds the keys oldest first; [push] of a
    key already present does nothing, [pop] drops the oldest key. *)
Definition qs_exist (k : K) (q : list K) : bool := bool_decide (k ∈ q).

Definition qs_push (k : K) (q : list K) : list K := if qs_exist k q then q else q ++ [k].

Definition qs_pop (q : list K) : list K := drop 1 q.

(** The four sets of a [PBFTPeer], and its session: [peer_id] is [None]
    when the peer has no session or a null node id. *)
Record PBFTPeer := mkPeer {
  peer_id : option h512;
  m_knownPrepare : list K;
  m_knownSign : list K;
  m_knownCommit : list K;
  m_knownViewChange : list K
}.

Definition known (id : PacketId) (p : PBFTPeer) : list K :=
  match id with
  | PrepareReqPacket => m_knownPrepare p
  | SignReqPacket => m_knownSign p
  | CommitReqPacket => m_knownCommit p
  | ViewChangeReqPacket => m_knownViewChange p
  end.

Definition set_known (id : PacketId) (q : list K) (p : PBFTPeer) : PBFTPeer :=
  match id with
  | PrepareReqPacket =>
      mkPeer (peer_id p) q (m_knownSign p) (m_knownCommit p) (m_knownViewChange p)
  | SignReqPacket =>
      mkPeer (peer_id p) (m_knownPrepare p) q (m_knownCommit p) (m_knownViewChange p)
  | CommitReqPacket =>
      mkPeer (peer_id p) (m_knownPrepare p) (m_knownSign p) q (m_knownViewChange p)
  | ViewChangeReqPacket =>
      mkPeer (peer_id p) (m_knownPrepare p) (m_knownSign p) (m_knownCommit p) q
  end.

(** The capacities [kKnownPrepare], [kKnownSign], [kKnownCommit],
    [kKnownViewChange] are constants of the engine header. *)
Context (kKnown : PacketId → nat).

(** The roster's [getAccountType] for a peer's node id. *)
Context (getAccountType : h512 → option Z).

(** [broadcastFilter]: an id outside the four kinds ([None]) is reported
    as already known. *)
Definition broadcastFilter (key : K) (id : option PacketId) (p : PBFTPeer) : bool :=
  match id with
  | Some i => qs_exist key (known i p)
  | None => true
  end.

(** [broadcastMark] *)
Definition broadcastMark (key : K) (id : option PacketId) (p : PBFTPeer) : PBFTPeer :=
  match id with
  | Some i =>
      let q := known i p in
      if qs_exist key q then p
      else set_known i (qs_push key (if (kKnown i <? length q)%nat then qs_pop q else q)) p
  | None => p
  end.

(** The lambda that [broadcastMsg] runs on one peer: whether the packet
    is written to the peer, and the peer afterwards. *)
Definition broadcast_to (key : K) (id : option PacketId) (filter : list h512) (p : PBFTPeer)
  : bool * PBFTPeer :=
  match peer_id p with
  | None => (false, p)
  | Some nodeid =>
      match getAccountType nodeid with
      | None => (false, p)
      | Some account_type =>
          if negb (account_type =? EN_ACCOUNT_TYPE_MINER) then (false, p)
          else if bool_decide (nodeid ∈ filter) then (false, broadcastMark key id p)
          else if broadcastFilter key id p then (false, p)
          else (true, broadcastMark key id p)
      end
  end.

(** [h->foreachPeer(...)] of [broadcastMsg]: the peers written to, and
    all peers afterwards. *)
Definition broadcast_round (key : K) (id : option PacketId) (filter : list h512)
    (peers : list PBFTPeer) : list (bool * PBFTPeer) :=
  broadcast_to key id filter <$> peers.

(** [clearMask], on one peer and on all of them. *)
Definition clear_peer (p : PBFTPeer) : PBFTPeer := mkPeer (peer_id p) [] [] [] [].

Definition clearMask_peers (peers : list PBFTPeer) : list PBFTPeer := clear_peer <$> peers.

End PeerFilter.

(** * Vocabulary of the properties *)

(** The actions a call appended to the outbox. *)
Definition emitted (s s' : State) : list Effect := drop (length (outbox s)) (outbox s').



Definition no_seal (e : Effect) : Prop :=
  match e with
  | OnSealGenerated _ _ _ _ => False
  | _ => True
  end.

(** [committed] as read at the top of [checkAndSave]: the entry of
    [m_commitMap] if there is one, false otherwise. *)
Definition triggered (h : Z) (s : State) : bool := default false (m_commitMap s !! h).

(** A call from [s] to [s'] that invokes [onSealGenerated] at most once,
    and only for a hash whose flag it finds unset and leaves set. *)
Definition seals_once (s s' : State) : Prop :=
  ∃ l, outbox s' = outbox s ++ l ∧
       (Forall no_seal l ∨
        ∃ h items sl p l1 l2,
          l = l1 ++ OnSealGenerated h items sl p :: l2 ∧ Forall no_seal l1 ∧ Forall no_seal l2 ∧
          triggered h s = false ∧ triggered h s' = true).

(** A call of the voting pipeline: it seals at most once and clears no
    flag. *)
Definition casts_votes (s s' : State) : Prop :=
  seals_once s s' ∧ ∀ h, triggered h s = true → triggered h s' = true.

(** A call that neither seals nor touches [m_commitMap]. *)
Definition quiet (s s' : State) : Prop :=
  ∃ l, outbox s' = outbox s ++ l ∧ Forall no_seal l ∧ m_commitMap s' = m_commitMap s.

(** A call that does not seal. *)
Definition silent (s s' : State) : Prop :=
  ∃ l, outbox s' = outbox s ++ l ∧ Forall no_seal l.


(** The two vote counts tested first in [checkAndSave]. *)
Definition votes_reach_quorum `{Env} (s : State) : bool :=
  let h := block_hash (m_prepare_cache s) in
  (Z.of_nat (size (at_key h (m_sign_cache s))) >=? quorum s)
  && (Z.of_nat (size (at_key h (m_commit_cache s))) >=? quorum s).

(** The sealed block handed to [onSealGenerated] by [checkAndSave]. *)
Definition sealed_block `{Env} (s : State) : Effect :=
  let h := block_hash (m_prepare_cache s) in
  OnSealGenerated h (block_items (block (m_prepare_cache s)))
                  (sig_list_of (at_key h (m_commit_cache s)))
                  (idx (m_prepare_cache s) =? m_node_idx s).

(** One pair of a sealed block's signature list is backed by the roster:
    its index is in range and the key at that index verifies the
    signature over the pre-seal hash. *)
Definition sig_ok `{Env} (ml : list Z) (hash : Z) (item : Z * Z) : Prop :=
  item.1 < Z.of_nat (length ml)
  ∧ ∃ pk, ml !! Z.to_nat item.1 = Some pk ∧ verify pk item.2 hash = true.

(** [future_msg] of [handleSignMsg] and [handleCommitMsg]. *)
Definition future_msg (req : PBFTMsg) (s : State) : bool :=
  (height req >=? m_consensus_block_number s) || (view req >? m_view s).

(** The guards of [handlePrepareMsg] in front of [addRawPrepare]: not a
    duplicate, not a reflected own proposal, for the current height and
    view, from the primary, compatible with the committed proposal, and
    correctly signed. *)
Definition prepare_admitted `{Env} (w : World) (req : PrepareReq) (self : bool) (s : State)
  : bool :=
  negb (isExistPrepare req s)
  && negb (negb self && (idx req =? m_node_idx s))
  && (height req =? m_consensus_block_number s) && (view req =? m_view s)
  && fst (getLeader s) && (idx req =? snd (getLeader s))
  && negb ((height req =? height (m_committed_prepare_cache s))
           && negb (block_hash req =? block_hash (m_committed_prepare_cache s)))
  && checkSign w req.

(** The executor outcome with which [handlePrepareMsg] reaches
    [addPrepareReq]: no exception, the claimed hash, not an omitted empty
    block, and a successful re-seal. *)
Definition prepare_stored `{Env} (w : World) (req : PrepareReq) (s : State) : option Executed :=
  match checkBlockValid w (block_hash req) (block req) with
  | ExecThrows => None
  | ExecDone x =>
      if (exec_hash x =? block_hash req)
         && negb (Nat.eqb (exec_pending x) 0 && m_omit_empty_block s)
         && exec_seal_ok x
      then Some x else None
  end.

(** The checks of [shouldSeal] in front of the committed-prepare test. *)
Definition is_primary_miner `{Env} (s : State) : bool :=
  negb (m_cfg_err s) && (m_account_type s =? EN_ACCOUNT_TYPE_MINER)
  && fst (getLeader s) && (snd (getLeader s) =? m_node_idx s).

(** A call that can only take [m_leader_failed] from true to false by
    completing a view change, which [checkAndChangeView] logs. *)
Definition cleared_by_view_change (s s' : State) : Prop :=
  ∃ l, outbox s' = outbox s ++ l
       ∧ (m_leader_failed s' = false →
          m_leader_failed s = false ∨ ∃ v, LogReachConsensus v ∈ l).


(** * Vocabulary of the engine invariants *)

(** What only [reportBlock] (through [resetConfig]) may change: the
    configuration read from the roster, the chain tip and the height
    under agreement. *)
Definition ground_of (s : State) :=
  (m_cfg_err s, m_account_type s, m_node_num s, m_node_idx s, m_f s, m_miner_list s,
   m_highest_block s, m_consensus_block_number s).

(** The view state. *)
Definition views_of (s : State) := (m_view s, m_to_view s, m_leader_failed s).

Definition is_report (ev : Event) : bool :=
  match ev with
  | EReportBlock _ => true
  | _ => false
  end.

(** A configuration as [resetConfig] leaves it: a usable configuration
    has a non-empty roster, and [m_f] is derived from [m_node_num]. *)
Definition config_wf `{Env} (s : State) : Prop :=
  (m_cfg_err s = false → m_node_num s ≠ 0) ∧ m_f s = faulty_of (m_node_num s).

(** The height under agreement is above the chain tip. *)
Definition above_tip (s : State) : Prop :=
  number (m_highest_block s) < m_consensus_block_number s.

(** Every header a schedule reports has a block number that [+ 1] does
    not wrap. *)
Definition reports_in_range (ev : Event) : Prop :=
  match ev with
  | EReportBlock b => 0 ≤ number b < 2 ^ 256 - 1
  | _ => True
  end.

(** The entry points that may change the view state: a chain report, a
    timeout, a view-change packet, and the empty-block hook. *)
Definition touches_views (ev : Event) : bool :=
  match ev with
  | EReportBlock _ | ECheckTimeout | EChangeViewForEmptyBlock => true
  | EHandleMsg (PktViewChange _) _ _ => true
  | _ => false
  end.

(** Vote [v] is cached for block hash [h] under inner key [k]. *)
Definition vote_at (m : gmap Z (gmap Z PBFTMsg)) (h k : Z) (v : PBFTMsg) : Prop :=
  ∃ inner, m !! h = Some inner ∧ inner !! k = Some v.

(** The state right after a completed view change: no proposal, no vote,
    no seal flag, the leader not suspected, the view at its target, and no
    view-change request left for that view or an older one. *)
Definition wiped `{Env} (s : State) : Prop :=
  m_raw_prepare_cache s = empty_req
  ∧ m_prepare_cache s = empty_req
  ∧ m_sign_cache s = ∅
  ∧ m_commit_cache s = ∅
  ∧ m_commitMap s = ∅
  ∧ m_leader_failed s = false
  ∧ m_view s = m_to_view s
  ∧ ∀ v, is_Some (m_recv_view_change_req s !! v) → m_view s < v.

(** The slots [getMinerList] writes to, in iteration order: the index of
    every miner of the roster, as [static_cast<unsigned>] gives it. *)
Definition miner_slots `{Env} (all_node : list NodeConnParams) : list Z :=
  (λ n, static_cast_unsigned (_iIdx n)) <$> List.filter is_miner all_node.

(** A peer [broadcastMsg] considers at all: it has a session with a node
    id, the roster knows the id as a miner, and the caller did not exclude
    it. *)
Definition listening `{Env} {K : Type} (getAccountType : h512 → option Z) (filter : list h512)
    (p : PBFTPeer (K:=K)) : bool :=
  match peer_id p with
  | Some nodeid =>
      match getAccountType nodeid with
      | Some account_type =>
          (account_type =? EN_ACCOUNT_TYPE_MINER) && negb (bool_decide (nodeid ∈ filter))
      | None => false
      end
  | None => false
  end.

(** Every known-set of the peer holds at most one key more than its
    capacity. *)
Definition within_caps {K : Type} (kKnown : PacketId → nat) (p : PBFTPeer (K:=K)) : Prop :=
  ∀ i, (length (known i p) ≤ S (kKnown i))%nat.

#[global] Instance PacketId_eq_dec : EqDecision PacketId.
Proof. solve_decision. Defined.

(** The target view is a [u256] with room for one more view change below
    [Invalid256], the largest [u256]. *)
Definition view_headroom `{Env} (s : State) : Prop :=
  0 ≤ m_to_view s < Invalid256 ∧ Invalid256 < 2 ^ 256.

(** Neither the view nor the target view went back, and the view is not
    ahead of its target. *)
Definition views_grow (s s' : State) : Prop :=
  m_view s ≤ m_view s' ∧ m_to_view s ≤ m_to_view s' ∧ m_view s' ≤ m_to_view s'.

(** The test at the top of [checkAndCommit] followed by its view test:
    the signatures for the proposal are exactly the quorum, and the
    proposal is for the current view. *)
Definition commit_due `{Env} (s : State) : bool :=
  (Z.of_nat (size (at_key (block_hash (m_prepare_cache s)) (m_sign_cache s))) =? quorum s)
  && (view (m_prepare_cache s) =? m_view s).

(** The commit vote [broadcastCommitReq] builds for the proposal in
    [m_prepare_cache]. *)
Definition own_commit_vote `{Env} (w : World) (s : State) : PBFTMsg :=
  sign_msg (height (m_prepare_cache s)) (view (m_prepare_cache s)) (m_node_idx s) (now w)
           (block_hash (m_prepare_cache s)).

(** [checkAndCommit] gets its commit vote out: the node is a miner and the
    host is alive. *)
Definition votes_commit `{Env} (w : World) (s : State) : bool :=
  (m_account_type s =? EN_ACCOUNT_TYPE_MINER) && host_alive w.

(** What [checkAndCommit] broadcasts between the backup and
    [checkAndSave]. *)
Definition commit_broadcast `{Env} (w : World) (s : State) : list Effect :=
  if votes_commit w s then [Broadcast CommitReqPacket (own_commit_vote w s) [] []] else [].

(** Every message of a two-level cache sits under its own keys: the
    outer key is [f] of the message and the inner key is [g] of it. *)
Definition filed (f g : PBFTMsg → Z) (m : gmap Z (gmap Z PBFTMsg)) : Prop :=
  map_Forall (λ h inner, map_Forall (λ k v, f v = h ∧ g v = k) inner) m.

(** A sign or commit vote is cached under its block hash and signature, a
    view-change request under its view and sender index. *)
Definition caches_filed (s : State) : Prop :=
  filed block_hash sig (m_sign_cache s)
  ∧ filed block_hash sig (m_commit_cache s)
  ∧ filed view idx (m_recv_view_change_req s).

(** The back-off exponent of the view timeout is within its cap. *)
Definition cycle_capped `{Env} (s : State) : Prop := m_change_cycle s ≤ kMaxChangeCycle.

(** A sealed block handed to [onSealGenerated] carries at least [q]
    signatures; any other action passes. *)
Definition seal_backed (q : Z) (e : Effect) : Prop :=
  match e with
  | OnSealGenerated _ _ sig_list _ => q ≤ Z.of_nat (length sig_list)
  | _ => True
  end.

(** The quorum is [q], and every block sealed since the outbox had [n]
    entries carries at least [q] signatures. *)
Definition seals_backed `{Env} (n : nat) (q : Z) (s : State) : Prop :=
  quorum s = q ∧ (n ≤ length (outbox s))%nat ∧ Forall (seal_backed q) (drop n (outbox s)).

(** Any action but the broadcast of a sign vote. *)
Definition not_sign_vote (e : Effect) : Prop :=
  match e with
  | Broadcast SignReqPacket _ _ _ => False
  | _ => True
  end.

(** * A concrete four-miner deployment

    Used to run the engine on explicit inputs: node 0 is the local node,
    the chain tip is block 9, so height 10 is under agreement and node
    [(0 + 9) mod 4 = 1] is the primary of view 0. *)
Module Scenario.

(** A toy signature scheme with the one feature of ECDSA that matters to
    the vote caches: a signer can produce several valid signatures of the
    same hash (the low byte is a free nonce). *)
Definition toy_sign (pub hash nonce : Z) : Z := (hash * 65536 + pub) * 256 + nonce.

Definition toy_verify (pub sg hash : Z) : bool := sg / 256 =? hash * 65536 + pub.

Definition pub_of (i : Z) : Z := 1000 + i.

Definition toy_fields (r : PBFTMsg) : Z :=
  height r + 100 * view r + 10000 * idx r + 1000000 * block_hash r.

Definition no_req : PrepareReq :=
  mkPrepare (mkMsg (2 ^ 256 - 1) (2 ^ 256 - 1) (2 ^ 256 - 1) (2 ^ 256 - 1) 0 0 0) [].

#[export] Instance env : Env := {|
  Invalid256 := 2 ^ 256 - 1;
  EN_ACCOUNT_TYPE_MINER := 1;
  kMaxChangeCycle := 20;
  empty_req := no_req;
  signHash := λ h, toy_sign (pub_of 0) h 0;
  verify := toy_verify;
  fieldsWithoutBlock := toy_fields;
  timeout_interval := λ t c, t * 3 ^ c / 2 ^ c;
  static_cast_int := λ x, let y := x mod 2 ^ 32 in if y <? 2 ^ 31 then y else y - 2 ^ 32;
  static_cast_unsigned := λ x, x mod 2 ^ 32;
  rlp_item := λ b i, match b !! i with Some x => [x] | None => [] end;
  header_valid := λ h, negb (hdr_timestamp h =? 2 ^ 256 - 1)
|}.

Definition miners : list NodeConnParams :=
  [mkNode (pub_of 0) 1 0; mkNode (pub_of 1) 1 1; mkNode (pub_of 2) 1 2; mkNode (pub_of 3) 1 3].

(** The executor accepts every block; re-sealing moves the hash from [h]
    to [h + 1]. *)
Definition world (t : Z) : World := {|
  now := t;
  system_clock_now := t / 1000;
  host_alive := true;
  isConnected := λ _, true;
  session_peer_ok := true;
  getPublicKey := λ i, if (0 <=? i) && (i <? 4) then Some (pub_of i) else None;
  getAccountType_self := Some 1;
  getMinerNum := 4;
  getIdx_self := Some 0;
  getAllNodeConnInfo := λ _, miners;
  checkBlockValid := λ h b, ExecDone (mkExecuted h 1 true (h + 1) b);
  chain_block_size := λ _, 0%nat
|}.

Definition tip9 : BlockHeader := mkHeader 9 900 (pub_of <$> [0; 1; 2; 3]) 1.

(** Node 0 right after block 9 was reported: nothing cached. *)
Definition idle : State := {|
  m_cfg_err := false; m_account_type := 1; m_node_num := 4; m_node_idx := 0; m_f := 1;
  m_miner_list := pub_of <$> [0; 1; 2; 3]; m_view := 0; m_to_view := 0; m_change_cycle := 0;
  m_leader_failed := false; m_empty_block_flag := false; m_omit_empty_block := true;
  m_view_timeout := 1000; m_last_consensus_time := 5000; m_last_sign_time := 0;
  m_last_exec_finish_time := 0; m_last_collect_time := 0;
  m_highest_block := tip9; m_consensus_block_number := 10;
  m_raw_prepare_cache := no_req; m_prepare_cache := no_req;
  m_committed_prepare_cache := no_req; m_future_prepare_cache := (2 ^ 256 - 1, no_req);
  m_sign_cache := ∅; m_commit_cache := ∅; m_recv_view_change_req := ∅; m_commitMap := ∅;
  outbox := []
|}.

(** A vote or view change by miner [i], signed with nonce [n]. *)
Definition vote (h v i bh n : Z) : PBFTMsg :=
  let r := mkMsg h v i 5000 bh (toy_sign (pub_of i) bh n) 0 in
  mkMsg h v i 5000 bh (toy_sign (pub_of i) bh n) (toy_sign (pub_of i) (toy_fields r) 0).

Definition proposal (h v i bh : Z) : PrepareReq := mkPrepare (vote h v i bh 0) [].

Definition from_peer (t : Z) (pkt : Packet) (i : Z) : World * Event :=
  (world t, EHandleMsg pkt i (pub_of i)).

(** View 0: node 1 proposes hash 500, the executed hash is 501, nodes 2
    and 3 sign and commit it. *)
Definition agree_view0 : list (World * Event) :=
  [ from_peer 5001 (PktPrepare (proposal 10 0 1 500)) 1;
    from_peer 5002 (PktSign (vote 10 0 2 501 0)) 2;
    from_peer 5003 (PktSign (vote 10 0 3 501 0)) 3;
    from_peer 5004 (PktCommit (vote 10 0 2 501 0)) 2;
    from_peer 5005 (PktCommit (vote 10 0 3 501 0)) 3 ].

(** The block is not imported in time: timeout, and nodes 1 and 2 agree to
    move to view 1. *)
Definition change_to_view1 : list (World * Event) :=
  [ (world 9000, ECheckTimeout);
    from_peer 9001 (PktViewChange (vote 9 1 1 900 0)) 1;
    from_peer 9002 (PktViewChange (vote 9 1 2 900 0)) 2 ].


(** Node 0 has the sign quorum and two commits for hash 501 when the
    chain reports another block 10; then the third commit arrives. *)
Definition overtaken : State :=
  run (take 4 agree_view0 ++ [(world 6000, EReportBlock (mkHeader 10 777 (nodeList tip9) 2))]) idle.

Definition last_commit : State := addCommitReq (vote 10 0 3 501 0) overtaken.

(** All four miners have committed hash 501 when [checkAndSave] runs. *)
Definition four_commits : State :=
  addCommitReq (vote 10 0 1 501 0) (run (take 4 agree_view0) idle).

Definition quorum_plus_one : State := addCommitReq (vote 10 0 3 501 0) four_commits.

(** The same node after the roster grew to five miners. *)
Definition world5 : World := {|
  now := 6000;
  system_clock_now := 6;
  host_alive := true;
  isConnected := λ _, true;
  session_peer_ok := true;
  getPublicKey := λ i, if (0 <=? i) && (i <? 5) then Some (pub_of i) else None;
  getAccountType_self := Some 1;
  getMinerNum := 5;
  getIdx_self := Some 0;
  getAllNodeConnInfo := λ _, miners ++ [mkNode (pub_of 4) 1 4];
  checkBlockValid := λ h b, ExecDone (mkExecuted h 1 true (h + 1) b);
  chain_block_size := λ _, 0%nat
|}.

Definition five_miners : State := resetConfig world5 idle.

(** Node 2 signs hash 501 twice, with two nonces. *)
Definition signed_twice : State :=
  run [ from_peer 5001 (PktPrepare (proposal 10 0 1 500)) 1;
        from_peer 5002 (PktSign (vote 10 0 2 501 0)) 2;
        from_peer 5003 (PktSign (vote 10 0 2 501 1)) 2 ] idle.

(** Node 0 as primary of view 3 ([(3 + 9) mod 4 = 0]) with the proposal
    of height 9 as its committed checkpoint; [stalled] is the same node
    after its timer fired. *)
Definition primary0 : State :=
  set_m_committed_prepare_cache (proposal 9 0 1 899) (set_m_view 3 (set_m_to_view 3 idle)).

Definition stalled : State := step (world 9000) ECheckTimeout primary0.

(** Block 10 as sealed in view 0, and its certificate. *)
Definition sealed10 : BlockHeader := mkHeader 10 501 (pub_of <$> [0; 1; 2; 3]) 2.

Definition sigs10 : list (Z * Z) :=
  [(3, toy_sign (pub_of 3) 501 0); (2, toy_sign (pub_of 2) 501 0); (0, toy_sign (pub_of 0) 501 0)].

End Scenario.

(** * More runs of the four-miner deployment *)
Module Cases.
Import Scenario.

(** A roster whose fifth miner claims index 7: [getMinerList] fails on
    it. *)
Definition world_bad : World := {|
  now := 6000;
  system_clock_now := 6;
  host_alive := true;
  isConnected := λ _, true;
  session_peer_ok := true;
  getPublicKey := λ i, if (0 <=? i) && (i <? 5) then Some (pub_of i) else None;
  getAccountType_self := Some 1;
  getMinerNum := 5;
  getIdx_self := Some 0;
  getAllNodeConnInfo := λ _, miners ++ [mkNode (pub_of 4) 1 7];
  checkBlockValid := λ h b, ExecDone (mkExecuted h 1 true (h + 1) b);
  chain_block_size := λ _, 0%nat
|}.

(** Block 10 as the chain reports it. *)
Definition block10 : BlockHeader := mkHeader 10 501 (pub_of <$> [0; 1; 2; 3]) 2.

(** Node 0 one packet before the view change to view 1 completes. *)
Definition before_view1 : State := run (agree_view0 ++ take 2 change_to_view1) idle.

(** Node 0 with its own sign vote and nodes 2 and 3's for hash 501: the
    state in which [handleSignMsg] calls [checkAndCommit]. *)
Definition three_signs : State :=
  addSignReq (vote 10 0 3 501 0) (run (take 2 agree_view0) idle).

(** The sign vote node 0 casts for the proposal of view 0. *)
Definition own_sign : PBFTMsg := sign_msg 10 0 0 5001 501.

(** Two peers with known-sets of capacity 2: a miner that has seen keys
    7 and 8 of every kind, and an observer. *)
Definition caps (id : PacketId) : nat := 2.

Definition roster_type (nodeid : Z) : option Z :=
  if nodeid =? pub_of 9 then Some 0 else Some 1.

Definition miner_peer : PBFTPeer (K:=Z) := mkPeer (Some (pub_of 1)) [7; 8] [7; 8] [7; 8] [7; 8].

Definition observer_peer : PBFTPeer (K:=Z) := mkPeer (Some (pub_of 9)) [] [] [] [].

(** Node 1 asks for view 1 at height 10 on top of block 501. *)
Definition asked_view1 : State :=
  run [from_peer 5001 (PktViewChange (vote 10 1 1 501 0)) 1] idle.

(** The executor finds the proposed block empty: no pending
    transaction. *)
Definition world_empty_block : World := {|
  now := 5001;
  system_clock_now := 5;
  host_alive := true;
  isConnected := λ _, true;
  session_peer_ok := true;
  getPublicKey := λ i, if (0 <=? i) && (i <? 4) then Some (pub_of i) else None;
  getAccountType_self := Some 1;
  getMinerNum := 4;
  getIdx_self := Some 0;
  getAllNodeConnInfo := λ _, miners;
  checkBlockValid := λ h b, ExecDone (mkExecuted h 0 true (h + 1) b);
  chain_block_size := λ _, 0%nat
|}.

(** Node 0 after the primary's empty block was handled. *)
Definition empty_block_seen : State :=
  handlePrepareMsg world_empty_block 1 (proposal 10 0 1 500) false idle.

End Cases.

(** * Properties *)

Section Properties.
Context {E : Env}.

(** ** Bookkeeping of the outbox *)

Lemma quiet_refl s : quiet s s.
Proof. exists []. rewrite app_nil_r. auto. Qed.

Lemma quiet_emit e s : no_seal e → quiet s (emit e s).
Proof. intros He. exists [e]. simpl. auto. Qed.

Lemma quiet_trans s1 s2 s3 : quiet s1 s2 → quiet s2 s3 → quiet s1 s3.
Proof.
  intros (l1 & H1 & F1 & C1) (l2 & H2 & F2 & C2).
  exists (l1 ++ l2). rewrite H2, H1, <- app_assoc, C2, C1.
  split; [done | split; [by apply Forall_app | done]].
Qed.

(** A call whose outbox and flag map are those of [s]. *)
Lemma quiet_same s s' : outbox s' = outbox s → m_commitMap s' = m_commitMap s → quiet s s'.
Proof. intros Ho Hc. exists []. rewrite app_nil_r. auto. Qed.

Lemma quiet_silent s s' : quiet s s' → silent s s'.
Proof. intros (l & H & F & _). by exists l. Qed.

Lemma silent_refl s : silent s s.
Proof. apply quiet_silent, quiet_refl. Qed.

Lemma silent_trans s1 s2 s3 : silent s1 s2 → silent s2 s3 → silent s1 s3.
Proof.
  intros (l1 & H1 & F1) (l2 & H2 & F2).
  exists (l1 ++ l2). rewrite H2, H1, <- app_assoc. split; [done | by apply Forall_app].
Qed.

Lemma silent_same s s' : outbox s' = outbox s → silent s s'.
Proof. intros Ho. exists []. rewrite app_nil_r. auto. Qed.

Lemma silent_once s s' : silent s s' → seals_once s s'.
Proof. intros (l & H & F). exists l. auto. Qed.

Lemma quiet_once s s' : quiet s s' → seals_once s s'.
Proof. intros H. by apply silent_once, quiet_silent. Qed.

Lemma quiet_then_once s1 s2 s3 : quiet s1 s2 → seals_once s2 s3 → seals_once s1 s3.
Proof.
  intros (l1 & H1 & F1 & C1) (l2 & H2 & [F2 | (h & it & sl & p & a & b & -> & Fa & Fb & T2 & T3)]).
  - exists (l1 ++ l2). rewrite H2, H1, <- app_assoc. split; [done |]. left. by apply Forall_app.
  - exists (l1 ++ a ++ OnSealGenerated h it sl p :: b).
    rewrite H2, H1, <- app_assoc. split; [done |]. right.
    exists h, it, sl, p, (l1 ++ a), b. rewrite <- app_assoc.
    split; [done |]. split; [by apply Forall_app |]. split; [done |].
    split; [| done]. unfold triggered in *. by rewrite <- C1.
Qed.

Lemma once_then_quiet s1 s2 s3 : seals_once s1 s2 → quiet s2 s3 → seals_once s1 s3.
Proof.
  intros (l1 & H1 & [F1 | (h & it & sl & p & a & b & -> & Fa & Fb & T1 & T2)]) (l2 & H2 & F2 & C2).
  - exists (l1 ++ l2). rewrite H2, H1, <- app_assoc. split; [done |]. left. by apply Forall_app.
  - exists ((a ++ OnSealGenerated h it sl p :: b) ++ l2).
    rewrite H2, H1, <- app_assoc. split; [done |]. right.
    exists h, it, sl, p, a, (b ++ l2). rewrite <- app_assoc. simpl.
    split; [done |]. split; [done |]. split; [by apply Forall_app |].
    split; [done |]. unfold triggered in *. by rewrite C2.
Qed.

Lemma addRawPrepare_quiet req s : quiet s (addRawPrepare req s).
Proof. by apply quiet_same. Qed.

Lemma addPrepareReq_quiet req s : quiet s (addPrepareReq req s).
Proof. by apply quiet_same. Qed.

Lemma addSignReq_quiet req s : quiet s (addSignReq req s).
Proof. by apply quiet_same. Qed.

Lemma addCommitReq_quiet req s : quiet s (addCommitReq req s).
Proof. by apply quiet_same. Qed.

Lemma broadcastMsg_quiet w id req blk f s : quiet s (snd (broadcastMsg w id req blk f s)).
Proof.
  unfold broadcastMsg. destruct (host_alive w); simpl; [by apply quiet_emit | apply quiet_refl].
Qed.

Lemma broadcastSignReq_quiet w req s : quiet s (snd (broadcastSignReq w req s)).
Proof.
  unfold broadcastSignReq, broadcastMsg. destruct (host_alive w); simpl.
  - eapply quiet_trans; [| apply addSignReq_quiet]. by apply quiet_emit.
  - apply quiet_refl.
Qed.

Lemma broadcastCommitReq_quiet w req s : quiet s (snd (broadcastCommitReq w req s)).
Proof.
  unfold broadcastCommitReq, broadcastMsg. destruct (host_alive w); simpl.
  - eapply quiet_trans; [| apply addCommitReq_quiet]. by apply quiet_emit.
  - apply quiet_refl.
Qed.

Lemma broadcastPrepareReq_quiet w bi blk s : quiet s (snd (broadcastPrepareReq w bi blk s)).
Proof.
  unfold broadcastPrepareReq, broadcastMsg. destruct (host_alive w); simpl.
  - eapply quiet_trans; [| apply addRawPrepare_quiet]. by apply quiet_emit.
  - apply quiet_refl.
Qed.

Lemma broadcastViewChangeReq_quiet w s : quiet s (snd (broadcastViewChangeReq w s)).
Proof.
  unfold broadcastViewChangeReq, broadcastMsg.
  destruct (negb _); simpl; [apply quiet_refl |].
  destruct (host_alive w); simpl; [| by apply quiet_same].
  eapply quiet_trans; [| by apply quiet_emit]. by apply quiet_same.
Qed.

Lemma quiet_grows s s' h : quiet s s' → triggered h s = true → triggered h s' = true.
Proof. intros (_ & _ & _ & Hc). unfold triggered. by rewrite Hc. Qed.

Lemma quiet_votes s s' : quiet s s' → casts_votes s s'.
Proof. intros H. split; [by apply quiet_once | intros h; by apply quiet_grows]. Qed.

Lemma quiet_then_votes s1 s2 s3 : quiet s1 s2 → casts_votes s2 s3 → casts_votes s1 s3.
Proof.
  intros Hq [Ho Hg]. split; [by eapply quiet_then_once |].
  intros h Ht. apply Hg. by eapply quiet_grows.
Qed.

Lemma votes_then_quiet s1 s2 s3 : casts_votes s1 s2 → quiet s2 s3 → casts_votes s1 s3.
Proof.
  intros [Ho Hg] Hq. split; [by eapply once_then_quiet |].
  intros h Ht. eapply quiet_grows; [exact Hq |]. by apply Hg.
Qed.

(** ** [checkAndSave] in closed form *)

Lemma at_key_touch k m : at_key k (touch k m) = at_key k m.
Proof.
  unfold at_key, touch. destruct (m !! k) eqn:Hk; [by rewrite Hk |].
  by rewrite lookup_insert_eq.
Qed.

Lemma checkAndSave_flags s :
  m_commitMap (checkAndSave s) =
    if votes_reach_quorum s && negb (triggered (block_hash (m_prepare_cache s)) s)
    then <[block_hash (m_prepare_cache s) := true]> (m_commitMap s)
    else m_commitMap s.
Proof.
  unfold checkAndSave, votes_reach_quorum, triggered. simpl. rewrite !at_key_touch.
  unfold quorum. simpl.
  destruct (_ && _ && _); [| done]. by repeat case_match.
Qed.

Lemma checkAndSave_outbox s :
  outbox (checkAndSave s) =
    outbox s ++
    if votes_reach_quorum s && negb (triggered (block_hash (m_prepare_cache s)) s)
       && (view (m_prepare_cache s) =? m_view s)
       && (height (m_prepare_cache s) >? number (m_highest_block s))
    then [sealed_block s] else [].
Proof.
  unfold checkAndSave, votes_reach_quorum, triggered, sealed_block. simpl.
  rewrite !at_key_touch. unfold quorum. simpl.
  destruct (_ && _ && negb _); simpl; [| by rewrite app_nil_r].
  destruct (view _ =? _); simpl; [| by rewrite app_nil_r].
  destruct (_ >? _); simpl; [done | by rewrite app_nil_r].
Qed.

(** ** [checkAndSave] seals at most once per flag *)

Lemma checkAndSave_once s : seals_once s (checkAndSave s).
Proof.
  exists (if votes_reach_quorum s && negb (triggered (block_hash (m_prepare_cache s)) s)
             && (view (m_prepare_cache s) =? m_view s)
             && (height (m_prepare_cache s) >? number (m_highest_block s))
          then [sealed_block s] else []).
  split; [apply checkAndSave_outbox |].
  destruct (votes_reach_quorum s) eqn:Hv; simpl; [| by left].
  destruct (triggered (block_hash (m_prepare_cache s)) s) eqn:Ht; simpl; [by left |].
  destruct (_ =? _); simpl; [| by left]. destruct (_ >? _); simpl; [| by left].
  right. unfold sealed_block. do 4 eexists. exists [], []. split; [reflexivity |].
  repeat split; auto.
  unfold triggered at 1. rewrite checkAndSave_flags, Hv, Ht. simpl. by rewrite lookup_insert_eq.
Qed.

Lemma checkAndSave_votes s : casts_votes s (checkAndSave s).
Proof.
  split; [apply checkAndSave_once |]. intros h Ht.
  unfold triggered at 1. rewrite checkAndSave_flags.
  destruct (_ && _); [| exact Ht].
  destruct (decide (block_hash (m_prepare_cache s) = h)) as [-> | Hne].
  - by rewrite lookup_insert_eq.
  - by rewrite lookup_insert_ne.
Qed.

Lemma checkAndCommit_votes w s : casts_votes s (checkAndCommit w s).
Proof.
  unfold checkAndCommit. simpl.
  destruct (_ =? quorum _); [| apply quiet_votes; by apply quiet_same].
  destruct (negb _); [apply quiet_votes; by apply quiet_same |].
  eapply quiet_then_votes; [| apply checkAndSave_votes].
  eapply quiet_trans; [| by apply quiet_same].
  destruct (_ =? EN_ACCOUNT_TYPE_MINER) eqn:Hm.
  - eapply quiet_trans; [| apply broadcastCommitReq_quiet].
    eapply quiet_trans; [| by apply quiet_emit]. by apply quiet_same.
  - eapply quiet_trans; [| by apply quiet_emit]. by apply quiet_same.
Qed.

Lemma changeViewForEmptyBlockWithoutLock_quiet s :
  quiet s (changeViewForEmptyBlockWithoutLock s).
Proof. unfold changeViewForEmptyBlockWithoutLock. exists [Notify]. simpl. repeat split; repeat constructor. Qed.

Lemma acceptExecuted_votes w from req x s : casts_votes s (acceptExecuted w from req x s).
Proof.
  unfold acceptExecuted.
  destruct (negb (exec_hash x =? _)); [apply quiet_votes, quiet_refl |].
  destruct (_ && m_omit_empty_block _).
  { apply quiet_votes. eapply quiet_trans; [| apply changeViewForEmptyBlockWithoutLock_quiet].
    by apply quiet_same. }
  destruct (negb (exec_seal_ok x)).
  { apply quiet_votes. eapply quiet_trans; [| by apply quiet_emit]. by apply quiet_same. }
  eapply quiet_then_votes; [| apply checkAndCommit_votes].
  destruct (_ =? EN_ACCOUNT_TYPE_MINER).
  - eapply quiet_trans; [| apply broadcastSignReq_quiet].
    eapply quiet_trans; [| apply addPrepareReq_quiet].
    eapply quiet_trans; [| by apply quiet_emit]. by apply quiet_same.
  - eapply quiet_trans; [| apply addPrepareReq_quiet].
    eapply quiet_trans; [| by apply quiet_emit]. by apply quiet_same.
Qed.

Lemma recvFutureBlock_quiet from req s : quiet s (recvFutureBlock from req s).
Proof. unfold recvFutureBlock. destruct (negb _); [by apply quiet_same | apply quiet_refl]. Qed.

Lemma handlePrepareMsg_votes w from req self s :
  casts_votes s (handlePrepareMsg w from req self s).
Proof.
  unfold handlePrepareMsg.
  repeat (match goal with
          | |- casts_votes ?s ?s => apply quiet_votes, quiet_refl
          | |- casts_votes _ (if ?c then _ else _) => destruct c
          end).
  - apply quiet_votes, recvFutureBlock_quiet.
  - destruct (checkBlockValid _ _ _).
    + apply quiet_votes, addRawPrepare_quiet.
    + eapply quiet_then_votes; [apply addRawPrepare_quiet | apply acceptExecuted_votes].
Qed.

Lemma clearMask_quiet w s : quiet s (clearMask w s).
Proof. unfold clearMask. destruct (host_alive w); [by apply quiet_emit | apply quiet_refl]. Qed.

Lemma reHandlePrepareReq_votes w req s : casts_votes s (reHandlePrepareReq w req s).
Proof.
  unfold reHandlePrepareReq.
  eapply quiet_then_votes; [| apply handlePrepareMsg_votes].
  eapply quiet_trans; [apply clearMask_quiet | apply broadcastMsg_quiet].
Qed.

Lemma handleSignMsg_votes w from req s : casts_votes s (handleSignMsg w from req s).
Proof.
  unfold handleSignMsg.
  repeat (match goal with
          | |- casts_votes ?s ?s => apply quiet_votes, quiet_refl
          | |- casts_votes _ (if ?c then _ else _) => destruct c
          end).
  - apply quiet_votes, addSignReq_quiet.
  - eapply quiet_then_votes; [apply addSignReq_quiet | apply checkAndCommit_votes].
Qed.

Lemma handleCommitMsg_votes w from req s : casts_votes s (handleCommitMsg w from req s).
Proof.
  unfold handleCommitMsg.
  repeat (match goal with
          | |- casts_votes ?s ?s => apply quiet_votes, quiet_refl
          | |- casts_votes _ (if ?c then _ else _) => destruct c
          end).
  - apply quiet_votes, addCommitReq_quiet.
  - eapply quiet_then_votes; [apply addCommitReq_quiet | apply checkAndSave_votes].
Qed.

Lemma checkAndChangeView_silent s : silent s (checkAndChangeView s).
Proof.
  unfold checkAndChangeView. simpl.
  destruct (_ >=? _); [| by apply silent_same].
  exists [LogReachConsensus (m_to_view s)]. simpl. repeat split; repeat constructor.
Qed.

Lemma handleViewChangeMsg_silent w from req s : silent s (handleViewChangeMsg w from req s).
Proof.
  unfold handleViewChangeMsg.
  destruct (isExistViewChange req s); [apply silent_refl |].
  destruct (idx req =? m_node_idx s); [apply silent_refl |].
  match goal with |- context [emit ?e s] => set (e0 := e) end.
  match goal with |- context [if ?c then emit e0 s else s] =>
    set (s1 := if c then emit e0 s else s) end.
  assert (H1 : silent s s1).
  { subst s1. destruct (_ && _ && _ && _); [| apply silent_refl].
    apply quiet_silent. by apply quiet_emit. }
  eapply silent_trans; [exact H1 |]. clearbody s1. clear H1 e0.
  repeat (match goal with
          | |- silent ?s ?s => apply silent_refl
          | |- silent _ (if ?c then _ else _) => destruct c
          end).
  - eapply silent_trans; [| apply checkAndChangeView_silent]. by apply silent_same.
  - eapply silent_trans; [| apply quiet_silent; by apply quiet_emit]. by apply silent_same.
  - by apply silent_same.
Qed.

Lemma relay_quiet w id m raw from node s : quiet s (relay w id m raw from node s).
Proof.
  unfold relay. destruct (_ && _); [apply broadcastMsg_quiet | apply quiet_refl].
Qed.

Lemma handleMsg_once w pkt from node s : seals_once s (handleMsg w pkt from node s).
Proof.
  destruct pkt; simpl.
  - eapply once_then_quiet; [apply handlePrepareMsg_votes | apply relay_quiet].
  - eapply once_then_quiet; [apply handleSignMsg_votes | apply relay_quiet].
  - eapply once_then_quiet; [apply handleCommitMsg_votes | apply relay_quiet].
  - apply silent_once. eapply silent_trans; [apply handleViewChangeMsg_silent |].
    apply quiet_silent, relay_quiet.
  - apply quiet_once, quiet_refl.
Qed.


Lemma handleFutureBlock_votes w s : casts_votes s (handleFutureBlock w s).
Proof.
  unfold handleFutureBlock.
  destruct (_ && _); [| apply quiet_votes, quiet_refl].
  eapply votes_then_quiet; [apply handlePrepareMsg_votes | by apply quiet_same].
Qed.

Lemma generateCommit_votes w bi blk v s : casts_votes s (snd (generateCommit w bi blk v s)).
Proof.
  unfold generateCommit.
  destruct (negb _); simpl; [apply quiet_votes, quiet_refl |].
  match goal with |- context [broadcastSignReq w ?r ?t] =>
    pose proof (broadcastSignReq_quiet w r t) as Hb;
    destruct (broadcastSignReq w r t) as [ok s1] end.
  simpl in *.
  assert (Hq : quiet s s1) by (eapply quiet_trans; [apply addPrepareReq_quiet | exact Hb]).
  destruct ok.
  - eapply quiet_then_votes; [exact Hq | apply checkAndCommit_votes].
  - by apply quiet_votes.
Qed.

Lemma shouldSeal_votes w s : casts_votes s (snd (shouldSeal w s)).
Proof.
  unfold shouldSeal.
  repeat (match goal with
          | |- casts_votes ?s ?s => apply quiet_votes, quiet_refl
          | |- casts_votes _ (snd (if ?c then _ else _)) => destruct c; simpl
          | |- casts_votes _ (if ?c then _ else _) => destruct c; simpl
          | |- casts_votes _ (match ?c with Some _ => _ | None => _ end) => destruct c; simpl
          end).
  - apply quiet_votes. eapply quiet_trans; [| by apply quiet_emit]. by apply quiet_same.
  - apply reHandlePrepareReq_votes.
Qed.

Lemma resetConfig_outbox w s : outbox (resetConfig w s) = outbox s.
Proof. unfold resetConfig. by repeat case_match. Qed.

Lemma reportBlock_silent w b s : silent s (reportBlock w b s).
Proof.
  apply silent_same. unfold reportBlock, delCache. simpl.
  repeat case_match; simpl; rewrite resetConfig_outbox; by repeat case_match.
Qed.

Lemma collectGarbage_silent w s : silent s (collectGarbage w s).
Proof. apply silent_same. unfold collectGarbage. by repeat case_match. Qed.




(** ** Counting seals along a schedule *)





Lemma emitted_app s s' l : outbox s' = outbox s ++ l → emitted s s' = l.
Proof. intros H. unfold emitted. rewrite H. apply drop_app_length. Qed.



(** C3 (as amended): [checkAndSave] sets [commitTriggered[h]] as soon as
    both vote counts reach the quorum and the flag was unset, before it
    looks at the view and the height; [onSealGenerated] is invoked only if
    in addition [prepare.view == view] and [prepare.height > chainTip].  A
    failed view or height test therefore leaves the flag set and seals
    nothing. *)
Theorem C3_flag_set_on_quorum (s : State) :
  let h := block_hash (m_prepare_cache s) in
  triggered h (checkAndSave s) = triggered h s || votes_reach_quorum s
  ∧ emitted s (checkAndSave s) =
      if votes_reach_quorum s && negb (triggered h s)
         && (view (m_prepare_cache s) =? m_view s)
         && (height (m_prepare_cache s) >? number (m_highest_block s))
      then [sealed_block s] else [].
Proof.
  intros h. split.
  - unfold triggered at 1. rewrite checkAndSave_flags. fold h.
    destruct (votes_reach_quorum s), (triggered h s) eqn:Ht; simpl; try done.
    by rewrite lookup_insert_eq.
  - apply emitted_app, checkAndSave_outbox.
Qed.

(** ** The signature list of a sealed block *)

Lemma sig_list_of_length (commits : gmap Z PBFTMsg) :
  length (sig_list_of commits) = size commits.
Proof. unfold sig_list_of. by rewrite length_fmap, length_map_to_list. Qed.

Lemma sig_list_of_elem (commits : gmap Z PBFTMsg) (i sg : Z) :
  (i, sg) ∈ sig_list_of commits ↔ ∃ c, commits !! sg = Some c ∧ idx c = i.
Proof.
  unfold sig_list_of. rewrite list_elem_of_fmap. split.
  - intros ([k c] & Heq & Hin). simpl in Heq. inversion Heq; subst.
    exists c. split; [by apply elem_of_map_to_list | done].
  - intros (c & Hc & <-). exists (sg, c). split; [done | by apply elem_of_map_to_list].
Qed.

Lemma sig_list_of_keys (commits : gmap Z PBFTMsg) : NoDup (sig_list_of commits).*2.
Proof.
  unfold sig_list_of. rewrite <- list_fmap_compose.
  apply (NoDup_fst_map_to_list commits).
Qed.

(** C4: when [checkAndSave] seals, the hash is the one of the prepare
    cache, the sealed block is the four raw items of the proposal's block
    followed by the signature list, and that list has one pair
    [(idx, sig)] for every entry of [commitCache[h]] and nothing else: as
    many pairs as entries, every entry represented, every pair backed by
    an entry, no signature twice. *)
Theorem C4_sig_list_is_whole_commit_cache (s : State) (h : Z) (items : list (list Byte.byte))
    (sl : list (Z * Z)) (p : bool) :
  emitted s (checkAndSave s) = [OnSealGenerated h items sl p] →
  h = block_hash (m_prepare_cache s)
  ∧ items = block_items (block (m_prepare_cache s))
  ∧ length sl = size (at_key h (m_commit_cache s))
  ∧ (∀ i sg, (i, sg) ∈ sl ↔ ∃ c, at_key h (m_commit_cache s) !! sg = Some c ∧ idx c = i)
  ∧ NoDup sl.*2
  ∧ at_key h (m_commit_cache (checkAndSave s)) = at_key h (m_commit_cache s).
Proof.
  rewrite (emitted_app _ _ _ (checkAndSave_outbox s)).
  destruct (_ && _ && _ && _); [| done].
  unfold sealed_block. intros [= <- <- <- <-].
  split; [done |]. split; [done |]. split; [apply sig_list_of_length |].
  split; [apply sig_list_of_elem |]. split; [apply sig_list_of_keys |].
  unfold checkAndSave. simpl. repeat case_match; simpl; apply at_key_touch.
Qed.

(** ** Quorum arithmetic *)

Lemma faulty_of_small (n : Z) : 1 ≤ n < 2 ^ 256 → faulty_of n = (n - 1) / 3.
Proof. intros Hn. unfold faulty_of, sub256. rewrite Z.mod_small by lia. done. Qed.

Lemma sign_threshold_small (n : Z) : 1 ≤ n < 2 ^ 64 → sign_threshold n = n - (n - 1) / 3.
Proof.
  intros Hn. unfold sign_threshold, sub64.
  rewrite (Z.mod_small (n - 1)) by lia.
  apply Z.mod_small. Z.div_mod_to_equations. lia.
Qed.

(** [resetConfig] keeps [m_f] in step with [m_node_num]. *)
Lemma resetConfig_faulty w s :
  m_f s = faulty_of (m_node_num s) →
  m_f (resetConfig w s) = faulty_of (m_node_num (resetConfig w s)).
Proof. intros Hf. unfold resetConfig. by repeat case_match. Qed.

(** [resetConfig] never reports a usable configuration with an empty
    roster, so the [%] of [getLeader] has a non-zero divisor. *)
Lemma resetConfig_node_num w s :
  m_cfg_err (resetConfig w s) = false → m_node_num (resetConfig w s) ≠ 0.
Proof.
  unfold resetConfig.
  destruct (getAccountType_self w); [| done]. simpl.
  destruct (Z.eqb_spec (getMinerNum w) 0) as [| Hnz]; [done |].
  destruct (getIdx_self w); [| done].
  destruct (negb (getMinerNum w =? m_node_num s) || negb (_ =? m_node_idx s)) eqn:Hch.
  - simpl. by repeat case_match.
  - simpl. intros _. apply orb_false_elim in Hch as [Hch _].
    apply negb_false_iff, Z.eqb_eq in Hch. congruence.
Qed.

(** C5 (as amended): for a roster of [N >= 1] miners the quorum is
    [N - f] with [f = (N-1)/3]; it is at least [2f + 1], and equal to
    [2f + 1] exactly when [N = 3f + 1]; the count test of the
    block-signature verifier passes exactly from [N - f] signatures on. *)
Theorem C5_quorum_is_N_minus_f (s : State) (count : nat) :
  1 ≤ m_node_num s < 2 ^ 64 →
  m_f s = faulty_of (m_node_num s) →
  quorum s = m_node_num s - (m_node_num s - 1) / 3
  ∧ 2 * ((m_node_num s - 1) / 3) + 1 ≤ quorum s
  ∧ (quorum s = 2 * ((m_node_num s - 1) / 3) + 1 ↔ m_node_num s = 3 * ((m_node_num s - 1) / 3) + 1)
  ∧ sign_threshold (m_node_num s) = quorum s
  ∧ ((Z.of_nat count <? sign_threshold (m_node_num s)) = false
     ↔ m_node_num s - (m_node_num s - 1) / 3 ≤ Z.of_nat count).
Proof.
  intros Hn Hf.
  assert (Hq : quorum s = m_node_num s - (m_node_num s - 1) / 3).
  { unfold quorum. rewrite Hf, faulty_of_small by lia. unfold sub256.
    apply Z.mod_small. Z.div_mod_to_equations. lia. }
  rewrite Hq, sign_threshold_small by lia.
  split; [done |]. split; [Z.div_mod_to_equations; lia |].
  split; [Z.div_mod_to_equations; lia |]. split; [done |].
  rewrite Z.ltb_ge. done.
Qed.

(** ** The block-signature verifier *)

Lemma check_sigs_spec (ml : list Z) (hash : Z) (sl : list (Z * Z)) :
  (∀ x, 0 ≤ x < 2 ^ 31 → static_cast_int x = x) →
  Z.of_nat (length ml) < 2 ^ 31 →
  Forall (λ item, 0 ≤ item.1) sl →
  check_sigs ml hash sl = true ↔ Forall (sig_ok ml hash) sl.
Proof.
  intros Hcast Hlen. induction 1 as [| [i sg] sl Hi _ IH]; simpl in *.
  - split; [constructor | done].
  - destruct (Z.geb_spec i (Z.of_nat (length ml))) as [Hge | Hlt].
    { split; [done |]. intros Hf. apply Forall_cons in Hf as [[Hl _] _]. simpl in Hl. lia. }
    rewrite Hcast by lia.
    destruct (lookup_lt_is_Some_2 ml (Z.to_nat i)) as [pk Hpk]; [lia |].
    rewrite Hpk. simpl.
    destruct (verify pk sg hash) eqn:Hv; simpl.
    + rewrite IH. split.
      * intros Hf. constructor; [| done]. split; [done |]. by exists pk.
      * intros Hf. by apply Forall_cons in Hf as [_ Hf].
    + split; [done |]. intros Hf. apply Forall_cons in Hf as [[_ (pk' & Hpk' & Hv')] _].
      simpl in *. congruence.
Qed.

(** C9: [checkBlockSign] accepts exactly when the miner list of height
    [number - 1] can be built and equals the header's node list, there are
    at least [N - (N-1)/3] signatures, and every pair names a valid index
    whose key verifies the signature over the pre-seal hash. *)
Theorem C9_checkBlockSign_iff (w : World) (header : BlockHeader) (sign_list : list (Z * Z)) :
  let fetched := getMinerList w (static_cast_int (sub256 (number header) 1)) [] in
  let N := Z.of_nat (length fetched.2) in
  (∀ x, 0 ≤ x < 2 ^ 31 → static_cast_int x = x) →
  N < 2 ^ 31 →
  Forall (λ item, 0 ≤ item.1) sign_list →
  checkBlockSign w header sign_list = true
  ↔ fetched.1 = true
    ∧ nodeList header = fetched.2
    ∧ N - (N - 1) / 3 ≤ Z.of_nat (length sign_list)
    ∧ Forall (sig_ok fetched.2 (hash_WithoutSeal header)) sign_list.
Proof.
  unfold checkBlockSign.
  destruct (getMinerList w _ []) as [ok ml]. simpl.
  set (N := Z.of_nat (length ml)). intros Hcast HN Hidx.
  destruct ok; simpl; [| split; [done | by intros [? _]]].
  destruct (bool_decide_reflect (nodeList header = ml)) as [Heq | Hne]; simpl;
    [| split; [done | by intros (_ & ? & _)]].
  rewrite <- (check_sigs_spec _ _ _ Hcast HN Hidx).
  destruct (decide (N = 0)) as [HN0 | HN0].
  - (* an empty roster accepts nothing *)
    assert (Hml : ml = []) by (apply length_zero_iff_nil; lia).
    rewrite HN0. change (0 - (0 - 1) / 3) with 1.
    destruct sign_list as [| [i sg] rest].
    + split; [done |]. intros (_ & _ & Hl & _). simpl in Hl. lia.
    + assert (Hf : check_sigs ml (hash_WithoutSeal header) ((i, sg) :: rest) = false).
      { rewrite Hml. apply Forall_cons in Hidx as [Hi _].
        cbn [check_sigs fst snd length Z.of_nat] in *.
        change (Z.of_nat 0) with 0. destruct (Z.geb_spec i 0); [done | lia]. }
      rewrite Hf. destruct (_ <? _); (split; [done | by intros (_ & _ & _ & ?)]).
  - rewrite sign_threshold_small by lia.
    destruct (Z.ltb_spec (Z.of_nat (length sign_list)) (N - (N - 1) / 3)).
    + split; [done |]. intros (_ & _ & Hl & _). lia.
    + split; [intros Hc; by repeat split | by intros (_ & _ & _ & ?)].
Qed.

(** ** Members left alone by the voting pipeline *)

Create Rewrite HintDb frame.

Lemma broadcastMsg_lf w id req blk f s :
  m_leader_failed (snd (broadcastMsg w id req blk f s)) = m_leader_failed s.
Proof. unfold broadcastMsg. by destruct (host_alive w). Qed.
Hint Rewrite broadcastMsg_lf : frame.

(** Case analysis on every test of the unfolded body, then the frame
    equations of the callees. *)
Ltac frame_step :=
  repeat case_match; repeat progress (simpl; autorewrite with frame); try done.

Lemma broadcastSignReq_lf w req s :
  m_leader_failed (snd (broadcastSignReq w req s)) = m_leader_failed s.
Proof. unfold broadcastSignReq, broadcastMsg. frame_step. Qed.
Lemma broadcastCommitReq_lf w req s :
  m_leader_failed (snd (broadcastCommitReq w req s)) = m_leader_failed s.
Proof. unfold broadcastCommitReq, broadcastMsg. frame_step. Qed.
Lemma broadcastPrepareReq_lf w bi blk s :
  m_leader_failed (snd (broadcastPrepareReq w bi blk s)) = m_leader_failed s.
Proof. unfold broadcastPrepareReq, broadcastMsg. frame_step. Qed.
Lemma broadcastViewChangeReq_lf w s :
  m_leader_failed (snd (broadcastViewChangeReq w s)) = m_leader_failed s.
Proof. unfold broadcastViewChangeReq, broadcastMsg. frame_step. Qed.
Hint Rewrite broadcastSignReq_lf broadcastCommitReq_lf broadcastPrepareReq_lf
  broadcastViewChangeReq_lf : frame.

Lemma checkAndSave_lf s : m_leader_failed (checkAndSave s) = m_leader_failed s.
Proof. unfold checkAndSave. frame_step. Qed.
Hint Rewrite checkAndSave_lf : frame.

Lemma checkAndCommit_lf w s : m_leader_failed (checkAndCommit w s) = m_leader_failed s.
Proof. unfold checkAndCommit. frame_step. Qed.
Hint Rewrite checkAndCommit_lf : frame.

Lemma acceptExecuted_lf w from req x s :
  m_leader_failed (acceptExecuted w from req x s) = m_leader_failed s.
Proof. unfold acceptExecuted, changeViewForEmptyBlockWithoutLock. frame_step. Qed.
Hint Rewrite acceptExecuted_lf : frame.

Lemma handlePrepareMsg_lf w from req self s :
  m_leader_failed (handlePrepareMsg w from req self s) = m_leader_failed s.
Proof. unfold handlePrepareMsg, recvFutureBlock. frame_step. Qed.
Hint Rewrite handlePrepareMsg_lf : frame.

Lemma reHandlePrepareReq_lf w req s :
  m_leader_failed (reHandlePrepareReq w req s) = m_leader_failed s.
Proof. unfold reHandlePrepareReq, clearMask. frame_step. Qed.
Hint Rewrite reHandlePrepareReq_lf : frame.

Lemma handleSignMsg_lf w from req s :
  m_leader_failed (handleSignMsg w from req s) = m_leader_failed s.
Proof. unfold handleSignMsg. frame_step. Qed.

Lemma handleCommitMsg_lf w from req s :
  m_leader_failed (handleCommitMsg w from req s) = m_leader_failed s.
Proof. unfold handleCommitMsg. frame_step. Qed.

Lemma relay_lf w id m raw from node s :
  m_leader_failed (relay w id m raw from node s) = m_leader_failed s.
Proof. unfold relay. frame_step. Qed.
Hint Rewrite handleSignMsg_lf handleCommitMsg_lf relay_lf : frame.

Lemma handleFutureBlock_lf w s : m_leader_failed (handleFutureBlock w s) = m_leader_failed s.
Proof. unfold handleFutureBlock. frame_step. Qed.

Lemma generateCommit_lf w bi blk v s :
  m_leader_failed (snd (generateCommit w bi blk v s)) = m_leader_failed s.
Proof. unfold generateCommit. frame_step. Qed.

Lemma shouldSeal_lf w s : m_leader_failed (snd (shouldSeal w s)) = m_leader_failed s.
Proof. unfold shouldSeal. frame_step. Qed.

Lemma collectGarbage_lf w s : m_leader_failed (collectGarbage w s) = m_leader_failed s.
Proof. unfold collectGarbage. frame_step. Qed.

Lemma resetConfig_lf w s : m_leader_failed (resetConfig w s) = m_leader_failed s.
Proof. unfold resetConfig. frame_step. Qed.

Lemma delCache_lf h s : m_leader_failed (delCache h s) = m_leader_failed s.
Proof. unfold delCache. frame_step. Qed.
Hint Rewrite resetConfig_lf delCache_lf : frame.


Lemma checkAndSave_prepare s : m_prepare_cache (checkAndSave s) = m_prepare_cache s.
Proof. unfold checkAndSave. frame_step. Qed.
Lemma checkAndSave_raw s : m_raw_prepare_cache (checkAndSave s) = m_raw_prepare_cache s.
Proof. unfold checkAndSave. frame_step. Qed.
Lemma broadcastSignReq_prepare w req s :
  m_prepare_cache (snd (broadcastSignReq w req s)) = m_prepare_cache s.
Proof. unfold broadcastSignReq, broadcastMsg. frame_step. Qed.
Lemma broadcastSignReq_raw w req s :
  m_raw_prepare_cache (snd (broadcastSignReq w req s)) = m_raw_prepare_cache s.
Proof. unfold broadcastSignReq, broadcastMsg. frame_step. Qed.
Lemma broadcastCommitReq_prepare w req s :
  m_prepare_cache (snd (broadcastCommitReq w req s)) = m_prepare_cache s.
Proof. unfold broadcastCommitReq, broadcastMsg. frame_step. Qed.
Lemma broadcastCommitReq_raw w req s :
  m_raw_prepare_cache (snd (broadcastCommitReq w req s)) = m_raw_prepare_cache s.
Proof. unfold broadcastCommitReq, broadcastMsg. frame_step. Qed.
Hint Rewrite checkAndSave_prepare checkAndSave_raw broadcastSignReq_prepare broadcastSignReq_raw
  broadcastCommitReq_prepare broadcastCommitReq_raw : frame.

Lemma checkAndCommit_prepare w s : m_prepare_cache (checkAndCommit w s) = m_prepare_cache s.
Proof. unfold checkAndCommit. frame_step. Qed.
Lemma checkAndCommit_raw w s : m_raw_prepare_cache (checkAndCommit w s) = m_raw_prepare_cache s.
Proof. unfold checkAndCommit. frame_step. Qed.
Hint Rewrite checkAndCommit_prepare checkAndCommit_raw : frame.

(** ** What [handlePrepareMsg] leaves in the two proposal caches *)

Lemma acceptExecuted_caches w from req x s :
  m_raw_prepare_cache (acceptExecuted w from req x s) = m_raw_prepare_cache s
  ∧ m_prepare_cache (acceptExecuted w from req x s) =
      if (exec_hash x =? block_hash req)
         && negb (Nat.eqb (exec_pending x) 0 && m_omit_empty_block s)
         && exec_seal_ok x
      then mkPrepare (sign_msg (height req) (view req) (idx req) (now w) (exec_sealed_hash x))
                     (exec_block_data x)
      else m_prepare_cache s.
Proof.
  unfold acceptExecuted, changeViewForEmptyBlockWithoutLock.
  destruct (exec_hash x =? block_hash req); simpl; [| done].
  destruct (Nat.eqb (exec_pending x) 0 && m_omit_empty_block s); simpl; [done |].
  destruct (exec_seal_ok x); simpl; [| done].
  unfold addPrepareReq. frame_step.
Qed.

(** C2 (as amended): when [handlePrepareMsg] admits a proposal it stores
    it as [rawPrepare]; if the executor then lets it reach
    [addPrepareReq], [prepare] carries the height, view and index of
    [rawPrepare] and the hash of the re-sealed executed block (equal to
    [rawPrepare.blockHash] only when re-sealing leaves the hash
    unchanged); if the handler stops before that, [prepare] is empty. *)
Theorem C2_prepare_holds_executed_hash (w : World) (from : Z) (req : PrepareReq) (self : bool)
    (s : State) :
  prepare_admitted w req self s = true →
  m_raw_prepare_cache (handlePrepareMsg w from req self s) = req
  ∧ match prepare_stored w req s with
    | Some x =>
        height (m_prepare_cache (handlePrepareMsg w from req self s)) = height req
        ∧ view (m_prepare_cache (handlePrepareMsg w from req self s)) = view req
        ∧ idx (m_prepare_cache (handlePrepareMsg w from req self s)) = idx req
        ∧ block_hash (m_prepare_cache (handlePrepareMsg w from req self s)) = exec_sealed_hash x
        ∧ block (m_prepare_cache (handlePrepareMsg w from req self s)) = exec_block_data x
    | None => m_prepare_cache (handlePrepareMsg w from req self s) = empty_req
    end.
Proof.
  unfold prepare_admitted. rewrite !andb_true_iff, !negb_true_iff, !Z.eqb_eq.
  intros (((((((Hdup & Hown) & Hh) & Hv) & Hl1) & Hl2) & Hcp) & Hsig).
  unfold handlePrepareMsg, prepare_stored.
  rewrite Hdup, Hown.
  assert (G1 : (height req <? m_consensus_block_number s) || (view req <? m_view s) = false).
  { apply orb_false_intro; apply Z.ltb_ge; lia. }
  assert (G2 : (height req >? m_consensus_block_number s) || (view req >? m_view s) = false).
  { rewrite !Z.gtb_ltb. apply orb_false_intro; apply Z.ltb_ge; lia. }
  rewrite G1, G2, Hl1, <- Hl2, Z.eqb_refl, Hcp, Hsig.
  simpl.
  destruct (checkBlockValid w (block_hash req) (block req)) as [| x]; [done |].
  destruct (acceptExecuted_caches w from req x (addRawPrepare req s)) as [-> ->].
  split; [done |]. simpl. by destruct (_ && _ && _).
Qed.

(** ** Votes that do not match the prepare cache, and duplicates *)

(** C8 (as amended): a Sign (Commit) whose hash differs from
    [prepare.blockHash] is cached exactly when it is new, not the node's
    own, for a height at or above [consensusHeight] or a view above the
    current one, and correctly signed; otherwise the state is unchanged. *)
Theorem C8_votes_off_the_proposal (w : World) (from : Z) (req : PBFTMsg) (s : State) :
  block_hash (m_prepare_cache s) ≠ block_hash req →
  handleSignMsg w from req s =
    (if negb (isExistSign req s) && negb (idx req =? m_node_idx s)
        && future_msg req s && checkSign w req
     then addSignReq req s else s)
  ∧ handleCommitMsg w from req s =
    (if negb (isExistCommit req s) && negb (idx req =? m_node_idx s)
        && future_msg req s && checkSign w req
     then addCommitReq req s else s).
Proof.
  intros Hne. apply Z.eqb_neq in Hne.
  unfold handleSignMsg, handleCommitMsg, future_msg. rewrite Hne. simpl.
  split.
  - destruct (isExistSign req s); [done |]. by destruct (idx req =? m_node_idx s).
  - destruct (isExistCommit req s); [done |]. by destruct (idx req =? m_node_idx s).
Qed.

Lemma put_vote_lookup req m : at_key (block_hash req) (put_vote req m) !! sig req = Some req.
Proof. unfold put_vote, at_key. rewrite lookup_insert_eq. simpl. by rewrite lookup_insert_eq. Qed.

Lemma put_vote_size req m :
  has_vote req m = true →
  size (at_key (block_hash req) (put_vote req m)) = size (at_key (block_hash req) m).
Proof.
  unfold has_vote, put_vote, at_key. rewrite lookup_insert_eq. simpl.
  destruct (m !! block_hash req) as [inner |]; [| done]. simpl.
  intros Hx%bool_decide_eq_true. by apply map_size_insert_Some.
Qed.

(** C6 (as amended): the vote caches are keyed by signature, so each
    signature has at most one entry per block hash (inserting a vote whose
    signature is present replaces that entry), and a Sign or Commit whose
    signature is already cached for its block hash is a no-op. *)
Theorem C6_duplicate_signature_is_noop (w : World) (from : Z) (req : PBFTMsg) (s : State) :
  (isExistSign req s = true → handleSignMsg w from req s = s)
  ∧ (isExistCommit req s = true → handleCommitMsg w from req s = s)
  ∧ (∀ m, at_key (block_hash req) (put_vote req m) !! sig req = Some req)
  ∧ (∀ m, has_vote req m = true →
          size (at_key (block_hash req) (put_vote req m)) = size (at_key (block_hash req) m)).
Proof.
  split; [| split; [| split]].
  - intros H. unfold handleSignMsg. by rewrite H.
  - intros H. unfold handleCommitMsg. by rewrite H.
  - intros m. apply put_vote_lookup.
  - intros m. apply put_vote_size.
Qed.

(** ** The sealing gate *)

Lemma reHandlePrepareReq_rebroadcasts w req s :
  host_alive w = true →
  ∃ l, outbox (reHandlePrepareReq w req s) =
       outbox s ++ ClearMask
                :: Broadcast PrepareReqPacket
                     (sign_msg (height req) (m_view s) (m_node_idx s) (now w) (block_hash req))
                     (block req) []
                :: l.
Proof.
  intros Hh. unfold reHandlePrepareReq, clearMask, broadcastMsg. rewrite Hh. simpl.
  match goal with |- context [handlePrepareMsg ?a ?b ?c ?d ?t] =>
    destruct (proj1 (handlePrepareMsg_votes a b c d t)) as (l & -> & _) end.
  exists l. simpl. by rewrite <- !app_assoc.
Qed.

(** C7 (as amended): [shouldSeal] returns true iff the configuration is
    valid, the node is a miner, [leaderFailed] is unset, the tip is known,
    [(view + chainTip) mod N == selfIdx], and [consensusHeight] differs
    from [committedPrepare.height].  When the committed proposal is for the
    consensus height it returns false, and a node that passed the checks
    before re-handles the stored proposal (clearing the masks and
    broadcasting it again) unless [rawPrepare] is already at that height. *)
Theorem C7_shouldSeal_gate (w : World) (s : State) :
  (m_cfg_err s = false → m_node_num s ≠ 0) →
  (fst (shouldSeal w s) = true
   ↔ m_cfg_err s = false
     ∧ m_account_type s = EN_ACCOUNT_TYPE_MINER
     ∧ m_leader_failed s = false
     ∧ number (m_highest_block s) ≠ Invalid256
     ∧ add256 (m_view s) (number (m_highest_block s)) mod m_node_num s = m_node_idx s
     ∧ m_consensus_block_number s ≠ height (m_committed_prepare_cache s))
  ∧ (m_consensus_block_number s = height (m_committed_prepare_cache s) →
     fst (shouldSeal w s) = false
     ∧ (is_primary_miner s = true →
        snd (shouldSeal w s) =
          if m_consensus_block_number s =? height (m_raw_prepare_cache s) then s
          else reHandlePrepareReq w (m_committed_prepare_cache s) s)).
Proof.
  intros _. unfold shouldSeal, is_primary_miner, getLeader.
  destruct (m_cfg_err s); simpl.
  { split; [split; [done | by intros [? _]] | done]. }
  destruct (Z.eqb_spec (m_account_type s) EN_ACCOUNT_TYPE_MINER) as [Hm | Hm]; simpl.
  2: { split; [split; [done | by intros (_ & ? & _)] | done]. }
  destruct (m_leader_failed s); simpl.
  { split; [split; [done | by intros (_ & _ & ? & _)] | done]. }
  destruct (Z.eqb_spec (number (m_highest_block s)) Invalid256) as [Ht | Ht]; simpl.
  { split; [split; [done | by intros (_ & _ & _ & ? & _)] | done]. }
  destruct (Z.eqb_spec (add256 (m_view s) (number (m_highest_block s)) mod m_node_num s)
                       (m_node_idx s)) as [Hl | Hl]; simpl.
  2: { split; [split; [done | by intros (_ & _ & _ & _ & ? & _)] | done]. }
  destruct (Z.eqb_spec (m_consensus_block_number s) (height (m_committed_prepare_cache s)))
    as [Hc | Hc]; simpl.
  - split; [split; [done | by intros (_ & _ & _ & _ & _ & ?)] |].
    intros _. split; [done |]. intros _.
    by destruct (m_consensus_block_number s =? height (m_raw_prepare_cache s)).
  - split; [by split | done].
Qed.

(** ** The leader-failed flag *)

Lemma cleared_keep s s' :
  (∃ l, outbox s' = outbox s ++ l) → m_leader_failed s' = m_leader_failed s →
  cleared_by_view_change s s'.
Proof. intros [l Hl] Hf. exists l. split; [done |]. rewrite Hf. auto. Qed.

Lemma cleared_trans s1 s2 s3 :
  cleared_by_view_change s1 s2 → cleared_by_view_change s2 s3 → cleared_by_view_change s1 s3.
Proof.
  intros (l1 & H1 & C1) (l2 & H2 & C2). exists (l1 ++ l2).
  rewrite H2, H1, <- app_assoc. split; [done |]. intros Hf.
  destruct (C2 Hf) as [Hf2 | [v Hv]].
  - destruct (C1 Hf2) as [? | [v Hv]]; [by left |].
    right. exists v. apply elem_of_app. by left.
  - right. exists v. apply elem_of_app. by right.
Qed.

Lemma once_extends s s' : seals_once s s' → ∃ l, outbox s' = outbox s ++ l.
Proof. intros (l & H & _). by exists l. Qed.

Lemma silent_extends s s' : silent s s' → ∃ l, outbox s' = outbox s ++ l.
Proof. intros (l & H & _). by exists l. Qed.

Lemma checkAndChangeView_cleared s : cleared_by_view_change s (checkAndChangeView s).
Proof.
  unfold checkAndChangeView. simpl.
  destruct (_ >=? _).
  - exists [LogReachConsensus (m_to_view s)]. simpl. split; [done |].
    intros _. right. exists (m_to_view s). apply list_elem_of_singleton. done.
  - apply cleared_keep; [exists []; by rewrite app_nil_r | done].
Qed.

Lemma handleViewChangeMsg_cleared w from req s :
  cleared_by_view_change s (handleViewChangeMsg w from req s).
Proof.
  unfold handleViewChangeMsg.
  destruct (isExistViewChange req s);
    [apply cleared_keep; [exists []; by rewrite app_nil_r | done] |].
  destruct (idx req =? m_node_idx s);
    [apply cleared_keep; [exists []; by rewrite app_nil_r | done] |].
  match goal with |- context [emit ?e s] => set (e0 := e) end.
  match goal with |- context [if ?c then emit e0 s else s] =>
    set (s1 := if c then emit e0 s else s) end.
  assert (H1 : cleared_by_view_change s s1).
  { subst s1. destruct (_ && _ && _ && _).
    - apply cleared_keep; [by exists [e0] | done].
    - apply cleared_keep; [exists []; by rewrite app_nil_r | done]. }
  eapply cleared_trans; [exact H1 |]. clearbody s1. clear H1 e0.
  repeat (match goal with
          | |- cleared_by_view_change ?s ?s =>
              apply cleared_keep; [exists []; by rewrite app_nil_r | done]
          | |- cleared_by_view_change _ (if ?c then _ else _) => destruct c
          end).
  - eapply cleared_trans; [| apply checkAndChangeView_cleared].
    apply cleared_keep; [exists []; by rewrite app_nil_r | done].
  - apply cleared_keep; [by exists [Notify] | done].
  - apply cleared_keep; [exists []; by rewrite app_nil_r | done].
Qed.

Lemma checkTimeout_cleared w s : cleared_by_view_change s (checkTimeout w s).
Proof.
  unfold checkTimeout.
  destruct (_ >=? _); [| apply cleared_keep; [exists []; by rewrite app_nil_r | done]].
  match goal with |- context [broadcastViewChangeReq w ?t] => set (s1 := t) end.
  assert (H1 : cleared_by_view_change s s1).
  { exists []. rewrite app_nil_r. split; [done |]. subst s1. simpl. done. }
  eapply cleared_trans; [exact H1 |]. clearbody s1. clear H1.
  assert (H2 : cleared_by_view_change s1 (snd (broadcastViewChangeReq w s1))).
  { apply cleared_keep; [| apply broadcastViewChangeReq_lf].
    destruct (broadcastViewChangeReq_quiet w s1) as (l & Hl & _). by exists l. }
  destruct (negb _); [exact H2 |].
  eapply cleared_trans; [exact H2 |].
  eapply cleared_trans; [apply checkAndChangeView_cleared |].
  apply cleared_keep; [by eexists [OnViewChange] | done].
Qed.

Lemma reportBlock_behind w b s :
  number b < m_consensus_block_number s →
  m_leader_failed (reportBlock w b s) = m_leader_failed s.
Proof.
  intros Hb. unfold reportBlock. simpl.
  destruct (Z.geb_spec (number b) (m_consensus_block_number s)); [lia |].
  frame_step.
Qed.

Lemma reportBlock_advances w b s :
  m_consensus_block_number s ≤ number b → m_leader_failed (reportBlock w b s) = false.
Proof.
  intros Hb. unfold reportBlock. simpl.
  destruct (Z.geb_spec (number b) (m_consensus_block_number s)); [| lia].
  frame_step.
Qed.

Lemma step_cleared w ev s :
  (∃ b, ev = EReportBlock b ∧ m_consensus_block_number s ≤ number b)
  ∨ cleared_by_view_change s (step w ev s).
Proof.
  destruct ev; simpl.
  - right. apply cleared_keep; [| apply broadcastPrepareReq_lf].
    apply once_extends, quiet_once, broadcastPrepareReq_quiet.
  - right. apply cleared_keep; [apply once_extends, generateCommit_votes | apply generateCommit_lf].
  - right. apply cleared_keep; [apply once_extends, shouldSeal_votes | apply shouldSeal_lf].
  - destruct (Z.le_gt_cases (m_consensus_block_number s) (number b)) as [Hle | Hgt].
    + left. by exists b.
    + right. apply cleared_keep; [apply silent_extends, reportBlock_silent |].
      apply reportBlock_behind. lia.
  - right. destruct pkt; simpl.
    + apply cleared_keep; [apply once_extends, (handleMsg_once w (PktPrepare req)) |].
      by autorewrite with frame.
    + apply cleared_keep; [apply once_extends, (handleMsg_once w (PktSign req)) |].
      by autorewrite with frame.
    + apply cleared_keep; [apply once_extends, (handleMsg_once w (PktCommit req)) |].
      by autorewrite with frame.
    + eapply cleared_trans; [apply handleViewChangeMsg_cleared |].
      apply cleared_keep; [| apply relay_lf].
      destruct (relay_quiet w ViewChangeReqPacket req [] from node
                  (handleViewChangeMsg w from req s)) as (l & Hl & _). by exists l.
    + apply cleared_keep; [exists []; by rewrite app_nil_r | done].
  - right. apply checkTimeout_cleared.
  - right. apply cleared_keep; [apply once_extends, handleFutureBlock_votes |].
    apply handleFutureBlock_lf.
  - right. apply cleared_keep; [apply silent_extends, collectGarbage_silent |].
    apply collectGarbage_lf.
  - right. exists [Notify]. simpl. split; [done |]. discriminate.
Qed.

Lemma checkTimeout_sets_flag w s :
  (sub64 (now w) (Z.max (m_last_consensus_time s) (m_last_sign_time s))
     >=? timeout_interval (m_view_timeout s) (m_change_cycle s)) = true →
  m_leader_failed (checkTimeout w s) = true
  ∨ ∃ v, LogReachConsensus v ∈ emitted s (checkTimeout w s).
Proof.
  intros Hexp. unfold checkTimeout. rewrite Hexp.
  match goal with |- context [broadcastViewChangeReq w ?t] => set (s1 := t) end.
  assert (Ho : outbox s1 = outbox s) by done.
  assert (Hf : m_leader_failed s1 = true) by done.
  clearbody s1.
  pose proof (broadcastViewChangeReq_lf w s1) as Hb.
  destruct (broadcastViewChangeReq_quiet w s1) as (l1 & Hl1 & _).
  destruct (negb _); [left; congruence |].
  destruct (checkAndChangeView_cleared (snd (broadcastViewChangeReq w s1))) as (l2 & Hl2 & Hc).
  unfold emitted. simpl. rewrite Hl2, Hl1, Ho, <- !app_assoc, drop_app_length.
  destruct (m_leader_failed (checkAndChangeView _)) eqn:Hfin; [by left |].
  right. destruct (Hc eq_refl) as [Hs | [v Hv]]; [congruence |].
  exists v. rewrite !elem_of_app. auto.
Qed.

(** C10 (as amended): while [leaderFailed] is set, [getLeader] fails and
    [shouldSeal] returns false without touching the state, whatever the
    node's index.  From any state, [changeViewForEmptyBlockWithLock] sets
    the flag, and so does an expired [checkTimeout] (unless that very call
    completes the view change); the empty-block view change inside
    [handlePrepareMsg], [changeViewForEmptyBlockWithoutLock], leaves the
    flag as it is, and so does [handlePrepareMsg] as a whole.  An entry
    point can only reset the flag by completing a view change in
    [checkAndChangeView] or by a [reportBlock] at or above the consensus
    height, and both do reset it. *)
Theorem C10_leader_failed_stops_sealing (w : World) (s : State) :
  m_leader_failed s = true →
  getLeader s = (false, Invalid256)
  ∧ shouldSeal w s = (false, s)
  ∧ (∀ s0, m_leader_failed (changeViewForEmptyBlockWithLock s0) = true)
  ∧ (∀ s0, m_leader_failed (changeViewForEmptyBlockWithoutLock s0) = m_leader_failed s0)
  ∧ (∀ w' from req self s0,
       m_leader_failed (handlePrepareMsg w' from req self s0) = m_leader_failed s0)
  ∧ (∀ w' s0,
       (sub64 (now w') (Z.max (m_last_consensus_time s0) (m_last_sign_time s0))
          >=? timeout_interval (m_view_timeout s0) (m_change_cycle s0)) = true →
       m_leader_failed (checkTimeout w' s0) = true
       ∨ ∃ v, LogReachConsensus v ∈ emitted s0 (checkTimeout w' s0))
  ∧ (∀ w' ev, m_leader_failed (step w' ev s) = false →
       (∃ b, ev = EReportBlock b ∧ m_consensus_block_number s ≤ number b)
       ∨ (∃ v, LogReachConsensus v ∈ emitted s (step w' ev s)))
  ∧ (∀ w' b, m_consensus_block_number s ≤ number b →
       m_leader_failed (reportBlock w' b s) = false)
  ∧ (∀ v, LogReachConsensus v ∈ emitted s (checkAndChangeView s) →
       m_leader_failed (checkAndChangeView s) = false
       ∧ m_view (checkAndChangeView s) = m_to_view s).
Proof.
  intros Hf.
  assert (Hg : getLeader s = (false, Invalid256)).
  { unfold getLeader. rewrite Hf. by rewrite orb_true_r. }
  split; [exact Hg |]. split.
  { unfold shouldSeal. rewrite Hg. simpl. by destruct (_ || _). }
  split; [done |]. split; [done |]. split; [intros; apply handlePrepareMsg_lf |].
  split; [intros w' s0; apply checkTimeout_sets_flag |]. split; [| split].
  - intros w' ev Hc. destruct (step_cleared w' ev s) as [Hr | (l & Hl & Hcl)]; [by left |].
    right. rewrite (emitted_app _ _ _ Hl). destruct (Hcl Hc) as [Hs | Hv]; [congruence | done].
  - intros w' b. apply reportBlock_advances.
  - intros v. unfold checkAndChangeView. simpl. destruct (_ >=? _); simpl; [done |].
    unfold emitted. simpl. rewrite drop_all. intros Hin. by apply elem_of_nil in Hin.
Qed.

(** ** Members only [reportBlock] writes, and members the voting pipeline
    leaves alone *)

Arguments ground_of : simpl never.
Arguments views_of : simpl never.

(** An assignment to another member does not show in the tuple. *)
Lemma ground_set_m_view v s : ground_of (set_m_view v s) = ground_of s.
Proof. reflexivity. Qed.
Lemma ground_set_m_to_view v s : ground_of (set_m_to_view v s) = ground_of s.
Proof. reflexivity. Qed.
Lemma ground_set_m_change_cycle v s : ground_of (set_m_change_cycle v s) = ground_of s.
Proof. reflexivity. Qed.
Lemma ground_set_m_leader_failed v s : ground_of (set_m_leader_failed v s) = ground_of s.
Proof. reflexivity. Qed.
Lemma ground_set_m_empty_block_flag v s : ground_of (set_m_empty_block_flag v s) = ground_of s.
Proof. reflexivity. Qed.
Lemma ground_set_m_omit_empty_block v s : ground_of (set_m_omit_empty_block v s) = ground_of s.
Proof. reflexivity. Qed.
Lemma ground_set_m_view_timeout v s : ground_of (set_m_view_timeout v s) = ground_of s.
Proof. reflexivity. Qed.
Lemma ground_set_m_last_consensus_time v s : ground_of (set_m_last_consensus_time v s) = ground_of s.
Proof. reflexivity. Qed.
Lemma ground_set_m_last_sign_time v s : ground_of (set_m_last_sign_time v s) = ground_of s.
Proof. reflexivity. Qed.
Lemma ground_set_m_last_exec_finish_time v s : ground_of (set_m_last_exec_finish_time v s) = ground_of s.
Proof. reflexivity. Qed.
Lemma ground_set_m_last_collect_time v s : ground_of (set_m_last_collect_time v s) = ground_of s.
Proof. reflexivity. Qed.
Lemma ground_set_m_raw_prepare_cache v s : ground_of (set_m_raw_prepare_cache v s) = ground_of s.
Proof. reflexivity. Qed.
Lemma ground_set_m_prepare_cache v s : ground_of (set_m_prepare_cache v s) = ground_of s.
Proof. reflexivity. Qed.
Lemma ground_set_m_committed_prepare_cache v s : ground_of (set_m_committed_prepare_cache v s) = ground_of s.
Proof. reflexivity. Qed.
Lemma ground_set_m_future_prepare_cache v s : ground_of (set_m_future_prepare_cache v s) = ground_of s.
Proof. reflexivity. Qed.
Lemma ground_set_m_sign_cache v s : ground_of (set_m_sign_cache v s) = ground_of s.
Proof. reflexivity. Qed.
Lemma ground_set_m_commit_cache v s : ground_of (set_m_commit_cache v s) = ground_of s.
Proof. reflexivity. Qed.
Lemma ground_set_m_recv_view_change_req v s : ground_of (set_m_recv_view_change_req v s) = ground_of s.
Proof. reflexivity. Qed.
Lemma ground_set_m_commitMap v s : ground_of (set_m_commitMap v s) = ground_of s.
Proof. reflexivity. Qed.
Lemma ground_set_outbox v s : ground_of (set_outbox v s) = ground_of s.
Proof. reflexivity. Qed.
Lemma views_set_m_cfg_err v s : views_of (set_m_cfg_err v s) = views_of s.
Proof. reflexivity. Qed.
Lemma views_set_m_account_type v s : views_of (set_m_account_type v s) = views_of s.
Proof. reflexivity. Qed.
Lemma views_set_m_node_num v s : views_of (set_m_node_num v s) = views_of s.
Proof. reflexivity. Qed.
Lemma views_set_m_node_idx v s : views_of (set_m_node_idx v s) = views_of s.
Proof. reflexivity. Qed.
Lemma views_set_m_f v s : views_of (set_m_f v s) = views_of s.
Proof. reflexivity. Qed.
Lemma views_set_m_miner_list v s : views_of (set_m_miner_list v s) = views_of s.
Proof. reflexivity. Qed.
Lemma views_set_m_change_cycle v s : views_of (set_m_change_cycle v s) = views_of s.
Proof. reflexivity. Qed.
Lemma views_set_m_empty_block_flag v s : views_of (set_m_empty_block_flag v s) = views_of s.
Proof. reflexivity. Qed.
Lemma views_set_m_omit_empty_block v s : views_of (set_m_omit_empty_block v s) = views_of s.
Proof. reflexivity. Qed.
Lemma views_set_m_view_timeout v s : views_of (set_m_view_timeout v s) = views_of s.
Proof. reflexivity. Qed.
Lemma views_set_m_last_consensus_time v s : views_of (set_m_last_consensus_time v s) = views_of s.
Proof. reflexivity. Qed.
Lemma views_set_m_last_sign_time v s : views_of (set_m_last_sign_time v s) = views_of s.
Proof. reflexivity. Qed.
Lemma views_set_m_last_exec_finish_time v s : views_of (set_m_last_exec_finish_time v s) = views_of s.
Proof. reflexivity. Qed.
Lemma views_set_m_last_collect_time v s : views_of (set_m_last_collect_time v s) = views_of s.
Proof. reflexivity. Qed.
Lemma views_set_m_highest_block v s : views_of (set_m_highest_block v s) = views_of s.
Proof. reflexivity. Qed.
Lemma views_set_m_consensus_block_number v s : views_of (set_m_consensus_block_number v s) = views_of s.
Proof. reflexivity. Qed.
Lemma views_set_m_raw_prepare_cache v s : views_of (set_m_raw_prepare_cache v s) = views_of s.
Proof. reflexivity. Qed.
Lemma views_set_m_prepare_cache v s : views_of (set_m_prepare_cache v s) = views_of s.
Proof. reflexivity. Qed.
Lemma views_set_m_committed_prepare_cache v s : views_of (set_m_committed_prepare_cache v s) = views_of s.
Proof. reflexivity. Qed.
Lemma views_set_m_future_prepare_cache v s : views_of (set_m_future_prepare_cache v s) = views_of s.
Proof. reflexivity. Qed.
Lemma views_set_m_sign_cache v s : views_of (set_m_sign_cache v s) = views_of s.
Proof. reflexivity. Qed.
Lemma views_set_m_commit_cache v s : views_of (set_m_commit_cache v s) = views_of s.
Proof. reflexivity. Qed.
Lemma views_set_m_recv_view_change_req v s : views_of (set_m_recv_view_change_req v s) = views_of s.
Proof. reflexivity. Qed.
Lemma views_set_m_commitMap v s : views_of (set_m_commitMap v s) = views_of s.
Proof. reflexivity. Qed.
Lemma views_set_outbox v s : views_of (set_outbox v s) = views_of s.
Proof. reflexivity. Qed.
Hint Rewrite ground_set_m_view ground_set_m_to_view ground_set_m_change_cycle
  ground_set_m_leader_failed ground_set_m_empty_block_flag ground_set_m_omit_empty_block
  ground_set_m_view_timeout ground_set_m_last_consensus_time ground_set_m_last_sign_time
  ground_set_m_last_exec_finish_time ground_set_m_last_collect_time ground_set_m_raw_prepare_cache
  ground_set_m_prepare_cache ground_set_m_committed_prepare_cache ground_set_m_future_prepare_cache
  ground_set_m_sign_cache ground_set_m_commit_cache ground_set_m_recv_view_change_req
  ground_set_m_commitMap ground_set_outbox views_set_m_cfg_err views_set_m_account_type
  views_set_m_node_num views_set_m_node_idx views_set_m_f views_set_m_miner_list
  views_set_m_change_cycle views_set_m_empty_block_flag views_set_m_omit_empty_block
  views_set_m_view_timeout views_set_m_last_consensus_time views_set_m_last_sign_time
  views_set_m_last_exec_finish_time views_set_m_last_collect_time views_set_m_highest_block
  views_set_m_consensus_block_number views_set_m_raw_prepare_cache views_set_m_prepare_cache
  views_set_m_committed_prepare_cache views_set_m_future_prepare_cache views_set_m_sign_cache
  views_set_m_commit_cache views_set_m_recv_view_change_req views_set_m_commitMap views_set_outbox :
  frame.

Ltac ground_step :=
  repeat case_match;
  repeat first [ progress simpl | progress autorewrite with frame ];
  try match goal with |- ?x = ?y => constr_eq x y; reflexivity end.

Ltac views_step := ground_step.

Lemma emit_ground e s : ground_of (emit e s) = ground_of s.
Proof. unfold emit. ground_step. Qed.
Hint Rewrite emit_ground : frame.

Lemma emit_views e s : views_of (emit e s) = views_of s.
Proof. unfold emit. views_step. Qed.
Hint Rewrite emit_views : frame.

Lemma broadcastMsg_ground w id req blk f s : ground_of (snd (broadcastMsg w id req blk f s)) = ground_of s.
Proof. unfold broadcastMsg. ground_step. Qed.
Hint Rewrite broadcastMsg_ground : frame.

Lemma broadcastMsg_views w id req blk f s : views_of (snd (broadcastMsg w id req blk f s)) = views_of s.
Proof. unfold broadcastMsg. views_step. Qed.
Hint Rewrite broadcastMsg_views : frame.

Lemma addSignReq_ground req s : ground_of (addSignReq req s) = ground_of s.
Proof. unfold addSignReq. ground_step. Qed.
Hint Rewrite addSignReq_ground : frame.

Lemma addSignReq_views req s : views_of (addSignReq req s) = views_of s.
Proof. unfold addSignReq. views_step. Qed.
Hint Rewrite addSignReq_views : frame.

Lemma addCommitReq_ground req s : ground_of (addCommitReq req s) = ground_of s.
Proof. unfold addCommitReq. ground_step. Qed.
Hint Rewrite addCommitReq_ground : frame.

Lemma addCommitReq_views req s : views_of (addCommitReq req s) = views_of s.
Proof. unfold addCommitReq. views_step. Qed.
Hint Rewrite addCommitReq_views : frame.

Lemma addRawPrepare_ground req s : ground_of (addRawPrepare req s) = ground_of s.
Proof. unfold addRawPrepare. ground_step. Qed.
Hint Rewrite addRawPrepare_ground : frame.

Lemma addRawPrepare_views req s : views_of (addRawPrepare req s) = views_of s.
Proof. unfold addRawPrepare. views_step. Qed.
Hint Rewrite addRawPrepare_views : frame.

Lemma addPrepareReq_ground req s : ground_of (addPrepareReq req s) = ground_of s.
Proof. unfold addPrepareReq. ground_step. Qed.
Hint Rewrite addPrepareReq_ground : frame.

Lemma addPrepareReq_views req s : views_of (addPrepareReq req s) = views_of s.
Proof. unfold addPrepareReq. views_step. Qed.
Hint Rewrite addPrepareReq_views : frame.

Lemma broadcastSignReq_ground w req s : ground_of (snd (broadcastSignReq w req s)) = ground_of s.
Proof. unfold broadcastSignReq. ground_step. Qed.
Hint Rewrite broadcastSignReq_ground : frame.

Lemma broadcastSignReq_views w req s : views_of (snd (broadcastSignReq w req s)) = views_of s.
Proof. unfold broadcastSignReq. views_step. Qed.
Hint Rewrite broadcastSignReq_views : frame.

Lemma broadcastCommitReq_ground w req s : ground_of (snd (broadcastCommitReq w req s)) = ground_of s.
Proof. unfold broadcastCommitReq. ground_step. Qed.
Hint Rewrite broadcastCommitReq_ground : frame.

Lemma broadcastCommitReq_views w req s : views_of (snd (broadcastCommitReq w req s)) = views_of s.
Proof. unfold broadcastCommitReq. views_step. Qed.
Hint Rewrite broadcastCommitReq_views : frame.

Lemma broadcastPrepareReq_ground w bi blk s : ground_of (snd (broadcastPrepareReq w bi blk s)) = ground_of s.
Proof. unfold broadcastPrepareReq. ground_step. Qed.
Hint Rewrite broadcastPrepareReq_ground : frame.

Lemma broadcastPrepareReq_views w bi blk s : views_of (snd (broadcastPrepareReq w bi blk s)) = views_of s.
Proof. unfold broadcastPrepareReq. views_step. Qed.
Hint Rewrite broadcastPrepareReq_views : frame.

Lemma broadcastViewChangeReq_ground w s : ground_of (snd (broadcastViewChangeReq w s)) = ground_of s.
Proof. unfold broadcastViewChangeReq. ground_step. Qed.
Hint Rewrite broadcastViewChangeReq_ground : frame.

Lemma broadcastViewChangeReq_views w s : views_of (snd (broadcastViewChangeReq w s)) = views_of s.
Proof. unfold broadcastViewChangeReq. views_step. Qed.
Hint Rewrite broadcastViewChangeReq_views : frame.

Lemma checkAndSave_ground s : ground_of (checkAndSave s) = ground_of s.
Proof. unfold checkAndSave. ground_step. Qed.
Hint Rewrite checkAndSave_ground : frame.

Lemma checkAndSave_views s : views_of (checkAndSave s) = views_of s.
Proof. unfold checkAndSave. views_step. Qed.
Hint Rewrite checkAndSave_views : frame.

Lemma checkAndCommit_ground w s : ground_of (checkAndCommit w s) = ground_of s.
Proof. unfold checkAndCommit. ground_step. Qed.
Hint Rewrite checkAndCommit_ground : frame.

Lemma checkAndCommit_views w s : views_of (checkAndCommit w s) = views_of s.
Proof. unfold checkAndCommit. views_step. Qed.
Hint Rewrite checkAndCommit_views : frame.

Lemma acceptExecuted_ground w from req x s : ground_of (acceptExecuted w from req x s) = ground_of s.
Proof. unfold acceptExecuted, changeViewForEmptyBlockWithoutLock. ground_step. Qed.
Hint Rewrite acceptExecuted_ground : frame.

Lemma acceptExecuted_views w from req x s : views_of (acceptExecuted w from req x s) = views_of s.
Proof. unfold acceptExecuted, changeViewForEmptyBlockWithoutLock. views_step. Qed.
Hint Rewrite acceptExecuted_views : frame.

Lemma handlePrepareMsg_ground w from req self s : ground_of (handlePrepareMsg w from req self s) = ground_of s.
Proof. unfold handlePrepareMsg, recvFutureBlock. ground_step. Qed.
Hint Rewrite handlePrepareMsg_ground : frame.

Lemma handlePrepareMsg_views w from req self s : views_of (handlePrepareMsg w from req self s) = views_of s.
Proof. unfold handlePrepareMsg, recvFutureBlock. views_step. Qed.
Hint Rewrite handlePrepareMsg_views : frame.

Lemma reHandlePrepareReq_ground w req s : ground_of (reHandlePrepareReq w req s) = ground_of s.
Proof. unfold reHandlePrepareReq, clearMask. ground_step. Qed.
Hint Rewrite reHandlePrepareReq_ground : frame.

Lemma reHandlePrepareReq_views w req s : views_of (reHandlePrepareReq w req s) = views_of s.
Proof. unfold reHandlePrepareReq, clearMask. views_step. Qed.
Hint Rewrite reHandlePrepareReq_views : frame.

Lemma handleSignMsg_ground w from req s : ground_of (handleSignMsg w from req s) = ground_of s.
Proof. unfold handleSignMsg. ground_step. Qed.
Hint Rewrite handleSignMsg_ground : frame.

Lemma handleSignMsg_views w from req s : views_of (handleSignMsg w from req s) = views_of s.
Proof. unfold handleSignMsg. views_step. Qed.
Hint Rewrite handleSignMsg_views : frame.

Lemma handleCommitMsg_ground w from req s : ground_of (handleCommitMsg w from req s) = ground_of s.
Proof. unfold handleCommitMsg. ground_step. Qed.
Hint Rewrite handleCommitMsg_ground : frame.

Lemma handleCommitMsg_views w from req s : views_of (handleCommitMsg w from req s) = views_of s.
Proof. unfold handleCommitMsg. views_step. Qed.
Hint Rewrite handleCommitMsg_views : frame.

Lemma relay_ground w id m raw from node s : ground_of (relay w id m raw from node s) = ground_of s.
Proof. unfold relay. ground_step. Qed.
Hint Rewrite relay_ground : frame.

Lemma relay_views w id m raw from node s : views_of (relay w id m raw from node s) = views_of s.
Proof. unfold relay. views_step. Qed.
Hint Rewrite relay_views : frame.

Lemma handleFutureBlock_ground w s : ground_of (handleFutureBlock w s) = ground_of s.
Proof. unfold handleFutureBlock. ground_step. Qed.
Hint Rewrite handleFutureBlock_ground : frame.

Lemma handleFutureBlock_views w s : views_of (handleFutureBlock w s) = views_of s.
Proof. unfold handleFutureBlock. views_step. Qed.
Hint Rewrite handleFutureBlock_views : frame.

Lemma generateCommit_ground w bi blk v s : ground_of (snd (generateCommit w bi blk v s)) = ground_of s.
Proof. unfold generateCommit. ground_step. Qed.
Hint Rewrite generateCommit_ground : frame.

Lemma generateCommit_views w bi blk v s : views_of (snd (generateCommit w bi blk v s)) = views_of s.
Proof. unfold generateCommit. views_step. Qed.
Hint Rewrite generateCommit_views : frame.

Lemma shouldSeal_ground w s : ground_of (snd (shouldSeal w s)) = ground_of s.
Proof. unfold shouldSeal. ground_step. Qed.
Hint Rewrite shouldSeal_ground : frame.

Lemma shouldSeal_views w s : views_of (snd (shouldSeal w s)) = views_of s.
Proof. unfold shouldSeal. views_step. Qed.
Hint Rewrite shouldSeal_views : frame.

Lemma collectGarbage_ground w s : ground_of (collectGarbage w s) = ground_of s.
Proof. unfold collectGarbage. ground_step. Qed.
Hint Rewrite collectGarbage_ground : frame.

Lemma collectGarbage_views w s : views_of (collectGarbage w s) = views_of s.
Proof. unfold collectGarbage. views_step. Qed.
Hint Rewrite collectGarbage_views : frame.

Lemma checkAndChangeView_ground s : ground_of (checkAndChangeView s) = ground_of s.
Proof. unfold checkAndChangeView. ground_step. Qed.
Hint Rewrite checkAndChangeView_ground : frame.

Lemma handleViewChangeMsg_ground w from req s : ground_of (handleViewChangeMsg w from req s) = ground_of s.
Proof. unfold handleViewChangeMsg. ground_step. Qed.
Hint Rewrite handleViewChangeMsg_ground : frame.

Lemma checkTimeout_ground w s : ground_of (checkTimeout w s) = ground_of s.
Proof. unfold checkTimeout. ground_step. Qed.
Hint Rewrite checkTimeout_ground : frame.

Lemma delCache_views h s : views_of (delCache h s) = views_of s.
Proof. unfold delCache. views_step. Qed.
Hint Rewrite delCache_views : frame.

Lemma delCache_ground h s : ground_of (delCache h s) = ground_of s.
Proof. unfold delCache. ground_step. Qed.
Lemma delViewChange_ground s : ground_of (delViewChange s) = ground_of s.
Proof. reflexivity. Qed.
Lemma delViewChange_views s : views_of (delViewChange s) = views_of s.
Proof. reflexivity. Qed.
Lemma resetConfig_views w s : views_of (resetConfig w s) = views_of s.
Proof. unfold resetConfig. ground_step. Qed.
Hint Rewrite delCache_ground delViewChange_ground delViewChange_views resetConfig_views : frame.

Lemma step_ground (w : World) (ev : Event) (s : State) :
  is_report ev = false → ground_of (step w ev s) = ground_of s.
Proof.
  destruct ev as [| | | | pkt from node | | | |]; simpl; try done; intros _.
  - apply broadcastPrepareReq_ground.
  - apply generateCommit_ground.
  - apply shouldSeal_ground.
  - destruct pkt; simpl; by autorewrite with frame.
  - apply checkTimeout_ground.
  - apply handleFutureBlock_ground.
  - apply collectGarbage_ground.
Qed.

(** X1: no entry point other than [reportBlock] changes the
    configuration taken from the roster ([m_cfg_err], [m_account_type],
    [m_node_num], [m_node_idx], [m_f], [m_miner_list]), the chain tip or
    the height under agreement. *)
Theorem X1_only_reportBlock_moves_ground (w : World) (ev : Event) (s : State) :
  is_report ev = false → ground_of (step w ev s) = ground_of s.
Proof. apply step_ground. Qed.

Lemma step_views (w : World) (ev : Event) (s : State) :
  touches_views ev = false → views_of (step w ev s) = views_of s.
Proof.
  destruct ev as [| | | | pkt from node | | | |]; simpl; try done; intros Hv.
  - apply broadcastPrepareReq_views.
  - apply generateCommit_views.
  - apply shouldSeal_views.
  - destruct pkt; simpl in *; try done; by autorewrite with frame.
  - apply handleFutureBlock_views.
  - apply collectGarbage_views.
Qed.

(** X2: proposing, voting, sealing and garbage collection never change
    [m_view], [m_to_view] or [m_leader_failed]; only a chain report, a
    timeout, a view-change packet and the empty-block hook can. *)
Theorem X2_votes_leave_views_alone (w : World) (ev : Event) (s : State) :
  touches_views ev = false → views_of (step w ev s) = views_of s.
Proof. apply step_views. Qed.

(** ** The configuration invariant *)

Lemma ground_config_wf s s' : ground_of s' = ground_of s → config_wf s → config_wf s'.
Proof.
  unfold ground_of, config_wf. intros Hg [Hn Hf].
  injection Hg as Hc _ Hnn _ Hff _ _ _. rewrite Hc, Hnn, Hff. done.
Qed.

Lemma reportBlock_config_wf w b s : config_wf s → config_wf (reportBlock w b s).
Proof.
  intros [Hn Hf]. unfold reportBlock.
  match goal with |- config_wf (delCache ?h (resetConfig w ?t)) =>
    assert (Hft : m_f t = faulty_of (m_node_num t)) by (simpl; by repeat case_match);
    apply (ground_config_wf (resetConfig w t)); [apply delCache_ground |];
    split; [apply resetConfig_node_num | by apply resetConfig_faulty]
  end.
Qed.

(** X3: every entry point keeps the configuration well formed: a usable
    configuration ([m_cfg_err] false) has [m_node_num != 0], so the [%] of
    [getLeader] never divides by zero, and [m_f = (m_node_num - 1) / 3]. *)
Theorem X3_config_wf_invariant (w : World) (ev : Event) (s : State) :
  config_wf s → config_wf (step w ev s).
Proof.
  intros Hwf. destruct (is_report ev) eqn:Hr.
  - destruct ev; try done. simpl. by apply reportBlock_config_wf.
  - eapply ground_config_wf; [by apply step_ground | done].
Qed.

(** ** [resetConfig] called again *)

Lemma resetConfig_adopts w s t i :
  getAccountType_self w = Some t → getMinerNum w ≠ 0 → getIdx_self w = Some i →
  m_account_type (resetConfig w s) = t
  ∧ m_node_num (resetConfig w s) = getMinerNum w
  ∧ m_node_idx (resetConfig w s) = i.
Proof.
  intros Ht Hn Hi. unfold resetConfig. rewrite Ht, Hi. simpl.
  destruct (Z.eqb_spec (getMinerNum w) 0) as [| _]; [done |].
  destruct (negb (getMinerNum w =? m_node_num s) || negb (i =? m_node_idx s)) eqn:Hch.
  - by repeat case_match.
  - simpl. apply orb_false_elim in Hch as [H1 H2].
    apply negb_false_iff, Z.eqb_eq in H1, H2. done.
Qed.

(** X4: when the roster knows the node and has at least one miner, a
    second [resetConfig] on the same roster always ends with
    [m_cfg_err == false], whatever the first call found: the miner list is
    only rebuilt and checked when the miner count or the own index
    changed, so an error raised by [getMinerList] or by the size check is
    cleared by the next call. *)
Theorem X4_resetConfig_again_clears_error (w : World) (s : State) (t i : Z) :
  getAccountType_self w = Some t → getMinerNum w ≠ 0 → getIdx_self w = Some i →
  m_cfg_err (resetConfig w (resetConfig w s)) = false
  ∧ m_miner_list (resetConfig w (resetConfig w s)) = m_miner_list (resetConfig w s).
Proof.
  intros Ht Hn Hi.
  destruct (resetConfig_adopts w s t i Ht Hn Hi) as (_ & Hnum & Hidx).
  unfold resetConfig at 1 3. rewrite Ht, Hi. simpl.
  destruct (Z.eqb_spec (getMinerNum w) 0) as [| _]; [done |].
  rewrite Hnum, Hidx, !Z.eqb_refl. simpl. done.
Qed.

(** ** The chain cursor *)

Lemma ground_cursor s s' :
  ground_of s' = ground_of s →
  m_highest_block s' = m_highest_block s
  ∧ m_consensus_block_number s' = m_consensus_block_number s.
Proof. unfold ground_of. intros Hg. by injection Hg as _ _ _ _ _ _ -> ->. Qed.

Lemma resetConfig_cursor w s :
  m_highest_block (resetConfig w s) = m_highest_block s
  ∧ m_consensus_block_number (resetConfig w s) = m_consensus_block_number s.
Proof. unfold resetConfig. by repeat case_match. Qed.

Lemma reportBlock_cursor w b s :
  m_highest_block (reportBlock w b s) = b
  ∧ m_consensus_block_number (reportBlock w b s) =
      if number b >=? m_consensus_block_number s then add256 (number b) 1
      else m_consensus_block_number s.
Proof.
  unfold reportBlock.
  match goal with |- context [delCache ?h (resetConfig w ?t)] =>
    destruct (ground_cursor _ _ (delCache_ground h (resetConfig w t))) as [-> ->];
    destruct (resetConfig_cursor w t) as [-> ->]
  end.
  simpl. by destruct (number b >=? m_consensus_block_number s).
Qed.

(** X5: the height under agreement never goes down, it is above the
    chain tip after every [reportBlock], and it stays above the tip under
    every other entry point.  (Reported block numbers are taken below
    [2^256 - 1], so that [number + 1] does not wrap.) *)
Theorem X5_height_above_tip (w : World) (ev : Event) (s : State) :
  reports_in_range ev →
  m_consensus_block_number s ≤ m_consensus_block_number (step w ev s)
  ∧ (above_tip s ∨ is_report ev = true → above_tip (step w ev s)).
Proof.
  intros Hr. destruct (is_report ev) eqn:Hrep.
  - destruct ev as [| | | b | | | | |]; try done.
    unfold reports_in_range in Hr. cbn [step].
    unfold above_tip. destruct (reportBlock_cursor w b s) as [-> ->].
    unfold add256. rewrite Z.mod_small by lia.
    destruct (Z.geb_spec (number b) (m_consensus_block_number s)); split; intros; lia.
  - destruct (ground_cursor _ _ (step_ground w ev s Hrep)) as [Ht Hc].
    unfold above_tip. rewrite Ht, Hc. split; [lia |]. intros [? | ?]; done.
Qed.

(** ** [reportBlock] and the caches of the reported block *)

Lemma delCache_clears h s :
  m_sign_cache (delCache h s) !! h = None
  ∧ m_commit_cache (delCache h s) !! h = None
  ∧ m_commitMap (delCache h s) !! h = None
  ∧ (m_prepare_cache (delCache h s) ≠ empty_req →
     block_hash (m_prepare_cache (delCache h s)) ≠ h).
Proof.
  unfold delCache. simpl.
  destruct (Z.eqb_spec h (block_hash (m_prepare_cache s))); simpl;
    rewrite !lookup_delete_eq; repeat split; try done; congruence.
Qed.

(** X6: after [reportBlock] of a block, nothing is cached for its
    pre-seal hash: no sign votes, no commit votes, no seal flag, and the
    prepare cache does not hold a proposal with that hash unless it is
    the empty one. *)
Theorem X6_reportBlock_drops_votes (w : World) (b : BlockHeader) (s : State) :
  m_sign_cache (reportBlock w b s) !! hash_WithoutSeal b = None
  ∧ m_commit_cache (reportBlock w b s) !! hash_WithoutSeal b = None
  ∧ m_commitMap (reportBlock w b s) !! hash_WithoutSeal b = None
  ∧ (m_prepare_cache (reportBlock w b s) ≠ empty_req →
     block_hash (m_prepare_cache (reportBlock w b s)) ≠ hash_WithoutSeal b).
Proof.
  unfold reportBlock.
  match goal with |- context [resetConfig w ?t] =>
    set (s1 := resetConfig w t);
    assert (Hb : m_highest_block s1 = b)
      by (subst s1; destruct (resetConfig_cursor w t) as [-> _];
          simpl; by destruct (_ >=? _))
  end.
  rewrite Hb. apply delCache_clears.
Qed.

(** ** [reportBlock] called again *)

Lemma set_m_highest_block_same v s : m_highest_block s = v → set_m_highest_block v s = s.
Proof. intros <-. by destruct s. Qed.

Lemma set_m_cfg_err_same v s : m_cfg_err s = v → set_m_cfg_err v s = s.
Proof. intros <-. by destruct s. Qed.

Lemma set_m_account_type_same v s : m_account_type s = v → set_m_account_type v s = s.
Proof. intros <-. by destruct s. Qed.

Lemma resetConfig_ok w s :
  m_cfg_err (resetConfig w s) = false →
  ∃ t i, getAccountType_self w = Some t ∧ getMinerNum w ≠ 0 ∧ getIdx_self w = Some i.
Proof.
  unfold resetConfig.
  destruct (getAccountType_self w) as [t |]; [| done]. simpl.
  destruct (Z.eqb_spec (getMinerNum w) 0); [done |].
  destruct (getIdx_self w) as [i |]; [| done]. intros _. by exists t, i.
Qed.

(** Once [resetConfig] has produced a usable configuration, running it
    again on any state with that configuration changes nothing. *)
Lemma resetConfig_settled w s s' :
  m_cfg_err (resetConfig w s) = false →
  ground_of s' = ground_of (resetConfig w s) →
  resetConfig w s' = s'.
Proof.
  intros Hc Hg.
  destruct (resetConfig_ok w s Hc) as (t & i & Ht & Hn & Hi).
  destruct (resetConfig_adopts w s t i Ht Hn Hi) as (Hat & Hnum & Hidx).
  unfold ground_of in Hg. injection Hg as Hg1 Hg2 Hg3 Hg4 _ _ _ _.
  unfold resetConfig. rewrite Ht, Hi. simpl.
  destruct (Z.eqb_spec (getMinerNum w) 0); [done |].
  rewrite Hg3, Hg4, Hnum, Hidx, !Z.eqb_refl. simpl.
  rewrite (set_m_account_type_same t s') by congruence.
  apply set_m_cfg_err_same. congruence.
Qed.

Lemma delCache_twice h s : delCache h (delCache h s) = delCache h s.
Proof.
  unfold delCache. simpl.
  destruct (h =? block_hash (m_prepare_cache s)) eqn:H1; simpl.
  - destruct (h =? block_hash empty_req); simpl; by rewrite !delete_delete_eq.
  - rewrite H1. simpl. by rewrite !delete_delete_eq.
Qed.

Lemma reportBlock_behind_eq w b s :
  m_highest_block s = b → number b < m_consensus_block_number s →
  reportBlock w b s = delCache (hash_WithoutSeal b) (resetConfig w s).
Proof.
  intros Ht Hlt. unfold reportBlock.
  rewrite (set_m_highest_block_same b s Ht). cbv zeta. rewrite Ht.
  destruct (Z.geb_spec (number b) (m_consensus_block_number s)); [lia |].
  destruct (resetConfig_cursor w s) as [-> _]. by rewrite Ht.
Qed.

Lemma ground_cfg_err s s' : ground_of s' = ground_of s → m_cfg_err s' = m_cfg_err s.
Proof. unfold ground_of. intros Hg. by injection Hg as -> _. Qed.

(** X7: reporting the same block twice is the same as reporting it once,
    provided the first report left a usable configuration (and the block
    number is below [2^256 - 1]). *)
Theorem X7_reportBlock_twice (w : World) (b : BlockHeader) (s : State) :
  0 ≤ number b < 2 ^ 256 - 1 →
  m_cfg_err (reportBlock w b s) = false →
  reportBlock w b (reportBlock w b s) = reportBlock w b s.
Proof.
  intros Hb Hc.
  destruct (reportBlock_cursor w b s) as [Htip Hcons].
  assert (Habove : number b < m_consensus_block_number (reportBlock w b s)).
  { rewrite Hcons. unfold add256. rewrite Z.mod_small by lia.
    destruct (Z.geb_spec (number b) (m_consensus_block_number s)); lia. }
  rewrite (reportBlock_behind_eq w b (reportBlock w b s) Htip Habove).
  clear Htip Hcons Habove. revert Hc. unfold reportBlock.
  match goal with |- context [resetConfig w ?t] => set (t0 := t) end.
  assert (Ht0 : m_highest_block t0 = b) by (subst t0; simpl; by destruct (_ >=? _)).
  destruct (resetConfig_cursor w t0) as [Hrt _]. rewrite Hrt, Ht0.
  set (s1 := delCache (hash_WithoutSeal b) (resetConfig w t0)). intros Hc.
  assert (Hg : ground_of s1 = ground_of (resetConfig w t0)) by apply delCache_ground.
  assert (Hc0 : m_cfg_err (resetConfig w t0) = false).
  { rewrite <- (ground_cfg_err _ _ Hg). exact Hc. }
  rewrite (resetConfig_settled w t0 s1 Hc0 Hg).
  apply delCache_twice.
Qed.

(** ** Garbage collection and the view filter of [addPrepareReq] *)

#[local] Existing Instances same_view_dec not_below_dec gc_keeps_flag_dec vc_fresh_dec above_dec.

Lemma prune_empty_Some inner inner' :
  prune_empty inner = Some inner' ↔ inner' = inner ∧ inner ≠ ∅.
Proof.
  unfold prune_empty. destruct (decide (size inner = 0%nat)) as [Hz | Hz].
  - apply map_size_empty_iff in Hz. split; [done | by intros [_ ?]].
  - split; [intros [= <-] | intros [-> _]]; [| done].
    split; [done |]. intros ->. by rewrite map_size_empty in Hz.
Qed.

Lemma gc_votes_vote_at tip m h k v :
  vote_at (gc_votes tip m) h k v ↔ vote_at m h k v ∧ tip ≤ height v.
Proof.
  unfold vote_at, gc_votes. split.
  - intros (inner' & Hl & Hk). rewrite lookup_omap_Some in Hl.
    destruct Hl as (inner & Hp & Hm). apply prune_empty_Some in Hp as [-> _].
    apply map_lookup_filter_Some in Hk as [Hk Hf]. unfold not_below in Hf. simpl in Hf.
    split; [by exists inner | lia].
  - intros [(inner & Hm & Hk) Hh].
    assert (Hp : not_below tip (k, v)) by (unfold not_below; simpl; lia).
    eexists. split.
    + rewrite lookup_omap_Some. exists inner. split; [| done].
      apply prune_empty_Some. split; [reflexivity |].
      intros He. by apply (map_filter_empty_not_lookup _ _ _ _ He Hp).
    + apply map_lookup_filter_Some. by split.
Qed.

Lemma gc_votes_nonempty tip m h inner : gc_votes tip m !! h = Some inner → inner ≠ ∅.
Proof.
  unfold gc_votes. rewrite lookup_omap_Some. intros (inner0 & Hp & _).
  apply prune_empty_Some in Hp as [-> Hne]. done.
Qed.

(** X8: a collection that runs (valid tip, at least [kCollectInterval]
    seconds since the last one) keeps exactly the cached sign and commit
    votes whose height is at or above the tip, leaves no block hash with
    an empty vote set, never sets a seal flag, and removes the flag of a
    hash exactly when it removes that hash's last sign vote. *)
Theorem X8_collectGarbage_prunes_below_tip (w : World) (s : State) :
  header_valid (m_highest_block s) = true →
  (system_clock_now w - m_last_collect_time s >=? kCollectInterval) = true →
  (∀ h k v, vote_at (m_sign_cache (collectGarbage w s)) h k v
            ↔ vote_at (m_sign_cache s) h k v ∧ number (m_highest_block s) ≤ height v)
  ∧ (∀ h k v, vote_at (m_commit_cache (collectGarbage w s)) h k v
              ↔ vote_at (m_commit_cache s) h k v ∧ number (m_highest_block s) ≤ height v)
  ∧ (∀ h inner, m_sign_cache (collectGarbage w s) !! h = Some inner → inner ≠ ∅)
  ∧ (∀ h inner, m_commit_cache (collectGarbage w s) !! h = Some inner → inner ≠ ∅)
  ∧ (∀ h, m_commitMap (collectGarbage w s) !! h =
          if bool_decide (is_Some (m_sign_cache s !! h)
                          ∧ m_sign_cache (collectGarbage w s) !! h = None)
          then None else m_commitMap s !! h).
Proof.
  intros Hv Hdue. unfold collectGarbage. rewrite Hv, Hdue. simpl.
  split; [intros; apply gc_votes_vote_at |].
  split; [intros; apply gc_votes_vote_at |].
  split; [intros h inner; apply gc_votes_nonempty |].
  split; [intros h inner; apply gc_votes_nonempty |].
  intros h. set (tip := number (m_highest_block s)).
  destruct (m_commitMap s !! h) as [f |] eqn:Hf.
  - case_bool_decide as Hd.
    + apply map_lookup_filter_None. right. intros f' Hf' [Hn | Hs]; simpl in *.
      * destruct Hd as [[x Hx] _]. congruence.
      * destruct Hd as [_ Hd]. rewrite Hd in Hs. by destruct Hs.
    + apply map_lookup_filter_Some. split; [done |]. unfold gc_keeps_flag. simpl.
      destruct (m_sign_cache s !! h) eqn:Hs; [| by left].
      right. destruct (gc_votes tip (m_sign_cache s) !! h) eqn:Hg; [done |].
      exfalso. apply Hd. split; [by eexists | done].
  - rewrite (proj2 (map_lookup_filter_None _ _ _)) by (by left). by case_bool_decide.
Qed.

Lemma alter_filter_vote_at view0 h0 m h k v :
  vote_at (alter (filter (same_view view0)) h0 m) h k v
  ↔ vote_at m h k v ∧ (h = h0 → view v = view0).
Proof.
  unfold vote_at. destruct (decide (h0 = h)) as [-> | Hne].
  - rewrite lookup_alter_eq. split.
    + intros (inner' & Hl & Hk). destruct (m !! h) as [inner |]; [| done].
      simpl in Hl. injection Hl as <-.
      apply map_lookup_filter_Some in Hk as [Hk Hf]. split; [by exists inner | done].
    + intros [(inner & Hm & Hk) Hv]. rewrite Hm. simpl.
      eexists. split; [done |]. apply map_lookup_filter_Some. split; [done |]. by apply Hv.
  - rewrite lookup_alter_ne by done. split; [intros Hx; split; [done | congruence] | by intros [? _]].
Qed.

(** X9: [addPrepareReq] stores the proposal and, for the proposal's
    block hash only, drops the cached sign and commit votes that were
    cast in another view; every other cached vote stays. *)
Theorem X9_addPrepareReq_keeps_same_view_votes (req : PrepareReq) (s : State) :
  m_prepare_cache (addPrepareReq req s) = req
  ∧ (∀ h k v, vote_at (m_sign_cache (addPrepareReq req s)) h k v
              ↔ vote_at (m_sign_cache s) h k v ∧ (h = block_hash req → view v = view req))
  ∧ (∀ h k v, vote_at (m_commit_cache (addPrepareReq req s)) h k v
              ↔ vote_at (m_commit_cache s) h k v ∧ (h = block_hash req → view v = view req)).
Proof.
  unfold addPrepareReq. simpl.
  split; [done |]. split; intros; apply alter_filter_vote_at.
Qed.

(** ** A view change wipes the votes *)

Lemma views_view s s' : views_of s' = views_of s → m_view s' = m_view s.
Proof. unfold views_of. intros Hv. by injection Hv as -> _ _. Qed.

Lemma checkAndChangeView_wipes s :
  wiped (checkAndChangeView s) ∨ m_view (checkAndChangeView s) = m_view s.
Proof.
  unfold checkAndChangeView. simpl. destruct (_ >=? _); [left | by right].
  unfold wiped. simpl. repeat split.
  intros v [x Hx]. apply map_lookup_filter_Some in Hx as [_ Ha].
  unfold above in Ha. simpl in Ha. lia.
Qed.

Lemma wiped_emit e s : wiped s → wiped (emit e s).
Proof. done. Qed.

Lemma wiped_relay w id m raw from node s : wiped s → wiped (relay w id m raw from node s).
Proof. unfold relay, broadcastMsg. by repeat case_match. Qed.

Lemma handleViewChangeMsg_wipes w from req s :
  wiped (handleViewChangeMsg w from req s)
  ∨ m_view (handleViewChangeMsg w from req s) = m_view s.
Proof.
  unfold handleViewChangeMsg.
  destruct (isExistViewChange req s); [by right |].
  destruct (idx req =? m_node_idx s); [by right |].
  match goal with |- context [emit ?e s] => set (e0 := e) end.
  match goal with |- context [if ?c then emit e0 s else s] =>
    set (s1 := if c then emit e0 s else s) end.
  assert (H1 : m_view s1 = m_view s) by (subst s1; by destruct (_ && _ && _ && _)).
  rewrite <- H1. clearbody s1. clear H1 e0.
  repeat (match goal with
          | |- _ ∨ m_view (if ?c then _ else _) = _ => destruct c
          end);
    try (by right).
  match goal with |- context [checkAndChangeView ?t] =>
    destruct (checkAndChangeView_wipes t) as [Hw | Hv]; [by left | right; by rewrite Hv] end.
Qed.

Lemma checkTimeout_wipes w s :
  wiped (checkTimeout w s) ∨ m_view (checkTimeout w s) = m_view s.
Proof.
  unfold checkTimeout. destruct (_ >=? _); [| by right].
  match goal with |- context [broadcastViewChangeReq w ?t] => set (s1 := t) end.
  assert (H1 : m_view (snd (broadcastViewChangeReq w s1)) = m_view s).
  { rewrite (views_view _ _ (broadcastViewChangeReq_views w s1)). by subst s1. }
  destruct (negb _); [by right |].
  destruct (checkAndChangeView_wipes (snd (broadcastViewChangeReq w s1))) as [Hw | Hv].
  - left. by apply wiped_emit.
  - right. simpl. by rewrite Hv.
Qed.

Lemma step_wipes (w : World) (ev : Event) (s : State) :
  is_report ev = false → wiped (step w ev s) ∨ m_view (step w ev s) = m_view s.
Proof.
  intros Hr. destruct (touches_views ev) eqn:Ht.
  - destruct ev as [| | | | pkt from node | | | |]; try done; simpl.
    + destruct pkt; try done. simpl.
      destruct (handleViewChangeMsg_wipes w from req s) as [Hw | Hv].
      * left. by apply wiped_relay.
      * right. by rewrite (views_view _ _ (relay_views _ _ _ _ _ _ _)).
    + apply checkTimeout_wipes.
    + by right.
  - right. apply views_view. by apply step_views.
Qed.

(** X10: whenever an entry point other than [reportBlock] changes
    [m_view], it leaves the engine wiped: both proposal caches empty, no
    sign vote, no commit vote, no seal flag, [m_leader_failed] unset, the
    view equal to [m_to_view], and every remaining view-change request for
    a later view. *)
Theorem X10_view_change_wipes_votes (w : World) (ev : Event) (s : State) :
  is_report ev = false → m_view (step w ev s) ≠ m_view s → wiped (step w ev s).
Proof. intros Hr Hne. by destruct (step_wipes w ev s Hr). Qed.

(** ** The roster built by [getMinerList] *)

Lemma fill_miner_list_length k all ml :
  length (fill_miner_list k all ml).2 = length ml.
Proof.
  revert ml. induction all as [| n all IH]; intros ml; simpl; [done |].
  destruct (is_miner n); [| apply IH].
  destruct (_ >=? _); [done |]. by rewrite IH, length_insert.
Qed.

Lemma fill_miner_list_ok k all ml :
  (fill_miner_list k all ml).1 = true ↔ Forall (λ i, i < k) (miner_slots all).
Proof.
  unfold miner_slots. revert ml. induction all as [| n all IH]; intros ml; simpl.
  - split; [constructor | done].
  - destruct (is_miner n); [| apply IH]. simpl.
    destruct (Z.geb_spec (static_cast_unsigned (_iIdx n)) k) as [Hge | Hlt]; simpl.
    + split; [done |]. intros Hf. apply Forall_cons in Hf as [Hf _]. lia.
    + rewrite IH. split; [by constructor | by intros [_ ?]%Forall_cons].
Qed.

Lemma fill_miner_list_other k all ml (j : nat) :
  Z.of_nat j ∉ miner_slots all →
  (∀ x, 0 ≤ static_cast_unsigned x) →
  (fill_miner_list k all ml).2 !! j = ml !! j.
Proof.
  unfold miner_slots. intros Hj Hpos. revert ml Hj.
  induction all as [| n all IH]; intros ml Hj; simpl in *; [done |].
  destruct (is_miner n); [| by apply IH]. simpl in Hj.
  apply not_elem_of_cons in Hj as [Hne Hj].
  destruct (_ >=? _); [done |]. rewrite IH by done.
  apply list_lookup_insert_ne. specialize (Hpos (_iIdx n)). lia.
Qed.

Lemma fill_miner_list_placed k all ml n :
  (∀ x, 0 ≤ static_cast_unsigned x) →
  (fill_miner_list k all ml).1 = true →
  NoDup (miner_slots all) →
  k ≤ Z.of_nat (length ml) →
  n ∈ all → is_miner n = true →
  (fill_miner_list k all ml).2 !! Z.to_nat (static_cast_unsigned (_iIdx n)) = Some (_sNodeId n).
Proof.
  unfold miner_slots. intros Hpos. revert ml.
  induction all as [| m all IH]; intros ml Hok Hnd Hk Hin Hm; simpl in *.
  { by apply elem_of_nil in Hin. }
  destruct (is_miner m) eqn:Hmm; simpl in *.
  - destruct (Z.geb_spec (static_cast_unsigned (_iIdx m)) k) as [Hge | Hlt]; [done |].
    apply NoDup_cons in Hnd as [Hnotin Hnd].
    apply elem_of_cons in Hin as [-> | Hin].
    + rewrite fill_miner_list_other; [| | done].
      * apply list_lookup_insert_eq. specialize (Hpos (_iIdx m)). lia.
      * rewrite Z2Nat.id by apply Hpos. exact Hnotin.
    + apply IH; try done. by rewrite length_insert.
  - apply elem_of_cons in Hin as [-> | Hin]; [congruence |]. by apply IH.
Qed.

(** A duplicate-free list of [k] numbers below [k] names every slot. *)
Lemma slots_cover (l : list Z) (j : nat) :
  NoDup l → Forall (λ i, 0 ≤ i < Z.of_nat (length l)) l → (j < length l)%nat →
  Z.of_nat j ∈ l.
Proof.
  intros Hnd Hr Hj.
  assert (Hp : l ≡ₚ Z.of_nat <$> seq 0 (length l)).
  { apply submseteq_length_Permutation.
    - apply NoDup_submseteq; [done |]. intros x Hx.
      rewrite Forall_forall in Hr. specialize (Hr x Hx).
      apply list_elem_of_fmap. exists (Z.to_nat x). split; [lia |].
      apply elem_of_seq. lia.
    - by rewrite length_fmap, length_seq. }
  rewrite Hp. apply list_elem_of_fmap. exists j. split; [done |]. apply elem_of_seq. lia.
Qed.

Lemma miner_slots_length all : length (miner_slots all) = length (List.filter is_miner all).
Proof. unfold miner_slots. by rewrite length_fmap. Qed.

Lemma miner_slots_elem all i :
  i ∈ miner_slots all → ∃ n, n ∈ all ∧ is_miner n = true ∧ static_cast_unsigned (_iIdx n) = i.
Proof.
  unfold miner_slots. intros (n & -> & Hn)%list_elem_of_fmap.
  apply list_elem_of_In, filter_In in Hn as [Hn Hm]. exists n.
  by rewrite list_elem_of_In.
Qed.

(** X11: [getMinerList] always leaves the out-parameter with one slot per
    miner of the roster, whatever it held before and whether or not the
    call succeeds; it succeeds exactly when every miner's index is below
    the number of miners. *)
Theorem X11_getMinerList_size_and_success (w : World) (blk_no : Z) (ml : list Z) :
  let all_node := getAllNodeConnInfo w blk_no in
  length (getMinerList w blk_no ml).2 = length (List.filter is_miner all_node)
  ∧ ((getMinerList w blk_no ml).1 = true
     ↔ Forall (λ i, i < Z.of_nat (length (List.filter is_miner all_node)))
              (miner_slots all_node)).
Proof.
  intros all_node. unfold getMinerList. fold all_node. split.
  - by rewrite fill_miner_list_length, length_resize.
  - apply fill_miner_list_ok.
Qed.

(** X12: when the miners' indices are pairwise different and the call
    succeeds, every miner's node id sits at the miner's index, and the
    list returned does not depend on what the out-parameter held before:
    nothing of the previous roster survives. *)
Theorem X12_getMinerList_places_every_miner (w : World) (blk_no : Z) (ml : list Z) :
  let all_node := getAllNodeConnInfo w blk_no in
  (∀ x, 0 ≤ static_cast_unsigned x) →
  NoDup (miner_slots all_node) →
  (getMinerList w blk_no ml).1 = true →
  (∀ n, n ∈ all_node → is_miner n = true →
        (getMinerList w blk_no ml).2 !! Z.to_nat (static_cast_unsigned (_iIdx n))
        = Some (_sNodeId n))
  ∧ ∀ ml', getMinerList w blk_no ml' = getMinerList w blk_no ml.
Proof.
  intros all_node Hpos Hnd Hok.
  assert (Hplaced : ∀ ml0 n, n ∈ all_node → is_miner n = true →
            (getMinerList w blk_no ml0).2 !! Z.to_nat (static_cast_unsigned (_iIdx n))
            = Some (_sNodeId n)).
  { intros ml0 n Hin Hm. unfold getMinerList in *. fold all_node in Hok |- *.
    apply fill_miner_list_placed; try done.
    - apply fill_miner_list_ok. by apply fill_miner_list_ok in Hok.
    - by rewrite length_resize. }
  split; [apply Hplaced |]. intros ml'.
  assert (Hfl : ∀ ml0, (getMinerList w blk_no ml0).1 = true).
  { intros ml0. unfold getMinerList in *. fold all_node in Hok |- *.
    apply fill_miner_list_ok. by apply fill_miner_list_ok in Hok. }
  assert (Hlen : ∀ ml0, length (getMinerList w blk_no ml0).2 = length (miner_slots all_node)).
  { intros ml0. unfold getMinerList. fold all_node.
    by rewrite fill_miner_list_length, length_resize, miner_slots_length. }
  assert (Hrange : Forall (λ i, 0 ≤ i < Z.of_nat (length (miner_slots all_node)))
                          (miner_slots all_node)).
  { unfold getMinerList in Hok. fold all_node in Hok. apply fill_miner_list_ok in Hok.
    rewrite <- miner_slots_length in Hok.
    rewrite Forall_forall in Hok |- *. intros i Hi. split; [| by apply Hok].
    apply miner_slots_elem in Hi as (n & _ & _ & <-). apply Hpos. }
  destruct (getMinerList w blk_no ml') as [ok' r'] eqn:E1.
  destruct (getMinerList w blk_no ml) as [ok r] eqn:E2.
  pose proof (Hfl ml') as H1. pose proof (Hfl ml) as H2. rewrite E1 in H1. rewrite E2 in H2.
  simpl in H1, H2. subst ok ok'. f_equal.
  apply list_eq. intros j.
  destruct (decide (j < length (miner_slots all_node))%nat) as [Hj | Hj].
  - assert (Hin : Z.of_nat j ∈ miner_slots all_node).
    { by apply slots_cover. }
    apply miner_slots_elem in Hin as (n & Hn & Hm & Hi).
    pose proof (Hplaced ml' n Hn Hm) as P1. pose proof (Hplaced ml n Hn Hm) as P2.
    rewrite E1 in P1. rewrite E2 in P2. rewrite Hi, Nat2Z.id in P1, P2. simpl in *. congruence.
  - pose proof (Hlen ml') as L1. pose proof (Hlen ml) as L2. rewrite E1 in L1. rewrite E2 in L2.
    simpl in *. rewrite !lookup_ge_None_2 by lia. done.
Qed.

(** ** What [checkBlockSign] counts *)

(** X13: [checkBlockSign] counts pairs, not signers: once the roster
    matches the header, a list that repeats one valid pair [(i, sg)]
    often enough is accepted, so a single miner's signature passes for a
    quorum. *)
Theorem X13_checkBlockSign_counts_pairs (w : World) (header : BlockHeader) (i sg : Z) (k : nat) :
  let fetched := getMinerList w (static_cast_int (sub256 (number header) 1)) [] in
  let N := Z.of_nat (length fetched.2) in
  (∀ x, 0 ≤ x < 2 ^ 31 → static_cast_int x = x) →
  N < 2 ^ 31 →
  fetched.1 = true →
  nodeList header = fetched.2 →
  0 ≤ i →
  sig_ok fetched.2 (hash_WithoutSeal header) (i, sg) →
  N - (N - 1) / 3 ≤ Z.of_nat k →
  checkBlockSign w header (replicate k (i, sg)) = true.
Proof.
  unfold checkBlockSign.
  destruct (getMinerList w _ []) as [ok ml]. simpl.
  intros Hcast HN -> Hnl Hi Hsig Hk. simpl.
  rewrite bool_decide_eq_true_2 by done. simpl.
  assert (H1 : 1 ≤ Z.of_nat (length ml)) by (destruct Hsig as [Hl _]; simpl in Hl; lia).
  rewrite sign_threshold_small by lia. rewrite length_replicate.
  destruct (Z.ltb_spec (Z.of_nat k) (Z.of_nat (length ml) - (Z.of_nat (length ml) - 1) / 3));
    [lia |].
  apply check_sigs_spec; [done | done | |].
  - apply Forall_replicate. simpl. lia.
  - by apply Forall_replicate.
Qed.

(** ** The peer-seen filters *)

Section Peers.
Context {K : Type} `{EqDecision K}.
Context (kKnown : PacketId → nat) (getAccountType : h512 → option Z).

Lemma known_set_known i j q (p : PBFTPeer (K:=K)) :
  known j (set_known i q p) = if decide (i = j) then q else known j p.
Proof. by destruct i, j. Qed.

Lemma peer_id_set_known i q (p : PBFTPeer (K:=K)) : peer_id (set_known i q p) = peer_id p.
Proof. by destruct i. Qed.

Lemma peer_id_broadcastMark key id (p : PBFTPeer (K:=K)) :
  peer_id (broadcastMark kKnown key id p) = peer_id p.
Proof.
  unfold broadcastMark. destruct id as [i |]; [| done].
  destruct (qs_exist _ _); [done |]. apply peer_id_set_known.
Qed.

Lemma qs_exist_push (k : K) q : qs_exist k (qs_push k q) = true.
Proof.
  unfold qs_push. destruct (qs_exist k q) eqn:Hq; [done |].
  apply bool_decide_eq_true. apply elem_of_app. right. apply list_elem_of_singleton. done.
Qed.

Lemma broadcastMark_known key i (p : PBFTPeer (K:=K)) :
  qs_exist key (known i (broadcastMark kKnown key (Some i) p)) = true.
Proof.
  unfold broadcastMark. destruct (qs_exist key (known i p)) eqn:Hq; [done |].
  rewrite known_set_known. rewrite decide_True by done. apply qs_exist_push.
Qed.

Lemma broadcastMark_seen key id (p : PBFTPeer (K:=K)) :
  broadcastFilter key id p = true → broadcastMark kKnown key id p = p.
Proof. unfold broadcastFilter, broadcastMark. destruct id; [| done]. by intros ->. Qed.

Lemma broadcastFilter_marked key id (p : PBFTPeer (K:=K)) :
  broadcastFilter key id (broadcastMark kKnown key id p) = true.
Proof. destruct id as [i |]; [| done]. apply broadcastMark_known. Qed.

Lemma broadcast_to_again key id f1 f2 (p : PBFTPeer (K:=K)) :
  broadcast_to kKnown getAccountType key id f2
    (broadcast_to kKnown getAccountType key id f1 p).2
  = (false, (broadcast_to kKnown getAccountType key id f1 p).2).
Proof.
  assert (Hseen : ∀ q : PBFTPeer (K:=K), broadcastFilter key id q = true →
            ∀ n t, peer_id q = Some n → getAccountType n = Some t →
            broadcast_to kKnown getAccountType key id f2 q = (false, q)).
  { intros q Hq n t Hn Ht. unfold broadcast_to. rewrite Hn, Ht, Hq.
    rewrite (broadcastMark_seen _ _ _ Hq). by repeat case_match. }
  unfold broadcast_to at 2 3.
  destruct (peer_id p) as [n |] eqn:Hn; [| simpl; unfold broadcast_to; by rewrite Hn].
  destruct (getAccountType n) as [t |] eqn:Ht;
    [| simpl; unfold broadcast_to; by rewrite Hn, Ht].
  destruct (negb (t =? EN_ACCOUNT_TYPE_MINER)) eqn:Hm;
    [simpl; unfold broadcast_to; by rewrite Hn, Ht, Hm |].
  destruct (bool_decide (n ∈ f1)); simpl.
  - apply (Hseen _ (broadcastFilter_marked _ _ _) n t); [| done].
    by rewrite peer_id_broadcastMark.
  - destruct (broadcastFilter key id p) eqn:Hf; simpl.
    + by apply (Hseen _ Hf n t).
    + apply (Hseen _ (broadcastFilter_marked _ _ _) n t); [| done].
      by rewrite peer_id_broadcastMark.
Qed.

(** X14: one broadcast round over the peers is enough for a key: however
    the exclusion lists differ, a second round with the same key and
    packet kind writes to no peer and leaves every peer as it is.  Peers
    the first round excluded are marked as well, so they never get the
    packet from this node. *)
Theorem X14_second_round_writes_nothing (key : K) (id : option PacketId) (f1 f2 : list h512)
    (peers : list PBFTPeer) :
  let after := (broadcast_round kKnown getAccountType key id f1 peers).*2 in
  broadcast_round kKnown getAccountType key id f2 after = (λ p, (false, p)) <$> after.
Proof.
  intros after. subst after. unfold broadcast_round.
  induction peers as [| p peers IH]; [done |].
  rewrite !fmap_cons. simpl. f_equal; [apply broadcast_to_again | apply IH].
Qed.

Lemma broadcastMark_length key id j (p : PBFTPeer (K:=K)) :
  (length (known j p) ≤ S (kKnown j))%nat →
  (length (known j (broadcastMark kKnown key id p)) ≤ S (kKnown j))%nat.
Proof.
  intros Hl. unfold broadcastMark. destruct id as [i |]; [| done].
  destruct (qs_exist key (known i p)) eqn:Hq; [done |].
  rewrite known_set_known. destruct (decide (i = j)) as [-> | Hne]; [| done].
  unfold qs_push, qs_pop.
  destruct (Nat.ltb_spec (kKnown j) (length (known j p))) as [Hgt | Hle].
  - destruct (qs_exist key (drop 1 _)); rewrite ?length_app, ?length_drop; simpl; lia.
  - rewrite Hq. rewrite length_app. simpl. lia.
Qed.

(** X15: a known-set never grows beyond its capacity plus one across a
    broadcast, and it does reach that size: [broadcastMark] evicts only
    when the size is already above the capacity, so marking a new key in
    a set that is exactly full adds a key without evicting one. *)
Theorem X15_known_sets_hold_capacity_plus_one (key : K) (id : option PacketId)
    (filter : list h512) (p : PBFTPeer) :
  within_caps kKnown p →
  within_caps kKnown (broadcast_to kKnown getAccountType key id filter p).2
  ∧ ∀ i, key ∉ known i p → length (known i p) = kKnown i →
         length (known i (broadcastMark kKnown key (Some i) p)) = S (kKnown i).
Proof.
  intros Hc. split.
  - intros j. unfold broadcast_to. repeat case_match; simpl; try apply Hc;
      apply broadcastMark_length, Hc.
  - intros i Hk Hl. unfold broadcastMark.
    assert (Hq : qs_exist key (known i p) = false) by by apply bool_decide_eq_false.
    rewrite Hq, known_set_known, decide_True by done.
    rewrite Hl, Nat.ltb_irrefl. unfold qs_push. rewrite Hq, length_app. simpl. lia.
Qed.

(** X16: right after [clearMask] a round writes to exactly the peers that
    are connected miners outside the exclusion list, whatever they had
    been sent before. *)
Theorem X16_clearMask_reopens_every_peer (key : K) (i : PacketId) (filter : list h512)
    (peers : list PBFTPeer) :
  (broadcast_round kKnown getAccountType key (Some i) filter (clearMask_peers peers)).*1
  = listening getAccountType filter <$> peers.
Proof.
  unfold broadcast_round, clearMask_peers.
  induction peers as [| p peers IH]; [done |].
  rewrite !fmap_cons. f_equal; [| apply IH].
  unfold broadcast_to, listening. simpl.
  destruct (peer_id p) as [n |]; [| done].
  destruct (getAccountType n) as [t |]; [| done].
  destruct (t =? EN_ACCOUNT_TYPE_MINER); simpl; [| done].
  destruct (bool_decide (n ∈ filter)); simpl; [done |].
  by destruct i.
Qed.

End Peers.

(** ** The view only moves forward *)

Lemma views_grow_same s s' :
  views_of s' = views_of s → m_view s ≤ m_to_view s → views_grow s s'.
Proof.
  unfold views_of, views_grow. intros Hv Ho. injection Hv as -> -> _. lia.
Qed.

Lemma checkAndChangeView_grows s :
  m_view s ≤ m_to_view s →
  m_view s ≤ m_view (checkAndChangeView s)
  ∧ m_to_view (checkAndChangeView s) = m_to_view s
  ∧ m_view (checkAndChangeView s) ≤ m_to_view (checkAndChangeView s).
Proof.
  intros Ho. unfold checkAndChangeView. simpl. destruct (_ >=? _); simpl; lia.
Qed.

Lemma vc_scan_vote_min tip to_view v acc kv :
  to_view < v →
  to_view < min_view acc ≤ Invalid256 →
  to_view < min_view (vc_scan_vote tip v acc kv) ≤ Invalid256.
Proof.
  intros Hv Ha. unfold vc_scan_vote. destruct (_ && _); [| done]. simpl.
  destruct (Z.gtb_spec (min_view acc) v); lia.
Qed.

Lemma vc_scan_view_min tip to_view acc kv :
  to_view < min_view acc ≤ Invalid256 →
  to_view < min_view (vc_scan_view tip to_view acc kv) ≤ Invalid256.
Proof.
  intros Ha. unfold vc_scan_view. destruct (Z.gtb_spec kv.1 to_view) as [Hgt | _]; [| done].
  generalize (map_to_list kv.2). intros l. revert acc Ha.
  induction l as [| x l IH]; intros acc Ha; simpl; [done |].
  apply IH. apply vc_scan_vote_min; [lia | done].
Qed.

Lemma vc_scan_min s :
  m_to_view s < Invalid256 → m_to_view s < min_view (vc_scan s) ≤ Invalid256.
Proof.
  intros Hi. unfold vc_scan. generalize (map_to_list (m_recv_view_change_req s)). intros l.
  assert (Ha : m_to_view s < min_view (mkScan ∅ Invalid256 Invalid256) ≤ Invalid256)
    by (simpl; lia).
  revert Ha. generalize (mkScan ∅ Invalid256 Invalid256). intros acc Ha. revert acc Ha.
  induction l as [| x l IH]; intros acc Ha; simpl; [done |].
  apply IH. by apply vc_scan_view_min.
Qed.

Lemma handleViewChangeMsg_grows w from req s :
  view_headroom s → m_view s ≤ m_to_view s →
  views_grow s (handleViewChangeMsg w from req s).
Proof.
  intros [Hr Hi] Ho. unfold views_grow, handleViewChangeMsg.
  destruct (isExistViewChange req s); [lia |].
  destruct (idx req =? m_node_idx s); [lia |].
  match goal with |- context [emit ?e s] => set (e0 := e) end.
  match goal with |- context [if ?c then emit e0 s else s] =>
    set (s1 := if c then emit e0 s else s) end.
  assert (H1 : m_view s1 = m_view s ∧ m_to_view s1 = m_to_view s)
    by (subst s1; by destruct (_ && _ && _ && _)).
  destruct H1 as [V1 T1]. rewrite <- V1, <- T1. rewrite <- V1, <- T1 in Ho.
  clearbody s1. clear e0.
  destruct (_ || _); [cbn beta iota; lia |].
  destruct (_ && _ && _); [cbn beta iota; lia |].
  destruct (negb _); [cbn beta iota; lia |].
  match goal with |- context [set_m_recv_view_change_req ?m s1] =>
    set (s2 := set_m_recv_view_change_req m s1) end.
  assert (H2 : m_view s2 = m_view s1 ∧ m_to_view s2 = m_to_view s1) by done.
  destruct H2 as [V2 T2]. simpl. fold s2.
  destruct (view req =? m_to_view s1).
  - destruct (checkAndChangeView_grows s2) as (A & B & C); lia.
  - destruct (_ && _); simpl; [| lia].
    pose proof (vc_scan_min s2) as Hm. rewrite T2 in Hm.
    unfold sub256. rewrite Z.mod_small by lia. lia.
Qed.

Lemma checkTimeout_grows w s :
  view_headroom s → m_view s ≤ m_to_view s → views_grow s (checkTimeout w s).
Proof.
  intros [Hr Hi] Ho. unfold views_grow, checkTimeout. destruct (_ >=? _); [| lia].
  match goal with |- context [broadcastViewChangeReq w ?t] => set (s1 := t) end.
  assert (H1 : m_view s1 = m_view s ∧ m_to_view s1 = m_to_view s + 1).
  { subst s1. simpl. split; [done |]. unfold add256. apply Z.mod_small. lia. }
  destruct H1 as [V1 T1].
  pose proof (broadcastViewChangeReq_views w s1) as Hb.
  assert (V2 : m_view (snd (broadcastViewChangeReq w s1)) = m_view s1)
    by (by apply views_view).
  assert (T2 : m_to_view (snd (broadcastViewChangeReq w s1)) = m_to_view s1).
  { unfold views_of in Hb. by injection Hb as _ -> _. }
  destruct (negb _); [lia |].
  destruct (checkAndChangeView_grows (snd (broadcastViewChangeReq w s1))) as (A & B & C);
    [lia |].
  simpl. lia.
Qed.

(** X17: between two chain reports the view only moves forward: an entry
    point other than [reportBlock] lowers neither [m_view] nor
    [m_to_view], and keeps [m_view] at or below [m_to_view], as long as
    the target view has not reached [Invalid256]. *)
Theorem X17_views_only_grow (w : World) (ev : Event) (s : State) :
  is_report ev = false → view_headroom s → m_view s ≤ m_to_view s →
  views_grow s (step w ev s).
Proof.
  intros Hrep Hr Ho. destruct (touches_views ev) eqn:Ht.
  - destruct ev as [| | | | pkt from node | | | |]; try done; simpl.
    + destruct pkt; try done. simpl.
      pose proof (handleViewChangeMsg_grows w from req s Hr Ho) as Hg.
      pose proof (relay_views w ViewChangeReqPacket req [] from node
                    (handleViewChangeMsg w from req s)) as Hv.
      unfold views_grow in *. unfold views_of in Hv. injection Hv as -> -> _. done.
    + by apply checkTimeout_grows.
  - apply views_grow_same; [by apply step_views | done].
Qed.

(** ** The committed proposal is saved before the commit vote *)

Lemma checkAndSave_committed s :
  m_committed_prepare_cache (checkAndSave s) = m_committed_prepare_cache s.
Proof. unfold checkAndSave. by repeat case_match. Qed.

Lemma checkAndSave_commit_votes s :
  at_key (block_hash (m_prepare_cache s)) (m_commit_cache (checkAndSave s))
  = at_key (block_hash (m_prepare_cache s)) (m_commit_cache s).
Proof. unfold checkAndSave. repeat case_match; simpl; apply at_key_touch. Qed.

Lemma checkAndSave_commit_cache s :
  m_commit_cache (checkAndSave s) = touch (block_hash (m_prepare_cache s)) (m_commit_cache s).
Proof. unfold checkAndSave. by repeat case_match. Qed.

Lemma checkAndSave_last_sign_time s : m_last_sign_time (checkAndSave s) = m_last_sign_time s.
Proof. unfold checkAndSave. by repeat case_match. Qed.

Lemma checkAndSave_emits s :
  ∃ tail, outbox (checkAndSave s) = outbox s ++ tail
          ∧ (tail = []
             ∨ ∃ items sl p, tail = [OnSealGenerated (block_hash (m_prepare_cache s)) items sl p]).
Proof.
  eexists. split; [apply checkAndSave_outbox |].
  destruct (_ && _ && _ && _); [right | by left]. unfold sealed_block. by eexists _, _, _.
Qed.

(** X18: [checkAndCommit] does nothing to the outside unless the sign
    votes for the proposal are exactly the quorum and the proposal is for
    the current view.  When they are, it acts in this order: it backs up
    the raw proposal, which becomes [m_committed_prepare_cache]; a miner
    with a live host then broadcasts its own commit vote for the height,
    view and hash of [m_prepare_cache], and nothing else is broadcast;
    last comes at most one sealed block for that hash.  The vote that was
    broadcast is in the commit cache afterwards; when none was, the
    commit cache is untouched but for the entry [checkAndSave] opens.
    [m_last_sign_time] is the time of the call. *)
Theorem X18_backup_precedes_commit (w : World) (s : State) :
  let h := block_hash (m_prepare_cache s) in
  let s' := checkAndCommit w s in
  (commit_due s = false →
     emitted s s' = [] ∧ m_committed_prepare_cache s' = m_committed_prepare_cache s
     ∧ m_commit_cache s' = m_commit_cache s)
  ∧ (commit_due s = true →
     m_committed_prepare_cache s' = m_raw_prepare_cache s
     ∧ m_last_sign_time s' = now w
     ∧ (∃ tail, emitted s s' = BackupMsg (m_raw_prepare_cache s) :: commit_broadcast w s ++ tail
                ∧ (tail = [] ∨ ∃ items sl p, tail = [OnSealGenerated h items sl p]))
     ∧ (votes_commit w s = true →
        at_key h (m_commit_cache s') !! sig (own_commit_vote w s) = Some (own_commit_vote w s))
     ∧ (votes_commit w s = false → m_commit_cache s' = touch h (m_commit_cache s))).
Proof.
  intros h s'. subst s'. unfold commit_due, checkAndCommit. fold h. simpl.
  rewrite at_key_touch.
  assert (Hq : ∀ m, quorum (set_m_sign_cache m s) = quorum s) by done. rewrite Hq. clear Hq.
  destruct (_ =? quorum s); simpl.
  2: { split; [| done]. intros _. split; [| done]. apply emitted_app. simpl. by rewrite app_nil_r. }
  destruct (view (m_prepare_cache s) =? m_view s); simpl.
  2: { split; [| done]. intros _. split; [| done]. apply emitted_app. simpl. by rewrite app_nil_r. }
  split; [done |]. intros _.
  rewrite checkAndSave_committed, checkAndSave_last_sign_time, checkAndSave_commit_cache.
  unfold commit_broadcast, votes_commit, own_commit_vote. fold h.
  destruct (m_account_type s =? EN_ACCOUNT_TYPE_MINER) eqn:Hm;
    [unfold broadcastCommitReq, broadcastMsg; destruct (host_alive w) |];
    cbn [fst snd andb];
    match goal with |- context [checkAndSave ?t] =>
      destruct (checkAndSave_emits t) as (tail & Ho & Ht) end;
    (split; [done |]); (split; [done |]);
    (split; [exists tail; split;
               [apply emitted_app; rewrite Ho; simpl; rewrite <- !app_assoc; reflexivity
               | exact Ht] |]).
  - split; [| done]. intros _. unfold h. simpl. rewrite at_key_touch.
    exact (put_vote_lookup (sign_msg _ _ _ _ _) _).
  - by split.
  - by split.
Qed.

(** ** Every cached message sits under its own keys *)

Section Filed.
Context (f g : PBFTMsg → Z).

Lemma filed_empty : filed f g ∅.
Proof. apply map_Forall_empty. Qed.

Lemma filed_at_key h m : filed f g m → map_Forall (λ k v, f v = h ∧ g v = k) (at_key h m).
Proof.
  intros Hm. unfold at_key. destruct (m !! h) as [inner |] eqn:Hh; simpl.
  - exact (Hm h inner Hh).
  - apply map_Forall_empty.
Qed.

Lemma filed_insert h inner m :
  map_Forall (λ k v, f v = h ∧ g v = k) inner → filed f g m → filed f g (<[h := inner]> m).
Proof. intros Hi Hm. by apply map_Forall_insert_2. Qed.

Lemma filed_put v m : filed f g m → filed f g (<[f v := <[g v := v]> (at_key (f v) m)]> m).
Proof.
  intros Hm. apply filed_insert; [| done].
  apply map_Forall_insert_2; [done | by apply filed_at_key].
Qed.

Lemma filed_touch h m : filed f g m → filed f g (touch h m).
Proof.
  intros Hm. unfold touch. destruct (m !! h); [done |].
  apply filed_insert; [apply map_Forall_empty | done].
Qed.

Lemma filed_delete h m : filed f g m → filed f g (delete h m).
Proof. intros Hm. by apply map_Forall_delete. Qed.

Lemma filed_inner_filter h (P : Z * PBFTMsg → Prop) `{∀ x, Decision (P x)}
    (inner : gmap Z PBFTMsg) :
  map_Forall (λ k v, f v = h ∧ g v = k) inner →
  map_Forall (λ k v, f v = h ∧ g v = k) (filter P inner).
Proof. intros Hi k v [Hv _]%map_lookup_filter_Some. by apply Hi. Qed.

Lemma filed_alter_filter h (P : Z * PBFTMsg → Prop) `{∀ x, Decision (P x)}
    (m : gmap Z (gmap Z PBFTMsg)) :
  filed f g m → filed f g (alter (filter P) h m).
Proof.
  intros Hm h' inner' Hl. destruct (decide (h = h')) as [<- | Hne].
  - rewrite lookup_alter_eq in Hl. destruct (m !! h) as [inner |] eqn:Hh; [| done].
    simpl in Hl. injection Hl as <-. apply filed_inner_filter. exact (Hm h inner Hh).
  - rewrite lookup_alter_ne in Hl by done. exact (Hm h' inner' Hl).
Qed.

Lemma filed_outer_filter (P : Z * gmap Z PBFTMsg → Prop) `{∀ x, Decision (P x)}
    (m : gmap Z (gmap Z PBFTMsg)) :
  filed f g m → filed f g (filter P m).
Proof. intros Hm h inner [Hl _]%map_lookup_filter_Some. exact (Hm h inner Hl). Qed.

End Filed.

Lemma put_vote_filed req m : filed block_hash sig m → filed block_hash sig (put_vote req m).
Proof. apply filed_put. Qed.

Lemma gc_votes_filed tip m : filed block_hash sig m → filed block_hash sig (gc_votes tip m).
Proof.
  intros Hm h inner' Hl. unfold gc_votes in Hl. rewrite lookup_omap in Hl.
  destruct (m !! h) as [inner |] eqn:Hh; [| done]. simpl in Hl.
  unfold prune_empty in Hl. destruct (decide _); [done |]. injection Hl as <-.
  apply filed_inner_filter. exact (Hm h inner Hh).
Qed.

Create HintDb filed discriminated.

Lemma set_m_cfg_err_filed v s : caches_filed s → caches_filed (set_m_cfg_err v s).
Proof. exact id. Qed.
Lemma set_m_account_type_filed v s : caches_filed s → caches_filed (set_m_account_type v s).
Proof. exact id. Qed.
Lemma set_m_node_num_filed v s : caches_filed s → caches_filed (set_m_node_num v s).
Proof. exact id. Qed.
Lemma set_m_node_idx_filed v s : caches_filed s → caches_filed (set_m_node_idx v s).
Proof. exact id. Qed.
Lemma set_m_f_filed v s : caches_filed s → caches_filed (set_m_f v s).
Proof. exact id. Qed.
Lemma set_m_miner_list_filed v s : caches_filed s → caches_filed (set_m_miner_list v s).
Proof. exact id. Qed.
Lemma set_m_view_filed v s : caches_filed s → caches_filed (set_m_view v s).
Proof. exact id. Qed.
Lemma set_m_to_view_filed v s : caches_filed s → caches_filed (set_m_to_view v s).
Proof. exact id. Qed.
Lemma set_m_change_cycle_filed v s : caches_filed s → caches_filed (set_m_change_cycle v s).
Proof. exact id. Qed.
Lemma set_m_leader_failed_filed v s : caches_filed s → caches_filed (set_m_leader_failed v s).
Proof. exact id. Qed.
Lemma set_m_empty_block_flag_filed v s : caches_filed s → caches_filed (set_m_empty_block_flag v s).
Proof. exact id. Qed.
Lemma set_m_omit_empty_block_filed v s : caches_filed s → caches_filed (set_m_omit_empty_block v s).
Proof. exact id. Qed.
Lemma set_m_view_timeout_filed v s : caches_filed s → caches_filed (set_m_view_timeout v s).
Proof. exact id. Qed.
Lemma set_m_last_consensus_time_filed v s : caches_filed s → caches_filed (set_m_last_consensus_time v s).
Proof. exact id. Qed.
Lemma set_m_last_sign_time_filed v s : caches_filed s → caches_filed (set_m_last_sign_time v s).
Proof. exact id. Qed.
Lemma set_m_last_exec_finish_time_filed v s : caches_filed s → caches_filed (set_m_last_exec_finish_time v s).
Proof. exact id. Qed.
Lemma set_m_last_collect_time_filed v s : caches_filed s → caches_filed (set_m_last_collect_time v s).
Proof. exact id. Qed.
Lemma set_m_highest_block_filed v s : caches_filed s → caches_filed (set_m_highest_block v s).
Proof. exact id. Qed.
Lemma set_m_consensus_block_number_filed v s : caches_filed s → caches_filed (set_m_consensus_block_number v s).
Proof. exact id. Qed.
Lemma set_m_raw_prepare_cache_filed v s : caches_filed s → caches_filed (set_m_raw_prepare_cache v s).
Proof. exact id. Qed.
Lemma set_m_prepare_cache_filed v s : caches_filed s → caches_filed (set_m_prepare_cache v s).
Proof. exact id. Qed.
Lemma set_m_committed_prepare_cache_filed v s : caches_filed s → caches_filed (set_m_committed_prepare_cache v s).
Proof. exact id. Qed.
Lemma set_m_future_prepare_cache_filed v s : caches_filed s → caches_filed (set_m_future_prepare_cache v s).
Proof. exact id. Qed.
Lemma set_m_commitMap_filed v s : caches_filed s → caches_filed (set_m_commitMap v s).
Proof. exact id. Qed.
Lemma set_outbox_filed v s : caches_filed s → caches_filed (set_outbox v s).
Proof. exact id. Qed.
#[local] Hint Resolve set_m_cfg_err_filed set_m_account_type_filed set_m_node_num_filed set_m_node_idx_filed set_m_f_filed set_m_miner_list_filed set_m_view_filed set_m_to_view_filed set_m_change_cycle_filed set_m_leader_failed_filed set_m_empty_block_flag_filed set_m_omit_empty_block_filed set_m_view_timeout_filed set_m_last_consensus_time_filed set_m_last_sign_time_filed set_m_last_exec_finish_time_filed set_m_last_collect_time_filed set_m_highest_block_filed set_m_consensus_block_number_filed set_m_raw_prepare_cache_filed set_m_prepare_cache_filed set_m_committed_prepare_cache_filed set_m_future_prepare_cache_filed set_m_commitMap_filed set_outbox_filed : filed.


Ltac filed_step := cbv zeta; repeat case_match; cbn [fst snd]; auto 60 with filed.

Lemma emit_filed e s : caches_filed s → caches_filed (emit e s).
Proof. exact id. Qed.
#[local] Hint Resolve emit_filed : filed.

Lemma broadcastMsg_filed w id req blk fl s :
  caches_filed s → caches_filed (broadcastMsg w id req blk fl s).2.
Proof. intros Hs. unfold broadcastMsg. by destruct (host_alive w). Qed.
#[local] Hint Resolve broadcastMsg_filed : filed.

Lemma clearMask_filed w s : caches_filed s → caches_filed (clearMask w s).
Proof. intros Hs. unfold clearMask. by destruct (host_alive w). Qed.
#[local] Hint Resolve clearMask_filed : filed.

Lemma addRawPrepare_filed req s : caches_filed s → caches_filed (addRawPrepare req s).
Proof. exact id. Qed.
#[local] Hint Resolve addRawPrepare_filed : filed.

Lemma addSignReq_filed req s : caches_filed s → caches_filed (addSignReq req s).
Proof. intros (A & B & C). split; [by apply put_vote_filed | done]. Qed.
#[local] Hint Resolve addSignReq_filed : filed.

Lemma addCommitReq_filed req s : caches_filed s → caches_filed (addCommitReq req s).
Proof. intros (A & B & C). split; [done | split; [by apply put_vote_filed | done]]. Qed.
#[local] Hint Resolve addCommitReq_filed : filed.

Lemma addPrepareReq_filed req s : caches_filed s → caches_filed (addPrepareReq req s).
Proof.
  intros (A & B & C). unfold addPrepareReq, caches_filed. simpl.
  split; [by apply filed_alter_filter | split; [by apply filed_alter_filter | done]].
Qed.
#[local] Hint Resolve addPrepareReq_filed : filed.

Lemma delCache_filed h s : caches_filed s → caches_filed (delCache h s).
Proof.
  intros (A & B & C). unfold delCache. cbv zeta.
  assert (H1 : caches_filed (set_m_commit_cache (delete h (m_commit_cache s))
                               (set_m_sign_cache (delete h (m_sign_cache s)) s))).
  { split; [by apply filed_delete | split; [by apply filed_delete | done]]. }
  revert H1. simpl. generalize (set_m_commit_cache (delete h (m_commit_cache s))
                               (set_m_sign_cache (delete h (m_sign_cache s)) s)).
  intros t Ht. by destruct (_ =? _).
Qed.
#[local] Hint Resolve delCache_filed : filed.

Lemma delViewChange_filed s : caches_filed s → caches_filed (delViewChange s).
Proof.
  intros (A & B & C). split; [done | split; [done |]]. simpl.
  intros h inner' Hl. rewrite lookup_omap in Hl.
  destruct (m_recv_view_change_req s !! h) as [inner |] eqn:Hh; [| done]. simpl in Hl.
  unfold prune_empty in Hl. destruct (decide _); [done |]. injection Hl as <-.
  apply filed_inner_filter. exact (C h inner Hh).
Qed.
#[local] Hint Resolve delViewChange_filed : filed.

Lemma collectGarbage_filed w s : caches_filed s → caches_filed (collectGarbage w s).
Proof.
  intros (A & B & C). unfold collectGarbage.
  destruct (negb _); [done |]. destruct (_ >=? _); [| done].
  split; [by apply gc_votes_filed | split; [by apply gc_votes_filed | done]].
Qed.
#[local] Hint Resolve collectGarbage_filed : filed.

Lemma resetConfig_filed w s : caches_filed s → caches_filed (resetConfig w s).
Proof.
  intros (A & B & C). unfold resetConfig.
  assert (Hs : caches_filed s) by done.
  assert (He : ∀ t, m_commit_cache t = m_commit_cache s →
                    m_sign_cache t = ∅ → m_recv_view_change_req t = ∅ → caches_filed t).
  { intros t Hc Hsg Hv. unfold caches_filed. rewrite Hc, Hsg, Hv.
    split; [apply filed_empty | split; [done | apply filed_empty]]. }
  repeat case_match; try done; by apply He.
Qed.
#[local] Hint Resolve resetConfig_filed : filed.

Lemma checkAndSave_filed s : caches_filed s → caches_filed (checkAndSave s).
Proof.
  intros (A & B & C). unfold checkAndSave. cbv zeta.
  match goal with |- context [set_m_commit_cache ?m (set_m_sign_cache ?m' s)] =>
    assert (H1 : caches_filed (set_m_commit_cache m (set_m_sign_cache m' s)));
    [split; [by apply filed_touch | split; [by apply filed_touch | done]] |];
    revert H1; generalize (set_m_commit_cache m (set_m_sign_cache m' s)) end.
  intros t Ht. filed_step.
Qed.
#[local] Hint Resolve checkAndSave_filed : filed.

Lemma broadcastSignReq_filed w req s :
  caches_filed s → caches_filed (broadcastSignReq w req s).2.
Proof. intros Hs. unfold broadcastSignReq. filed_step. Qed.
#[local] Hint Resolve broadcastSignReq_filed : filed.

Lemma broadcastCommitReq_filed w req s :
  caches_filed s → caches_filed (broadcastCommitReq w req s).2.
Proof. intros Hs. unfold broadcastCommitReq. filed_step. Qed.
#[local] Hint Resolve broadcastCommitReq_filed : filed.

Lemma broadcastPrepareReq_filed w bi blk s :
  caches_filed s → caches_filed (broadcastPrepareReq w bi blk s).2.
Proof. intros Hs. unfold broadcastPrepareReq. filed_step. Qed.
#[local] Hint Resolve broadcastPrepareReq_filed : filed.

Lemma broadcastViewChangeReq_filed w s :
  caches_filed s → caches_filed (broadcastViewChangeReq w s).2.
Proof. intros Hs. unfold broadcastViewChangeReq. filed_step. Qed.
#[local] Hint Resolve broadcastViewChangeReq_filed : filed.

Lemma checkAndCommit_filed w s : caches_filed s → caches_filed (checkAndCommit w s).
Proof.
  intros (A & B & C). unfold checkAndCommit. cbv zeta.
  match goal with |- context [set_m_sign_cache ?m s] =>
    assert (H1 : caches_filed (set_m_sign_cache m s));
    [split; [by apply filed_touch | done] |];
    revert H1; generalize (set_m_sign_cache m s) end.
  intros t Ht. filed_step.
Qed.
#[local] Hint Resolve checkAndCommit_filed : filed.

Lemma recvFutureBlock_filed from req s : caches_filed s → caches_filed (recvFutureBlock from req s).
Proof. intros Hs. unfold recvFutureBlock. filed_step. Qed.
#[local] Hint Resolve recvFutureBlock_filed : filed.

Lemma changeViewForEmptyBlockWithoutLock_filed s :
  caches_filed s → caches_filed (changeViewForEmptyBlockWithoutLock s).
Proof. exact id. Qed.
#[local] Hint Resolve changeViewForEmptyBlockWithoutLock_filed : filed.

Lemma acceptExecuted_filed w from req x s :
  caches_filed s → caches_filed (acceptExecuted w from req x s).
Proof. intros Hs. unfold acceptExecuted. filed_step. Qed.
#[local] Hint Resolve acceptExecuted_filed : filed.

Lemma handlePrepareMsg_filed w from req self s :
  caches_filed s → caches_filed (handlePrepareMsg w from req self s).
Proof. intros Hs. unfold handlePrepareMsg. filed_step. Qed.
#[local] Hint Resolve handlePrepareMsg_filed : filed.

Lemma reHandlePrepareReq_filed w req s :
  caches_filed s → caches_filed (reHandlePrepareReq w req s).
Proof. intros Hs. unfold reHandlePrepareReq. filed_step. Qed.
#[local] Hint Resolve reHandlePrepareReq_filed : filed.

Lemma handleSignMsg_filed w from req s :
  caches_filed s → caches_filed (handleSignMsg w from req s).
Proof. intros Hs. unfold handleSignMsg. filed_step. Qed.
#[local] Hint Resolve handleSignMsg_filed : filed.

Lemma handleCommitMsg_filed w from req s :
  caches_filed s → caches_filed (handleCommitMsg w from req s).
Proof. intros Hs. unfold handleCommitMsg. filed_step. Qed.
#[local] Hint Resolve handleCommitMsg_filed : filed.

Lemma checkAndChangeView_filed s : caches_filed s → caches_filed (checkAndChangeView s).
Proof.
  intros (A & B & C). unfold checkAndChangeView. simpl.
  destruct (_ >=? _).
  - split; [apply filed_empty | split; [apply filed_empty |]]. simpl.
    by apply filed_outer_filter, filed_touch.
  - split; [done | split; [done |]]. simpl. by apply filed_touch.
Qed.
#[local] Hint Resolve checkAndChangeView_filed : filed.

Lemma relay_filed w id m raw from node s :
  caches_filed s → caches_filed (relay w id m raw from node s).
Proof. intros Hs. unfold relay. filed_step. Qed.
#[local] Hint Resolve relay_filed : filed.

Lemma handleViewChangeMsg_filed w from req s :
  caches_filed s → caches_filed (handleViewChangeMsg w from req s).
Proof.
  intros Hs. unfold handleViewChangeMsg.
  destruct (isExistViewChange req s); [done |].
  destruct (idx req =? m_node_idx s); [done |].
  match goal with |- context [emit ?e s] => set (e0 := e) end.
  match goal with |- context [if ?c then emit e0 s else s] =>
    set (s1 := if c then emit e0 s else s) end.
  assert (H1 : caches_filed s1) by (subst s1; by destruct (_ && _ && _ && _)).
  clearbody s1. clear e0 Hs.
  cbv zeta.
  destruct (_ || _); [done |].
  destruct (_ && _ && _); [done |].
  destruct (negb _); [done |].
  match goal with |- context [set_m_recv_view_change_req ?m s1] =>
    assert (H2 : caches_filed (set_m_recv_view_change_req m s1));
    [| revert H2; generalize (set_m_recv_view_change_req m s1)] end.
  { destruct H1 as (A & B & C). split; [done | split; [done |]]. simpl.
    exact (filed_put view idx req _ C). }
  intros t Ht. filed_step.
Qed.
#[local] Hint Resolve handleViewChangeMsg_filed : filed.

Lemma checkTimeout_filed w s : caches_filed s → caches_filed (checkTimeout w s).
Proof.
  intros (A & B & C). unfold checkTimeout. cbv zeta.
  destruct (_ >=? _); [| done].
  match goal with |- context [broadcastViewChangeReq w ?t] =>
    assert (H1 : caches_filed t); [| revert H1; generalize t] end.
  { split; [done | split; [done |]]. simpl.
    apply filed_insert; [| done]. by apply filed_inner_filter, filed_at_key. }
  intros t Ht. filed_step.
Qed.
#[local] Hint Resolve checkTimeout_filed : filed.

Lemma handleFutureBlock_filed w s : caches_filed s → caches_filed (handleFutureBlock w s).
Proof. intros Hs. unfold handleFutureBlock. filed_step. Qed.

Lemma generateCommit_filed w bi blk v s :
  caches_filed s → caches_filed (generateCommit w bi blk v s).2.
Proof. intros Hs. unfold generateCommit. filed_step. Qed.

Lemma shouldSeal_filed w s : caches_filed s → caches_filed (shouldSeal w s).2.
Proof. intros Hs. unfold shouldSeal. filed_step. Qed.

Lemma reportBlock_filed w b s : caches_filed s → caches_filed (reportBlock w b s).
Proof. intros Hs. unfold reportBlock. filed_step. Qed.

(** X19: every entry point keeps the caches filed: a sign or commit vote
    is always stored under its own block hash and signature, and a
    view-change request under its own view and sender index. *)
Theorem X19_caches_stay_filed (w : World) (ev : Event) (s : State) :
  caches_filed s → caches_filed (step w ev s).
Proof.
  intros Hs. destruct ev as [| | | | pkt from node | | | |]; simpl.
  - by apply broadcastPrepareReq_filed.
  - by apply generateCommit_filed.
  - by apply shouldSeal_filed.
  - by apply reportBlock_filed.
  - destruct pkt; simpl; auto 10 with filed.
  - by apply checkTimeout_filed.
  - by apply handleFutureBlock_filed.
  - by apply collectGarbage_filed.
  - done.
Qed.

(** ** A packet delivered twice *)

Lemma has_vote_put req m : has_vote req (put_vote req m) = true.
Proof.
  unfold has_vote, put_vote. rewrite lookup_insert_eq. apply bool_decide_eq_true.
  rewrite lookup_insert_eq. by eexists.
Qed.

Lemma has_vote_touch req h m : has_vote req (touch h m) = has_vote req m.
Proof.
  unfold has_vote, touch. destruct (m !! h) eqn:Hh; [done |].
  destruct (decide (h = block_hash req)) as [-> | Hne].
  - rewrite lookup_insert_eq, Hh. apply bool_decide_eq_false. rewrite lookup_empty.
    by intros [? ?].
  - by rewrite lookup_insert_ne.
Qed.

Lemma checkAndSave_sign_cache s :
  m_sign_cache (checkAndSave s) = touch (block_hash (m_prepare_cache s)) (m_sign_cache s).
Proof. unfold checkAndSave. by repeat case_match. Qed.

Lemma broadcastCommitReq_sign_cache w req s :
  m_sign_cache (broadcastCommitReq w req s).2 = m_sign_cache s.
Proof. unfold broadcastCommitReq, broadcastMsg. by destruct (host_alive w). Qed.

Lemma checkAndCommit_has_sign w req s :
  has_vote req (m_sign_cache s) = true →
  has_vote req (m_sign_cache (checkAndCommit w s)) = true.
Proof.
  intros Hv. unfold checkAndCommit. cbv zeta.
  repeat case_match; rewrite ?checkAndSave_sign_cache; simpl;
    rewrite ?broadcastCommitReq_sign_cache; simpl; by rewrite !has_vote_touch.
Qed.

Lemma handleSignMsg_again w from from' req s :
  handleSignMsg w from' req (handleSignMsg w from req s) = handleSignMsg w from req s.
Proof.
  assert (Hdup : ∀ t, isExistSign req t = true → handleSignMsg w from' req t = t).
  { intros t Ht. unfold handleSignMsg. by rewrite Ht. }
  unfold handleSignMsg at 2 3. cbv zeta.
  destruct (isExistSign req s) eqn:H1; [by apply Hdup |].
  destruct (idx req =? m_node_idx s) eqn:H2; [unfold handleSignMsg; by rewrite H1, H2 |].
  destruct (negb (block_hash (m_prepare_cache s) =? block_hash req)) eqn:H3.
  - destruct (_ && checkSign w req) eqn:H4.
    + apply Hdup. unfold isExistSign, addSignReq. simpl. apply has_vote_put.
    + unfold handleSignMsg. cbv zeta. by rewrite H1, H2, H3, H4.
  - destruct (negb (view (m_prepare_cache s) =? view req)) eqn:H5;
      [unfold handleSignMsg; by rewrite H1, H2, H3, H5 |].
    destruct (negb (checkSign w req)) eqn:H6;
      [unfold handleSignMsg; by rewrite H1, H2, H3, H5, H6 |].
    apply Hdup. unfold isExistSign. apply checkAndCommit_has_sign. simpl. apply has_vote_put.
Qed.

Lemma handleCommitMsg_again w from from' req s :
  handleCommitMsg w from' req (handleCommitMsg w from req s) = handleCommitMsg w from req s.
Proof.
  assert (Hdup : ∀ t, isExistCommit req t = true → handleCommitMsg w from' req t = t).
  { intros t Ht. unfold handleCommitMsg. by rewrite Ht. }
  unfold handleCommitMsg at 2 3. cbv zeta.
  destruct (isExistCommit req s) eqn:H1; [by apply Hdup |].
  destruct (idx req =? m_node_idx s) eqn:H2; [unfold handleCommitMsg; by rewrite H1, H2 |].
  destruct (negb (block_hash (m_prepare_cache s) =? block_hash req)) eqn:H3.
  - destruct (_ && checkSign w req) eqn:H4.
    + apply Hdup. unfold isExistCommit, addCommitReq. simpl. apply has_vote_put.
    + unfold handleCommitMsg. cbv zeta. by rewrite H1, H2, H3, H4.
  - destruct (negb (view (m_prepare_cache s) =? view req)) eqn:H5;
      [unfold handleCommitMsg; by rewrite H1, H2, H3, H5 |].
    destruct (negb (checkSign w req)) eqn:H6;
      [unfold handleCommitMsg; by rewrite H1, H2, H3, H5, H6 |].
    apply Hdup. unfold isExistCommit. rewrite checkAndSave_commit_cache, has_vote_touch.
    simpl. apply has_vote_put.
Qed.

Lemma handlePrepareMsg_again w from from' req self s :
  handlePrepareMsg w from' req self (handlePrepareMsg w from req self s)
  = handlePrepareMsg w from req self s.
Proof.
  assert (Hdup : ∀ t, m_raw_prepare_cache t = req → handlePrepareMsg w from' req self t = t).
  { intros t Ht. unfold handlePrepareMsg, isExistPrepare. by rewrite Ht, Z.eqb_refl. }
  unfold handlePrepareMsg at 2 3. cbv zeta.
  destruct (isExistPrepare req s) eqn:H1; [unfold handlePrepareMsg; by rewrite H1 |].
  destruct (negb self && (idx req =? m_node_idx s)) eqn:H2;
    [unfold handlePrepareMsg; by rewrite H1, H2 |].
  destruct ((height req <? m_consensus_block_number s) || (view req <? m_view s)) eqn:H3;
    [unfold handlePrepareMsg; by rewrite H1, H2, H3 |].
  destruct ((height req >? m_consensus_block_number s) || (view req >? m_view s)) eqn:H4.
  { assert (Hf : handlePrepareMsg w from' req self (recvFutureBlock from req s)
                 = recvFutureBlock from' req (recvFutureBlock from req s)).
    { assert (Hk : ∀ t, m_raw_prepare_cache t = m_raw_prepare_cache s →
                m_node_idx t = m_node_idx s →
                m_consensus_block_number t = m_consensus_block_number s →
                m_view t = m_view s →
                handlePrepareMsg w from' req self t = recvFutureBlock from' req t).
      { intros t R I C V. unfold handlePrepareMsg, isExistPrepare in *.
        by rewrite R, I, C, V, H1, H2, H3, H4. }
      apply Hk; unfold recvFutureBlock; by destruct (negb (_ =? _)). }
    rewrite Hf. unfold recvFutureBlock.
    destruct (negb (block_hash (m_future_prepare_cache s).2 =? block_hash req)) eqn:H5; simpl.
    - by rewrite Z.eqb_refl.
    - by rewrite H5. }
  destruct (negb (getLeader s).1 || negb (idx req =? (getLeader s).2)) eqn:H5;
    [unfold handlePrepareMsg; cbv zeta; by rewrite H1, H2, H3, H4, H5 |].
  destruct ((height req =? height (m_committed_prepare_cache s))
            && negb (block_hash req =? block_hash (m_committed_prepare_cache s))) eqn:H6;
    [unfold handlePrepareMsg; cbv zeta; by rewrite H1, H2, H3, H4, H5, H6 |].
  destruct (negb (checkSign w req)) eqn:H7;
    [unfold handlePrepareMsg; cbv zeta; by rewrite H1, H2, H3, H4, H5, H6, H7 |].
  apply Hdup. destruct (checkBlockValid w (block_hash req) (block req)) as [| x]; [done |].
  by rewrite (proj1 (acceptExecuted_caches w from req x _)).
Qed.

(** X20: the three vote handlers are safe against replay: handling the
    same Prepare, Sign or Commit request a second time, from whichever
    peer, leaves the engine exactly as the first handling left it. *)
Theorem X20_replayed_request_is_ignored (w : World) (from from' : Z) (s : State) :
  (∀ req self, handlePrepareMsg w from' req self (handlePrepareMsg w from req self s)
               = handlePrepareMsg w from req self s)
  ∧ (∀ req, handleSignMsg w from' req (handleSignMsg w from req s)
            = handleSignMsg w from req s)
  ∧ (∀ req, handleCommitMsg w from' req (handleCommitMsg w from req s)
            = handleCommitMsg w from req s).
Proof.
  split; [| split].
  - intros req self. apply handlePrepareMsg_again.
  - intros req. apply handleSignMsg_again.
  - intros req. apply handleCommitMsg_again.
Qed.


(** ** Who leads *)

(** X21: when [getLeader] succeeds on a non-empty roster the leader is a
    roster index, and leadership goes round the roster with the view:
    [k] views later, at the same height, the leader is [k] places further
    on. *)
Theorem X21_leader_rotates_with_view (s : State) (k : Z) :
  (getLeader s).1 = true →
  0 < m_node_num s →
  0 ≤ k → 0 ≤ m_view s + number (m_highest_block s) →
  m_view s + number (m_highest_block s) + k < 2 ^ 256 →
  0 ≤ (getLeader s).2 < m_node_num s
  ∧ getLeader (set_m_view (m_view s + k) s)
    = (true, ((getLeader s).2 + k) mod m_node_num s).
Proof.
  unfold getLeader. simpl. destruct (_ || _ || _); [done |]. simpl.
  intros _ Hn Hk H0 Hw. unfold add256.
  rewrite !(Z.mod_small _ (2 ^ 256)) by lia.
  split; [apply Z.mod_pos_bound; lia |].
  f_equal. rewrite Zplus_mod_idemp_l. f_equal. lia.
Qed.

(** ** The back-off of the view timeout *)

Section Cycle.
Hypothesis kMax_nonneg : 0 ≤ kMaxChangeCycle.

Create HintDb cycle discriminated.

Lemma set_m_cfg_err_cycle v s : cycle_capped s → cycle_capped (set_m_cfg_err v s).
Proof. exact id. Qed.
Lemma set_m_account_type_cycle v s : cycle_capped s → cycle_capped (set_m_account_type v s).
Proof. exact id. Qed.
Lemma set_m_node_num_cycle v s : cycle_capped s → cycle_capped (set_m_node_num v s).
Proof. exact id. Qed.
Lemma set_m_node_idx_cycle v s : cycle_capped s → cycle_capped (set_m_node_idx v s).
Proof. exact id. Qed.
Lemma set_m_f_cycle v s : cycle_capped s → cycle_capped (set_m_f v s).
Proof. exact id. Qed.
Lemma set_m_miner_list_cycle v s : cycle_capped s → cycle_capped (set_m_miner_list v s).
Proof. exact id. Qed.
Lemma set_m_view_cycle v s : cycle_capped s → cycle_capped (set_m_view v s).
Proof. exact id. Qed.
Lemma set_m_to_view_cycle v s : cycle_capped s → cycle_capped (set_m_to_view v s).
Proof. exact id. Qed.
Lemma set_m_leader_failed_cycle v s : cycle_capped s → cycle_capped (set_m_leader_failed v s).
Proof. exact id. Qed.
Lemma set_m_empty_block_flag_cycle v s : cycle_capped s → cycle_capped (set_m_empty_block_flag v s).
Proof. exact id. Qed.
Lemma set_m_omit_empty_block_cycle v s : cycle_capped s → cycle_capped (set_m_omit_empty_block v s).
Proof. exact id. Qed.
Lemma set_m_view_timeout_cycle v s : cycle_capped s → cycle_capped (set_m_view_timeout v s).
Proof. exact id. Qed.
Lemma set_m_last_consensus_time_cycle v s : cycle_capped s → cycle_capped (set_m_last_consensus_time v s).
Proof. exact id. Qed.
Lemma set_m_last_sign_time_cycle v s : cycle_capped s → cycle_capped (set_m_last_sign_time v s).
Proof. exact id. Qed.
Lemma set_m_last_exec_finish_time_cycle v s : cycle_capped s → cycle_capped (set_m_last_exec_finish_time v s).
Proof. exact id. Qed.
Lemma set_m_last_collect_time_cycle v s : cycle_capped s → cycle_capped (set_m_last_collect_time v s).
Proof. exact id. Qed.
Lemma set_m_highest_block_cycle v s : cycle_capped s → cycle_capped (set_m_highest_block v s).
Proof. exact id. Qed.
Lemma set_m_consensus_block_number_cycle v s : cycle_capped s → cycle_capped (set_m_consensus_block_number v s).
Proof. exact id. Qed.
Lemma set_m_raw_prepare_cache_cycle v s : cycle_capped s → cycle_capped (set_m_raw_prepare_cache v s).
Proof. exact id. Qed.
Lemma set_m_prepare_cache_cycle v s : cycle_capped s → cycle_capped (set_m_prepare_cache v s).
Proof. exact id. Qed.
Lemma set_m_committed_prepare_cache_cycle v s : cycle_capped s → cycle_capped (set_m_committed_prepare_cache v s).
Proof. exact id. Qed.
Lemma set_m_future_prepare_cache_cycle v s : cycle_capped s → cycle_capped (set_m_future_prepare_cache v s).
Proof. exact id. Qed.
Lemma set_m_sign_cache_cycle v s : cycle_capped s → cycle_capped (set_m_sign_cache v s).
Proof. exact id. Qed.
Lemma set_m_commit_cache_cycle v s : cycle_capped s → cycle_capped (set_m_commit_cache v s).
Proof. exact id. Qed.
Lemma set_m_recv_view_change_req_cycle v s : cycle_capped s → cycle_capped (set_m_recv_view_change_req v s).
Proof. exact id. Qed.
Lemma set_m_commitMap_cycle v s : cycle_capped s → cycle_capped (set_m_commitMap v s).
Proof. exact id. Qed.
Lemma set_outbox_cycle v s : cycle_capped s → cycle_capped (set_outbox v s).
Proof. exact id. Qed.
#[local] Hint Resolve set_m_cfg_err_cycle set_m_account_type_cycle set_m_node_num_cycle set_m_node_idx_cycle set_m_f_cycle set_m_miner_list_cycle set_m_view_cycle set_m_to_view_cycle set_m_leader_failed_cycle set_m_empty_block_flag_cycle set_m_omit_empty_block_cycle set_m_view_timeout_cycle set_m_last_consensus_time_cycle set_m_last_sign_time_cycle set_m_last_exec_finish_time_cycle set_m_last_collect_time_cycle set_m_highest_block_cycle set_m_consensus_block_number_cycle set_m_raw_prepare_cache_cycle set_m_prepare_cache_cycle set_m_committed_prepare_cache_cycle set_m_future_prepare_cache_cycle set_m_sign_cache_cycle set_m_commit_cache_cycle set_m_recv_view_change_req_cycle set_m_commitMap_cycle set_outbox_cycle : cycle.


Ltac cycle_step := cbv zeta; repeat case_match; cbn [fst snd]; auto 60 with cycle.

Lemma set_m_change_cycle_zero s : cycle_capped (set_m_change_cycle 0 s).
Proof. exact kMax_nonneg. Qed.

Lemma set_m_change_cycle_min a s : cycle_capped (set_m_change_cycle (Z.min a kMaxChangeCycle) s).
Proof. unfold cycle_capped. simpl. lia. Qed.
#[local] Hint Resolve set_m_change_cycle_zero set_m_change_cycle_min : cycle.

Lemma emit_cycle e s : cycle_capped s → cycle_capped (emit e s).
Proof. exact id. Qed.
#[local] Hint Resolve emit_cycle : cycle.

Lemma broadcastMsg_cycle w id req blk fl s : cycle_capped s → cycle_capped ((broadcastMsg w id req blk fl s).2).
Proof. intros Hs. unfold broadcastMsg. cycle_step. Qed.
#[local] Hint Resolve broadcastMsg_cycle : cycle.

Lemma clearMask_cycle w s : cycle_capped s → cycle_capped (clearMask w s).
Proof. intros Hs. unfold clearMask. cycle_step. Qed.
#[local] Hint Resolve clearMask_cycle : cycle.

Lemma addRawPrepare_cycle req s : cycle_capped s → cycle_capped (addRawPrepare req s).
Proof. exact id. Qed.
#[local] Hint Resolve addRawPrepare_cycle : cycle.

Lemma addSignReq_cycle req s : cycle_capped s → cycle_capped (addSignReq req s).
Proof. exact id. Qed.
#[local] Hint Resolve addSignReq_cycle : cycle.

Lemma addCommitReq_cycle req s : cycle_capped s → cycle_capped (addCommitReq req s).
Proof. exact id. Qed.
#[local] Hint Resolve addCommitReq_cycle : cycle.

Lemma addPrepareReq_cycle req s : cycle_capped s → cycle_capped (addPrepareReq req s).
Proof. exact id. Qed.
#[local] Hint Resolve addPrepareReq_cycle : cycle.

Lemma delCache_cycle h s : cycle_capped s → cycle_capped (delCache h s).
Proof. intros Hs. unfold delCache. cycle_step. Qed.
#[local] Hint Resolve delCache_cycle : cycle.

Lemma delViewChange_cycle s : cycle_capped s → cycle_capped (delViewChange s).
Proof. exact id. Qed.
#[local] Hint Resolve delViewChange_cycle : cycle.

Lemma collectGarbage_cycle w s : cycle_capped s → cycle_capped (collectGarbage w s).
Proof. intros Hs. unfold collectGarbage. cycle_step. Qed.
#[local] Hint Resolve collectGarbage_cycle : cycle.

Lemma resetConfig_cycle w s : cycle_capped s → cycle_capped (resetConfig w s).
Proof. intros Hs. unfold resetConfig. cycle_step. Qed.
#[local] Hint Resolve resetConfig_cycle : cycle.

Lemma checkAndSave_cycle s : cycle_capped s → cycle_capped (checkAndSave s).
Proof. intros Hs. unfold checkAndSave. cycle_step. Qed.
#[local] Hint Resolve checkAndSave_cycle : cycle.

Lemma broadcastSignReq_cycle w req s : cycle_capped s → cycle_capped ((broadcastSignReq w req s).2).
Proof. intros Hs. unfold broadcastSignReq. cycle_step. Qed.
#[local] Hint Resolve broadcastSignReq_cycle : cycle.

Lemma broadcastCommitReq_cycle w req s : cycle_capped s → cycle_capped ((broadcastCommitReq w req s).2).
Proof. intros Hs. unfold broadcastCommitReq. cycle_step. Qed.
#[local] Hint Resolve broadcastCommitReq_cycle : cycle.

Lemma broadcastPrepareReq_cycle w bi blk s : cycle_capped s → cycle_capped ((broadcastPrepareReq w bi blk s).2).
Proof. intros Hs. unfold broadcastPrepareReq. cycle_step. Qed.
#[local] Hint Resolve broadcastPrepareReq_cycle : cycle.

Lemma broadcastViewChangeReq_cycle w s : cycle_capped s → cycle_capped ((broadcastViewChangeReq w s).2).
Proof. intros Hs. unfold broadcastViewChangeReq. cycle_step. Qed.
#[local] Hint Resolve broadcastViewChangeReq_cycle : cycle.

Lemma checkAndCommit_cycle w s : cycle_capped s → cycle_capped (checkAndCommit w s).
Proof. intros Hs. unfold checkAndCommit. cycle_step. Qed.
#[local] Hint Resolve checkAndCommit_cycle : cycle.

Lemma recvFutureBlock_cycle from req s : cycle_capped s → cycle_capped (recvFutureBlock from req s).
Proof. intros Hs. unfold recvFutureBlock. cycle_step. Qed.
#[local] Hint Resolve recvFutureBlock_cycle : cycle.

Lemma changeViewForEmptyBlockWithoutLock_cycle s : cycle_capped s → cycle_capped (changeViewForEmptyBlockWithoutLock s).
Proof. intros Hs. unfold changeViewForEmptyBlockWithoutLock. cycle_step. Qed.
#[local] Hint Resolve changeViewForEmptyBlockWithoutLock_cycle : cycle.

Lemma changeViewForEmptyBlockWithLock_cycle s : cycle_capped s → cycle_capped (changeViewForEmptyBlockWithLock s).
Proof. intros Hs. unfold changeViewForEmptyBlockWithLock. cycle_step. Qed.
#[local] Hint Resolve changeViewForEmptyBlockWithLock_cycle : cycle.

Lemma acceptExecuted_cycle w from req x s : cycle_capped s → cycle_capped (acceptExecuted w from req x s).
Proof. intros Hs. unfold acceptExecuted. cycle_step. Qed.
#[local] Hint Resolve acceptExecuted_cycle : cycle.

Lemma handlePrepareMsg_cycle w from req self s : cycle_capped s → cycle_capped (handlePrepareMsg w from req self s).
Proof. intros Hs. unfold handlePrepareMsg. cycle_step. Qed.
#[local] Hint Resolve handlePrepareMsg_cycle : cycle.

Lemma reHandlePrepareReq_cycle w req s : cycle_capped s → cycle_capped (reHandlePrepareReq w req s).
Proof. intros Hs. unfold reHandlePrepareReq. cycle_step. Qed.
#[local] Hint Resolve reHandlePrepareReq_cycle : cycle.

Lemma handleSignMsg_cycle w from req s : cycle_capped s → cycle_capped (handleSignMsg w from req s).
Proof. intros Hs. unfold handleSignMsg. cycle_step. Qed.
#[local] Hint Resolve handleSignMsg_cycle : cycle.

Lemma handleCommitMsg_cycle w from req s : cycle_capped s → cycle_capped (handleCommitMsg w from req s).
Proof. intros Hs. unfold handleCommitMsg. cycle_step. Qed.
#[local] Hint Resolve handleCommitMsg_cycle : cycle.

Lemma checkAndChangeView_cycle s : cycle_capped s → cycle_capped (checkAndChangeView s).
Proof. intros Hs. unfold checkAndChangeView. cycle_step. Qed.
#[local] Hint Resolve checkAndChangeView_cycle : cycle.

Lemma relay_cycle w id m raw from node s : cycle_capped s → cycle_capped (relay w id m raw from node s).
Proof. intros Hs. unfold relay. cycle_step. Qed.
#[local] Hint Resolve relay_cycle : cycle.

Lemma handleViewChangeMsg_cycle w from req s : cycle_capped s → cycle_capped (handleViewChangeMsg w from req s).
Proof. intros Hs. unfold handleViewChangeMsg. cycle_step. Qed.
#[local] Hint Resolve handleViewChangeMsg_cycle : cycle.

Lemma checkTimeout_cycle w s : cycle_capped s → cycle_capped (checkTimeout w s).
Proof. intros Hs. unfold checkTimeout. cycle_step. Qed.
#[local] Hint Resolve checkTimeout_cycle : cycle.

Lemma handleFutureBlock_cycle w s : cycle_capped s → cycle_capped (handleFutureBlock w s).
Proof. intros Hs. unfold handleFutureBlock. cycle_step. Qed.
#[local] Hint Resolve handleFutureBlock_cycle : cycle.

Lemma generateCommit_cycle w bi blk v s : cycle_capped s → cycle_capped ((generateCommit w bi blk v s).2).
Proof. intros Hs. unfold generateCommit. cycle_step. Qed.
#[local] Hint Resolve generateCommit_cycle : cycle.

Lemma shouldSeal_cycle w s : cycle_capped s → cycle_capped ((shouldSeal w s).2).
Proof. intros Hs. unfold shouldSeal. cycle_step. Qed.
#[local] Hint Resolve shouldSeal_cycle : cycle.

Lemma reportBlock_cycle w b s : cycle_capped s → cycle_capped (reportBlock w b s).
Proof. intros Hs. unfold reportBlock. cycle_step. Qed.
#[local] Hint Resolve reportBlock_cycle : cycle.


Lemma step_cycle (w : World) (ev : Event) (s : State) :
  cycle_capped s → cycle_capped (step w ev s).
Proof.
  intros Hs. destruct ev as [| | | | pkt from node | | | |]; simpl; auto with cycle.
  destruct pkt; simpl; auto 10 with cycle.
Qed.

End Cycle.

(** X22: the back-off exponent [m_change_cycle], which stretches the view
    timeout, never passes [kMaxChangeCycle]: every entry point keeps it at
    or below the cap. *)
Theorem X22_change_cycle_stays_capped (w : World) (ev : Event) (s : State) :
  0 ≤ kMaxChangeCycle → cycle_capped s → cycle_capped (step w ev s).
Proof. intros Hk. by apply step_cycle. Qed.


(** ** Every sealed block carries a quorum of signatures *)

Section Backed.
Variables (n : nat) (q : Z).

Create HintDb backed discriminated.

Lemma set_m_cfg_err_backed v s : seals_backed n q s → seals_backed n q (set_m_cfg_err v s).
Proof. exact id. Qed.
Lemma set_m_account_type_backed v s : seals_backed n q s → seals_backed n q (set_m_account_type v s).
Proof. exact id. Qed.
Lemma set_m_node_idx_backed v s : seals_backed n q s → seals_backed n q (set_m_node_idx v s).
Proof. exact id. Qed.
Lemma set_m_miner_list_backed v s : seals_backed n q s → seals_backed n q (set_m_miner_list v s).
Proof. exact id. Qed.
Lemma set_m_view_backed v s : seals_backed n q s → seals_backed n q (set_m_view v s).
Proof. exact id. Qed.
Lemma set_m_to_view_backed v s : seals_backed n q s → seals_backed n q (set_m_to_view v s).
Proof. exact id. Qed.
Lemma set_m_change_cycle_backed v s : seals_backed n q s → seals_backed n q (set_m_change_cycle v s).
Proof. exact id. Qed.
Lemma set_m_leader_failed_backed v s : seals_backed n q s → seals_backed n q (set_m_leader_failed v s).
Proof. exact id. Qed.
Lemma set_m_empty_block_flag_backed v s : seals_backed n q s → seals_backed n q (set_m_empty_block_flag v s).
Proof. exact id. Qed.
Lemma set_m_omit_empty_block_backed v s : seals_backed n q s → seals_backed n q (set_m_omit_empty_block v s).
Proof. exact id. Qed.
Lemma set_m_view_timeout_backed v s : seals_backed n q s → seals_backed n q (set_m_view_timeout v s).
Proof. exact id. Qed.
Lemma set_m_last_consensus_time_backed v s : seals_backed n q s → seals_backed n q (set_m_last_consensus_time v s).
Proof. exact id. Qed.
Lemma set_m_last_sign_time_backed v s : seals_backed n q s → seals_backed n q (set_m_last_sign_time v s).
Proof. exact id. Qed.
Lemma set_m_last_exec_finish_time_backed v s : seals_backed n q s → seals_backed n q (set_m_last_exec_finish_time v s).
Proof. exact id. Qed.
Lemma set_m_last_collect_time_backed v s : seals_backed n q s → seals_backed n q (set_m_last_collect_time v s).
Proof. exact id. Qed.
Lemma set_m_highest_block_backed v s : seals_backed n q s → seals_backed n q (set_m_highest_block v s).
Proof. exact id. Qed.
Lemma set_m_consensus_block_number_backed v s : seals_backed n q s → seals_backed n q (set_m_consensus_block_number v s).
Proof. exact id. Qed.
Lemma set_m_raw_prepare_cache_backed v s : seals_backed n q s → seals_backed n q (set_m_raw_prepare_cache v s).
Proof. exact id. Qed.
Lemma set_m_prepare_cache_backed v s : seals_backed n q s → seals_backed n q (set_m_prepare_cache v s).
Proof. exact id. Qed.
Lemma set_m_committed_prepare_cache_backed v s : seals_backed n q s → seals_backed n q (set_m_committed_prepare_cache v s).
Proof. exact id. Qed.
Lemma set_m_future_prepare_cache_backed v s : seals_backed n q s → seals_backed n q (set_m_future_prepare_cache v s).
Proof. exact id. Qed.
Lemma set_m_sign_cache_backed v s : seals_backed n q s → seals_backed n q (set_m_sign_cache v s).
Proof. exact id. Qed.
Lemma set_m_commit_cache_backed v s : seals_backed n q s → seals_backed n q (set_m_commit_cache v s).
Proof. exact id. Qed.
Lemma set_m_recv_view_change_req_backed v s : seals_backed n q s → seals_backed n q (set_m_recv_view_change_req v s).
Proof. exact id. Qed.
Lemma set_m_commitMap_backed v s : seals_backed n q s → seals_backed n q (set_m_commitMap v s).
Proof. exact id. Qed.
#[local] Hint Resolve set_m_cfg_err_backed set_m_account_type_backed set_m_node_idx_backed set_m_miner_list_backed set_m_view_backed set_m_to_view_backed set_m_change_cycle_backed set_m_leader_failed_backed set_m_empty_block_flag_backed set_m_omit_empty_block_backed set_m_view_timeout_backed set_m_last_consensus_time_backed set_m_last_sign_time_backed set_m_last_exec_finish_time_backed set_m_last_collect_time_backed set_m_highest_block_backed set_m_consensus_block_number_backed set_m_raw_prepare_cache_backed set_m_prepare_cache_backed set_m_committed_prepare_cache_backed set_m_future_prepare_cache_backed set_m_sign_cache_backed set_m_commit_cache_backed set_m_recv_view_change_req_backed set_m_commitMap_backed : backed.


#[local] Hint Extern 0 (seal_backed _ _) => exact I : backed.

Ltac backed_step := cbv zeta; repeat case_match; cbn [fst snd]; auto 60 with backed.

Lemma emit_backed e s : seal_backed q e → seals_backed n q s → seals_backed n q (emit e s).
Proof.
  intros He (Hq & Hn & Hf). split; [done |]. unfold emit. simpl. rewrite length_app.
  split; [lia |]. rewrite drop_app_le by done. apply Forall_app. split; [done |].
  by constructor.
Qed.
#[local] Hint Resolve emit_backed : backed.

Lemma checkAndSave_backed s : seals_backed n q s → seals_backed n q (checkAndSave s).
Proof.
  intros Hs. unfold checkAndSave. cbv zeta.
  match goal with |- context [set_m_commit_cache ?m (set_m_sign_cache ?m' s)] =>
    assert (H1 : seals_backed n q (set_m_commit_cache m (set_m_sign_cache m' s))) by exact Hs;
    revert H1; generalize (set_m_commit_cache m (set_m_sign_cache m' s)) end.
  clear Hs. intros t Ht.
  destruct (_ && _ && _) eqn:Hc; [| done].
  destruct (negb (_ =? _)); [by auto with backed |].
  destruct (_ >? _); [| by auto with backed].
  apply emit_backed; [| by auto with backed].
  apply andb_prop in Hc as [Hc _]. apply andb_prop in Hc as [_ Hc].
  simpl. rewrite sig_list_of_length. destruct Ht as [<- _]. lia.
Qed.
#[local] Hint Resolve checkAndSave_backed : backed.

Lemma broadcastMsg_backed w id req blk fl s : seals_backed n q s → seals_backed n q ((broadcastMsg w id req blk fl s).2).
Proof. intros Hs. unfold broadcastMsg. backed_step. Qed.
#[local] Hint Resolve broadcastMsg_backed : backed.

Lemma clearMask_backed w s : seals_backed n q s → seals_backed n q (clearMask w s).
Proof. intros Hs. unfold clearMask. backed_step. Qed.
#[local] Hint Resolve clearMask_backed : backed.

Lemma addRawPrepare_backed req s : seals_backed n q s → seals_backed n q (addRawPrepare req s).
Proof. exact id. Qed.
#[local] Hint Resolve addRawPrepare_backed : backed.

Lemma addSignReq_backed req s : seals_backed n q s → seals_backed n q (addSignReq req s).
Proof. exact id. Qed.
#[local] Hint Resolve addSignReq_backed : backed.

Lemma addCommitReq_backed req s : seals_backed n q s → seals_backed n q (addCommitReq req s).
Proof. exact id. Qed.
#[local] Hint Resolve addCommitReq_backed : backed.

Lemma addPrepareReq_backed req s : seals_backed n q s → seals_backed n q (addPrepareReq req s).
Proof. exact id. Qed.
#[local] Hint Resolve addPrepareReq_backed : backed.

Lemma collectGarbage_backed w s : seals_backed n q s → seals_backed n q (collectGarbage w s).
Proof. intros Hs. unfold collectGarbage. backed_step. Qed.
#[local] Hint Resolve collectGarbage_backed : backed.

Lemma broadcastSignReq_backed w req s : seals_backed n q s → seals_backed n q ((broadcastSignReq w req s).2).
Proof. intros Hs. unfold broadcastSignReq. backed_step. Qed.
#[local] Hint Resolve broadcastSignReq_backed : backed.

Lemma broadcastCommitReq_backed w req s : seals_backed n q s → seals_backed n q ((broadcastCommitReq w req s).2).
Proof. intros Hs. unfold broadcastCommitReq. backed_step. Qed.
#[local] Hint Resolve broadcastCommitReq_backed : backed.

Lemma broadcastPrepareReq_backed w bi blk s : seals_backed n q s → seals_backed n q ((broadcastPrepareReq w bi blk s).2).
Proof. intros Hs. unfold broadcastPrepareReq. backed_step. Qed.
#[local] Hint Resolve broadcastPrepareReq_backed : backed.

Lemma broadcastViewChangeReq_backed w s : seals_backed n q s → seals_backed n q ((broadcastViewChangeReq w s).2).
Proof. intros Hs. unfold broadcastViewChangeReq. backed_step. Qed.
#[local] Hint Resolve broadcastViewChangeReq_backed : backed.

Lemma checkAndCommit_backed w s : seals_backed n q s → seals_backed n q (checkAndCommit w s).
Proof. intros Hs. unfold checkAndCommit. backed_step. Qed.
#[local] Hint Resolve checkAndCommit_backed : backed.

Lemma recvFutureBlock_backed from req s : seals_backed n q s → seals_backed n q (recvFutureBlock from req s).
Proof. intros Hs. unfold recvFutureBlock. backed_step. Qed.
#[local] Hint Resolve recvFutureBlock_backed : backed.

Lemma changeViewForEmptyBlockWithoutLock_backed s : seals_backed n q s → seals_backed n q (changeViewForEmptyBlockWithoutLock s).
Proof. intros Hs. unfold changeViewForEmptyBlockWithoutLock. backed_step. Qed.
#[local] Hint Resolve changeViewForEmptyBlockWithoutLock_backed : backed.

Lemma changeViewForEmptyBlockWithLock_backed s : seals_backed n q s → seals_backed n q (changeViewForEmptyBlockWithLock s).
Proof. intros Hs. unfold changeViewForEmptyBlockWithLock. backed_step. Qed.
#[local] Hint Resolve changeViewForEmptyBlockWithLock_backed : backed.

Lemma acceptExecuted_backed w from req x s : seals_backed n q s → seals_backed n q (acceptExecuted w from req x s).
Proof. intros Hs. unfold acceptExecuted. backed_step. Qed.
#[local] Hint Resolve acceptExecuted_backed : backed.

Lemma handlePrepareMsg_backed w from req self s : seals_backed n q s → seals_backed n q (handlePrepareMsg w from req self s).
Proof. intros Hs. unfold handlePrepareMsg. backed_step. Qed.
#[local] Hint Resolve handlePrepareMsg_backed : backed.

Lemma reHandlePrepareReq_backed w req s : seals_backed n q s → seals_backed n q (reHandlePrepareReq w req s).
Proof. intros Hs. unfold reHandlePrepareReq. backed_step. Qed.
#[local] Hint Resolve reHandlePrepareReq_backed : backed.

Lemma handleSignMsg_backed w from req s : seals_backed n q s → seals_backed n q (handleSignMsg w from req s).
Proof. intros Hs. unfold handleSignMsg. backed_step. Qed.
#[local] Hint Resolve handleSignMsg_backed : backed.

Lemma handleCommitMsg_backed w from req s : seals_backed n q s → seals_backed n q (handleCommitMsg w from req s).
Proof. intros Hs. unfold handleCommitMsg. backed_step. Qed.
#[local] Hint Resolve handleCommitMsg_backed : backed.

Lemma checkAndChangeView_backed s : seals_backed n q s → seals_backed n q (checkAndChangeView s).
Proof. intros Hs. unfold checkAndChangeView. backed_step. Qed.
#[local] Hint Resolve checkAndChangeView_backed : backed.

Lemma relay_backed w id m raw from node s : seals_backed n q s → seals_backed n q (relay w id m raw from node s).
Proof. intros Hs. unfold relay. backed_step. Qed.
#[local] Hint Resolve relay_backed : backed.

Lemma handleViewChangeMsg_backed w from req s : seals_backed n q s → seals_backed n q (handleViewChangeMsg w from req s).
Proof. intros Hs. unfold handleViewChangeMsg. backed_step. Qed.
#[local] Hint Resolve handleViewChangeMsg_backed : backed.

Lemma checkTimeout_backed w s : seals_backed n q s → seals_backed n q (checkTimeout w s).
Proof. intros Hs. unfold checkTimeout. backed_step. Qed.
#[local] Hint Resolve checkTimeout_backed : backed.

Lemma handleFutureBlock_backed w s : seals_backed n q s → seals_backed n q (handleFutureBlock w s).
Proof. intros Hs. unfold handleFutureBlock. backed_step. Qed.
#[local] Hint Resolve handleFutureBlock_backed : backed.

Lemma generateCommit_backed w bi blk v s : seals_backed n q s → seals_backed n q ((generateCommit w bi blk v s).2).
Proof. intros Hs. unfold generateCommit. backed_step. Qed.
#[local] Hint Resolve generateCommit_backed : backed.

Lemma shouldSeal_backed w s : seals_backed n q s → seals_backed n q ((shouldSeal w s).2).
Proof. intros Hs. unfold shouldSeal. backed_step. Qed.
#[local] Hint Resolve shouldSeal_backed : backed.


Lemma step_backed (w : World) (ev : Event) (s : State) :
  is_report ev = false → seals_backed n q s → seals_backed n q (step w ev s).
Proof.
  intros Hr Hs. destruct ev as [| | | | pkt from node | | | |]; simpl; try done;
    auto with backed.
  destruct pkt; simpl; auto 10 with backed.
Qed.

End Backed.

Lemma run_backed n q (sched : list (World * Event)) : ∀ s,
  Forall (λ we, is_report we.2 = false) sched →
  seals_backed n q s → seals_backed n q (run sched s).
Proof.
  induction sched as [| [w ev] rest IH]; intros s Hr Hs; simpl; [done |].
  apply Forall_cons in Hr as [Hr Hrest]. apply IH; [done |]. by apply step_backed.
Qed.

(** X23: between two chain reports, every block the engine hands to
    [onSealGenerated] carries at least [quorum()] signatures, whichever
    entry point of the schedule sealed it. *)
Theorem X23_sealed_block_carries_quorum (sched : list (World * Event)) (s : State)
    (h : Z) (items : list (list Byte.byte)) (sl : list (Z * Z)) (p : bool) :
  Forall (λ we, is_report we.2 = false) sched →
  OnSealGenerated h items sl p ∈ emitted s (run sched s) →
  quorum s ≤ Z.of_nat (length sl).
Proof.
  intros Hr Hin.
  assert (Hs : seals_backed (length (outbox s)) (quorum s) s).
  { split; [done |]. split; [done |]. rewrite drop_all. constructor. }
  destruct (run_backed _ _ sched s Hr Hs) as (_ & _ & Hf).
  rewrite Forall_forall in Hf. exact (Hf _ Hin).
Qed.

(** ** Which proposals get the node's sign vote *)

Lemma checkAndSave_no_sign_vote s :
  ∃ l, outbox (checkAndSave s) = outbox s ++ l ∧ Forall not_sign_vote l.
Proof.
  eexists. split; [apply checkAndSave_outbox |].
  destruct (_ && _ && _ && _); repeat constructor.
Qed.

Lemma checkAndCommit_no_sign_vote w s :
  ∃ l, outbox (checkAndCommit w s) = outbox s ++ l ∧ Forall not_sign_vote l.
Proof.
  unfold checkAndCommit. cbv zeta.
  destruct (_ =? quorum _); [| exists []; simpl; by rewrite app_nil_r].
  destruct (negb _); [exists []; simpl; by rewrite app_nil_r |].
  match goal with |- context [checkAndSave ?t] =>
    destruct (checkAndSave_no_sign_vote t) as (l & Hl & Hf) end.
  rewrite Hl. clear Hl.
  destruct (_ =? EN_ACCOUNT_TYPE_MINER);
    [unfold broadcastCommitReq, broadcastMsg; destruct (host_alive w) |]; simpl;
    rewrite <- ?app_assoc; eexists; (split; [reflexivity |]); simpl;
    repeat (constructor; [done |]); done.
Qed.

Lemma acceptExecuted_sign_vote w from req x s c blk f :
  Broadcast SignReqPacket c blk f ∈ emitted s (acceptExecuted w from req x s) →
  (exec_hash x =? block_hash req) && negb (Nat.eqb (exec_pending x) 0 && m_omit_empty_block s)
    && exec_seal_ok x = true
  ∧ c = sign_msg (height req) (view req) (m_node_idx s) (now w) (exec_sealed_hash x).
Proof.
  unfold acceptExecuted, changeViewForEmptyBlockWithoutLock. cbv zeta.
  destruct (exec_hash x =? block_hash req); simpl.
  2: { rewrite (emitted_app s s []) by by rewrite app_nil_r. by intros ?%elem_of_nil. }
  destruct (Nat.eqb (exec_pending x) 0 && m_omit_empty_block s); simpl.
  { rewrite (emitted_app _ _ [Notify]) by done. intros ?%list_elem_of_singleton. done. }
  destruct (exec_seal_ok x); simpl.
  2: { rewrite (emitted_app _ _ [AddBlockCache x]) by done.
       intros ?%list_elem_of_singleton. done. }
  match goal with |- context [checkAndCommit w ?t] =>
    destruct (checkAndCommit_no_sign_vote w t) as (l & Hl & Hf);
    assert (Ho : ∃ l1, outbox t = outbox s ++ AddBlockCache x :: l1
              ∧ ∀ e, e ∈ l1 → e = Broadcast SignReqPacket
                     (sign_msg (height req) (view req) (m_node_idx s) (now w)
                               (exec_sealed_hash x)) [] []) end.
  { destruct (_ =? EN_ACCOUNT_TYPE_MINER);
      [unfold broadcastSignReq, broadcastMsg; destruct (host_alive w) |]; simpl.
    - exists [Broadcast SignReqPacket
                (sign_msg (height req) (view req) (m_node_idx s) (now w)
                          (exec_sealed_hash x)) [] []].
      split; [by rewrite <- app_assoc |]. by intros e ?%list_elem_of_singleton.
    - exists []. split; [done |]. by intros e ?%elem_of_nil.
    - exists []. split; [done |]. by intros e ?%elem_of_nil. }
  destruct Ho as (l1 & Ho & H1). rewrite Ho in Hl.
  rewrite (emitted_app _ _ ((AddBlockCache x :: l1) ++ l)) by by rewrite Hl, <- app_assoc.
  intros Hin. split; [done |].
  apply elem_of_app in Hin as [Hin | Hin].
  - apply elem_of_cons in Hin as [Hin | Hin]; [done |].
    apply H1 in Hin. by injection Hin as ->.
  - rewrite Forall_forall in Hf. by apply Hf in Hin.
Qed.

(** X24: [handlePrepareMsg] broadcasts a sign vote only for a proposal
    that passed every guard (new, for the current height and view, from
    the leader, compatible with the committed proposal, correctly signed)
    and whose execution gave the claimed hash and a sealed block; the
    vote is the node's own and is for the hash of the executed block. *)
Theorem X24_sign_vote_only_for_admitted_proposal (w : World) (from : Z) (req : PrepareReq)
    (self : bool) (s : State) (c : PBFTMsg) (blk : list Byte.byte) (f : list Z) :
  Broadcast SignReqPacket c blk f ∈ emitted s (handlePrepareMsg w from req self s) →
  prepare_admitted w req self s = true
  ∧ ∃ x, prepare_stored w req s = Some x
         ∧ c = sign_msg (height req) (view req) (m_node_idx s) (now w) (exec_sealed_hash x).
Proof.
  assert (Hnone : ∀ t, outbox t = outbox s →
            Broadcast SignReqPacket c blk f ∈ emitted s t → False).
  { intros t Ht. rewrite (emitted_app s t []) by by rewrite app_nil_r. by intros ?%elem_of_nil. }
  unfold handlePrepareMsg, prepare_admitted, prepare_stored. cbv zeta.
  destruct (isExistPrepare req s); simpl; [intros Hin; by destruct (Hnone s) |].
  destruct (negb self && (idx req =? m_node_idx s)); simpl;
    [intros Hin; by destruct (Hnone s) |].
  destruct (Z.ltb_spec (height req) (m_consensus_block_number s)); simpl;
    [intros Hin; by destruct (Hnone s) |].
  destruct (Z.ltb_spec (view req) (m_view s)); simpl;
    [intros Hin; by destruct (Hnone s) |].
  destruct (Z.gtb_spec (height req) (m_consensus_block_number s)); simpl.
  { intros Hin. destruct (Hnone (recvFutureBlock from req s)); [| done].
    unfold recvFutureBlock. by destruct (negb _). }
  destruct (Z.gtb_spec (view req) (m_view s)); simpl.
  { intros Hin. destruct (Hnone (recvFutureBlock from req s)); [| done].
    unfold recvFutureBlock. by destruct (negb _). }
  assert (Hh : (height req =? m_consensus_block_number s) = true) by (apply Z.eqb_eq; lia).
  assert (Hv : (view req =? m_view s) = true) by (apply Z.eqb_eq; lia).
  rewrite Hh, Hv. simpl.
  destruct (getLeader s).1; simpl; [| intros Hin; by destruct (Hnone s)].
  destruct (idx req =? (getLeader s).2); simpl; [| intros Hin; by destruct (Hnone s)].
  destruct (_ && negb _); simpl; [intros Hin; by destruct (Hnone s) |].
  destruct (checkSign w req); simpl; [| intros Hin; by destruct (Hnone s)].
  destruct (checkBlockValid w (block_hash req) (block req)) as [| x];
    [intros Hin; by destruct (Hnone (addRawPrepare req s)) |].
  intros Hin. split; [done |].
  assert (Hin' : Broadcast SignReqPacket c blk f
                 ∈ emitted (addRawPrepare req s)
                           (acceptExecuted w from req x (addRawPrepare req s))) by exact Hin.
  apply acceptExecuted_sign_vote in Hin' as [Hc ->]. simpl in Hc.
  exists x. by rewrite Hc.
Qed.

(** ** View-change requests across a chain report *)

Lemma delViewChange_vote_at s v k r :
  vote_at (m_recv_view_change_req (delViewChange s)) v k r
  ↔ vote_at (m_recv_view_change_req s) v k r ∧ vc_fresh (m_highest_block s) (k, r).
Proof.
  unfold vote_at, delViewChange. simpl. split.
  - intros (inner' & Hl & Hk). rewrite lookup_omap_Some in Hl.
    destruct Hl as (inner & Hp & Hm). apply prune_empty_Some in Hp as [-> _].
    apply map_lookup_filter_Some in Hk as [Hk Hf]. split; [by exists inner | done].
  - intros [(inner & Hm & Hk) Hf].
    eexists. split.
    + rewrite lookup_omap_Some. exists inner. split; [| done].
      apply prune_empty_Some. split; [reflexivity |].
      intros He. by apply (map_filter_empty_not_lookup _ _ _ _ He Hf).
    + apply map_lookup_filter_Some. by split.
Qed.

Lemma resetConfig_view_changes w s v k r :
  vote_at (m_recv_view_change_req (resetConfig w s)) v k r →
  vote_at (m_recv_view_change_req s) v k r.
Proof.
  unfold resetConfig. repeat case_match; simpl; try done;
    intros (inner & Hl & _); by rewrite lookup_empty in Hl.
Qed.

Lemma delCache_view_changes h s :
  m_recv_view_change_req (delCache h s) = m_recv_view_change_req s.
Proof. unfold delCache. by repeat case_match. Qed.

(** X25: after a report of a block at or above the height under
    agreement, the view-change requests still cached were cached before
    and are all for the new tip or later: none is for a lower height, and
    one for the tip's height names the tip's hash. *)
Theorem X25_reportBlock_keeps_fresh_view_changes (w : World) (b : BlockHeader) (s : State)
    (v k : Z) (r : PBFTMsg) :
  m_consensus_block_number s ≤ number b →
  vote_at (m_recv_view_change_req (reportBlock w b s)) v k r →
  vote_at (m_recv_view_change_req s) v k r
  ∧ number b ≤ height r
  ∧ (height r = number b → block_hash r = hash_WithoutSeal b).
Proof.
  intros Hb. unfold reportBlock. cbv zeta. rewrite delCache_view_changes.
  intros Hv%resetConfig_view_changes. revert Hv. simpl.
  destruct (Z.geb_spec (number b) (m_consensus_block_number s)) as [_ | ?]; [| lia].
  intros [Hv Hf]%delViewChange_vote_at. simpl in *. split; [done |].
  destruct Hf as [H1 H2]. simpl in *. split; [lia |].
  intros Hh. destruct (decide (block_hash r = hash_WithoutSeal b)); [done |].
  by destruct H2.
Qed.
End Properties.

(** ** Runs of the four-miner deployment *)
Import Scenario.



(** C3 (as stated) fails: the third commit for 501 arrives after the tip
    moved to height 10; [checkAndSave] finds the height test false, seals
    nothing, and has set the flag all the same. *)
Lemma C3_flag_set_without_seal :
  handleCommitMsg (world 6001) 3 (vote 10 0 3 501 0) overtaken = checkAndSave last_commit
  ∧ votes_reach_quorum last_commit = true
  ∧ (height (m_prepare_cache last_commit) >? number (m_highest_block last_commit)) = false
  ∧ triggered 501 last_commit = false
  ∧ emitted last_commit (checkAndSave last_commit) = []
  ∧ triggered 501 (checkAndSave last_commit) = true.
Proof. vm_compute. repeat split; reflexivity. Qed.

(** With four commits cached and a quorum of three, all four pairs are
    attached. *)
Lemma C4_sig_list_witness :
  emitted quorum_plus_one (checkAndSave quorum_plus_one)
  = [OnSealGenerated 501 [[]; []; []; []]
       [(3, 8405641984); (1, 8405641472); (2, 8405641728); (0, 8405641216)] false]
  ∧ length [(3, 8405641984); (1, 8405641472); (2, 8405641728); (0, 8405641216)]
    = size (at_key 501 (m_commit_cache quorum_plus_one)).
Proof.
  assert (He : emitted quorum_plus_one (checkAndSave quorum_plus_one)
               = [OnSealGenerated 501 [[]; []; []; []]
                    [(3, 8405641984); (1, 8405641472); (2, 8405641728); (0, 8405641216)] false])
    by (vm_compute; reflexivity).
  split; [exact He |].
  exact (proj1 (proj2 (proj2 (C4_sig_list_is_whole_commit_cache _ _ _ _ _ He)))).
Defined.

Lemma C2_prepare_witness :
  prepare_admitted (world 5001) (proposal 10 0 1 500) false idle = true
  ∧ m_raw_prepare_cache (handlePrepareMsg (world 5001) 1 (proposal 10 0 1 500) false idle)
    = proposal 10 0 1 500.
Proof.
  assert (Ha : prepare_admitted (world 5001) (proposal 10 0 1 500) false idle = true)
    by (vm_compute; reflexivity).
  split; [exact Ha |].
  exact (proj1 (C2_prepare_holds_executed_hash (world 5001) 1 (proposal 10 0 1 500) false idle Ha)).
Defined.

(** C2 (as stated) fails: node 1's proposal has hash 500, the block
    re-sealed after execution has hash 501, and that is the hash the
    prepare cache holds after the accept. *)
Lemma C2_prepare_hash_differs :
  prepare_admitted (world 5001) (proposal 10 0 1 500) false idle = true
  ∧ block_hash (m_raw_prepare_cache
                  (handlePrepareMsg (world 5001) 1 (proposal 10 0 1 500) false idle)) = 500
  ∧ block_hash (m_prepare_cache
                  (handlePrepareMsg (world 5001) 1 (proposal 10 0 1 500) false idle)) = 501.
Proof. vm_compute. repeat split; reflexivity. Qed.

Lemma C5_quorum_witness :
  1 ≤ m_node_num idle < 2 ^ 64
  ∧ m_f idle = faulty_of (m_node_num idle)
  ∧ quorum idle = m_node_num idle - (m_node_num idle - 1) / 3.
Proof.
  assert (Hn : 1 ≤ m_node_num idle < 2 ^ 64) by (simpl; lia).
  assert (Hf : m_f idle = faulty_of (m_node_num idle)) by (vm_compute; reflexivity).
  split; [exact Hn |]. split; [exact Hf |].
  exact (proj1 (C5_quorum_is_N_minus_f idle 0 Hn Hf)).
Defined.

(** C5 (as stated) fails: with five miners [f = 1], the engine's quorum
    and the verifier's threshold are [5 - 1 = 4], not [2f + 1 = 3]. *)
Lemma C5_quorum_not_2f_plus_1 :
  m_cfg_err five_miners = false
  ∧ m_node_num five_miners = 5
  ∧ m_f five_miners = (5 - 1) / 3
  ∧ quorum five_miners = 4
  ∧ sign_threshold 5 = 4
  ∧ 2 * m_f five_miners + 1 = 3.
Proof. vm_compute. repeat split; reflexivity. Qed.

Lemma C6_duplicate_witness :
  isExistSign (vote 10 0 2 501 0) signed_twice = true
  ∧ handleSignMsg (world 5004) 2 (vote 10 0 2 501 0) signed_twice = signed_twice.
Proof.
  assert (Hd : isExistSign (vote 10 0 2 501 0) signed_twice = true) by (vm_compute; reflexivity).
  split; [exact Hd |].
  exact (proj1 (C6_duplicate_signature_is_noop (world 5004) 2 (vote 10 0 2 501 0) signed_twice) Hd).
Defined.

(** C6 (as stated) fails: node 2 sends two Sign packets for hash 501 that
    differ only in the signature nonce; both verify, both are cached, and
    signer 2 has two entries, which with the node's own vote make the
    three of the quorum. *)
Lemma C6_signer_has_two_entries :
  idx <$> (at_key 501 (m_sign_cache signed_twice) !! toy_sign (pub_of 2) 501 0) = Some 2
  ∧ idx <$> (at_key 501 (m_sign_cache signed_twice) !! toy_sign (pub_of 2) 501 1) = Some 2
  ∧ toy_sign (pub_of 2) 501 0 ≠ toy_sign (pub_of 2) 501 1
  ∧ size (at_key 501 (m_sign_cache signed_twice)) = 3%nat.
Proof. vm_compute. repeat split; try reflexivity. discriminate. Qed.

Lemma C7_gate_witness :
  (m_cfg_err primary0 = false → m_node_num primary0 ≠ 0)
  ∧ fst (shouldSeal (world 5001) primary0) = true.
Proof.
  assert (Hn : m_cfg_err primary0 = false → m_node_num primary0 ≠ 0)
    by (intros _; vm_compute; discriminate).
  split; [exact Hn |].
  apply (proj1 (C7_shouldSeal_gate (world 5001) primary0 Hn)).
  vm_compute. repeat split; try reflexivity; discriminate.
Defined.

(** C7 (as stated) fails: node 0 is a miner with a valid configuration,
    it is the primary of view 3, and the consensus height is above the
    committed checkpoint; its timer has fired, [leaderFailed] is set, and
    [shouldSeal] returns false. *)
Lemma C7_primary_refused :
  m_cfg_err stalled = false
  ∧ m_account_type stalled = 1
  ∧ add256 (m_view stalled) (number (m_highest_block stalled)) mod m_node_num stalled
    = m_node_idx stalled
  ∧ (m_consensus_block_number stalled >? height (m_committed_prepare_cache stalled)) = true
  ∧ fst (shouldSeal (world 9001) stalled) = false.
Proof. vm_compute. repeat split; reflexivity. Qed.

Lemma C8_votes_witness :
  block_hash (m_prepare_cache idle) ≠ block_hash (vote 10 0 2 501 0)
  ∧ handleSignMsg (world 5001) 2 (vote 10 0 2 501 0) idle = addSignReq (vote 10 0 2 501 0) idle.
Proof.
  assert (Hne : block_hash (m_prepare_cache idle) ≠ block_hash (vote 10 0 2 501 0))
    by (vm_compute; discriminate).
  split; [exact Hne |].
  exact (proj1 (C8_votes_off_the_proposal (world 5001) 2 (vote 10 0 2 501 0) idle Hne)).
Defined.

(** C8 (as stated) fails: a Sign for the height under agreement (10, not
    above it) in the current view (0, not above it) reaches node 0 before
    any proposal; its hash is not the prepare cache's, and it is cached. *)
Lemma C8_current_height_vote_cached :
  block_hash (m_prepare_cache idle) ≠ block_hash (vote 10 0 2 501 0)
  ∧ (height (vote 10 0 2 501 0) >? m_consensus_block_number idle) = false
  ∧ (view (vote 10 0 2 501 0) >? m_view idle) = false
  ∧ at_key 501 (m_sign_cache (handleSignMsg (world 5001) 2 (vote 10 0 2 501 0) idle))
      !! sig (vote 10 0 2 501 0) = Some (vote 10 0 2 501 0).
Proof. vm_compute. repeat split; try reflexivity. discriminate. Qed.

Lemma env_cast_exact : ∀ x, 0 ≤ x < 2 ^ 31 → static_cast_int x = x.
Proof.
  intros x Hx. unfold static_cast_int, env.
  rewrite Z.mod_small by lia. destruct (Z.ltb_spec x (2 ^ 31)); lia.
Qed.

Lemma C9_checkBlockSign_witness :
  checkBlockSign (world 7000) sealed10 sigs10 = true
  ∧ Forall (sig_ok (pub_of <$> [0; 1; 2; 3]) 501) sigs10.
Proof.
  assert (HN : Z.of_nat (length (getMinerList (world 7000)
                 (static_cast_int (sub256 (number sealed10) 1)) []).2) < 2 ^ 31)
    by (vm_compute; reflexivity).
  assert (Hi : Forall (λ item : Z * Z, 0 ≤ item.1) sigs10)
    by (repeat constructor; vm_compute; discriminate).
  assert (Hc : checkBlockSign (world 7000) sealed10 sigs10 = true) by (vm_compute; reflexivity).
  split; [exact Hc |].
  exact (proj2 (proj2 (proj2
    (proj1 (C9_checkBlockSign_iff (world 7000) sealed10 sigs10 env_cast_exact HN Hi) Hc)))).
Defined.

Lemma C10_leader_failed_witness :
  m_leader_failed stalled = true
  ∧ shouldSeal (world 9001) stalled = (false, stalled).
Proof.
  assert (Hf : m_leader_failed stalled = true) by (vm_compute; reflexivity).
  split; [exact Hf |].
  exact (proj1 (proj2 (C10_leader_failed_stops_sealing (world 9001) stalled Hf))).
Defined.

(** ** Further runs of the four-miner deployment *)
Import Cases.

Ltac by_decide :=
  match goal with |- ?P => apply (bool_decide_eq_true_1 P); vm_compute; reflexivity end.

Ltac by_compute := vm_compute; repeat split; first [reflexivity | discriminate].

Lemma env_unsigned_nonneg : ∀ x, 0 ≤ static_cast_unsigned x.
Proof. intros x. unfold static_cast_unsigned, env. apply Z.mod_pos_bound. lia. Qed.

Lemma X1_ground_witness :
  is_report ECheckTimeout = false
  ∧ ground_of (step (world 9000) ECheckTimeout idle) = ground_of idle.
Proof.
  assert (Hr : is_report ECheckTimeout = false) by reflexivity.
  split; [exact Hr | exact (X1_only_reportBlock_moves_ground (world 9000) ECheckTimeout idle Hr)].
Defined.

Lemma X2_views_witness :
  touches_views (EHandleMsg (PktSign (vote 10 0 2 501 0)) 2 (pub_of 2)) = false
  ∧ views_of (step (world 5002) (EHandleMsg (PktSign (vote 10 0 2 501 0)) 2 (pub_of 2)) idle)
    = views_of idle.
Proof.
  assert (Ht : touches_views (EHandleMsg (PktSign (vote 10 0 2 501 0)) 2 (pub_of 2)) = false)
    by reflexivity.
  split; [exact Ht |].
  exact (X2_votes_leave_views_alone (world 5002) _ idle Ht).
Defined.

Lemma X3_config_witness :
  config_wf idle ∧ config_wf (step world5 (EReportBlock block10) idle).
Proof.
  assert (Hw : config_wf idle).
  { split; [intros _; vm_compute; discriminate | vm_compute; reflexivity]. }
  split; [exact Hw | exact (X3_config_wf_invariant world5 (EReportBlock block10) idle Hw)].
Defined.

Lemma X4_resetConfig_witness :
  m_cfg_err (resetConfig world_bad idle) = true
  ∧ m_cfg_err (resetConfig world_bad (resetConfig world_bad idle)) = false.
Proof.
  split; [vm_compute; reflexivity |].
  assert (Ht : getAccountType_self world_bad = Some 1) by reflexivity.
  assert (Hn : getMinerNum world_bad ≠ 0) by (vm_compute; discriminate).
  assert (Hi : getIdx_self world_bad = Some 0) by reflexivity.
  exact (proj1 (X4_resetConfig_again_clears_error world_bad idle 1 0 Ht Hn Hi)).
Defined.

Lemma X5_height_witness :
  reports_in_range (EReportBlock block10)
  ∧ m_consensus_block_number idle
    ≤ m_consensus_block_number (step (world 6000) (EReportBlock block10) idle).
Proof.
  assert (Hr : reports_in_range (EReportBlock block10)) by by_compute.
  split; [exact Hr |].
  exact (proj1 (X5_height_above_tip (world 6000) (EReportBlock block10) idle Hr)).
Defined.

Lemma X6_reportBlock_witness :
  m_prepare_cache (reportBlock (world 6000) tip9 (run (take 1 agree_view0) idle)) ≠ empty_req
  ∧ block_hash (m_prepare_cache (reportBlock (world 6000) tip9 (run (take 1 agree_view0) idle)))
    ≠ hash_WithoutSeal tip9.
Proof.
  assert (Hp : m_prepare_cache (reportBlock (world 6000) tip9 (run (take 1 agree_view0) idle))
               ≠ empty_req) by (vm_compute; discriminate).
  split; [exact Hp |].
  exact (proj2 (proj2 (proj2
    (X6_reportBlock_drops_votes (world 6000) tip9 (run (take 1 agree_view0) idle)))) Hp).
Defined.

Lemma X7_reportBlock_witness :
  0 ≤ number block10 < 2 ^ 256 - 1
  ∧ m_cfg_err (reportBlock (world 6000) block10 (run agree_view0 idle)) = false
  ∧ reportBlock (world 6000) block10 (reportBlock (world 6000) block10 (run agree_view0 idle))
    = reportBlock (world 6000) block10 (run agree_view0 idle).
Proof.
  assert (Hb : 0 ≤ number block10 < 2 ^ 256 - 1) by by_compute.
  assert (Hc : m_cfg_err (reportBlock (world 6000) block10 (run agree_view0 idle)) = false)
    by (vm_compute; reflexivity).
  split; [exact Hb |]. split; [exact Hc |].
  exact (X7_reportBlock_twice (world 6000) block10 (run agree_view0 idle) Hb Hc).
Defined.

Lemma X8_collectGarbage_witness :
  header_valid (m_highest_block overtaken) = true
  ∧ (system_clock_now (world 100000) - m_last_collect_time overtaken >=? kCollectInterval) = true
  ∧ ∀ h inner, m_sign_cache (collectGarbage (world 100000) overtaken) !! h = Some inner →
               inner ≠ ∅.
Proof.
  assert (Hv : header_valid (m_highest_block overtaken) = true) by (vm_compute; reflexivity).
  assert (Hd : (system_clock_now (world 100000) - m_last_collect_time overtaken
                >=? kCollectInterval) = true) by (vm_compute; reflexivity).
  split; [exact Hv |]. split; [exact Hd |].
  exact (proj1 (proj2 (proj2
    (X8_collectGarbage_prunes_below_tip (world 100000) overtaken Hv Hd)))).
Defined.

Lemma X10_view_change_witness :
  is_report (EHandleMsg (PktViewChange (vote 9 1 2 900 0)) 2 (pub_of 2)) = false
  ∧ m_view (step (world 9002) (EHandleMsg (PktViewChange (vote 9 1 2 900 0)) 2 (pub_of 2))
                 before_view1) ≠ m_view before_view1
  ∧ wiped (step (world 9002) (EHandleMsg (PktViewChange (vote 9 1 2 900 0)) 2 (pub_of 2))
                before_view1).
Proof.
  assert (Hr : is_report (EHandleMsg (PktViewChange (vote 9 1 2 900 0)) 2 (pub_of 2)) = false)
    by reflexivity.
  assert (Hv : m_view (step (world 9002)
                         (EHandleMsg (PktViewChange (vote 9 1 2 900 0)) 2 (pub_of 2))
                         before_view1) ≠ m_view before_view1) by (vm_compute; discriminate).
  split; [exact Hr |]. split; [exact Hv |].
  exact (X10_view_change_wipes_votes (world 9002) _ before_view1 Hr Hv).
Defined.

Lemma X12_getMinerList_witness :
  NoDup (miner_slots (getAllNodeConnInfo (world 7000) 9))
  ∧ (getMinerList (world 7000) 9 [55; 66; 77; 88; 99]).1 = true
  ∧ getMinerList (world 7000) 9 [] = getMinerList (world 7000) 9 [55; 66; 77; 88; 99].
Proof.
  assert (Hd : NoDup (miner_slots (getAllNodeConnInfo (world 7000) 9)))
    by by_decide.
  assert (Hok : (getMinerList (world 7000) 9 [55; 66; 77; 88; 99]).1 = true)
    by (vm_compute; reflexivity).
  split; [exact Hd |]. split; [exact Hok |].
  exact (proj2 (X12_getMinerList_places_every_miner (world 7000) 9 [55; 66; 77; 88; 99]
                  env_unsigned_nonneg Hd Hok) []).
Defined.

Lemma X13_checkBlockSign_witness :
  sig_ok (getMinerList (world 7000) (static_cast_int (sub256 (number sealed10) 1)) []).2
         (hash_WithoutSeal sealed10) (2, toy_sign (pub_of 2) 501 0)
  ∧ checkBlockSign (world 7000) sealed10 (replicate 3 (2, toy_sign (pub_of 2) 501 0)) = true.
Proof.
  assert (HN : Z.of_nat (length (getMinerList (world 7000)
                 (static_cast_int (sub256 (number sealed10) 1)) []).2) < 2 ^ 31)
    by (vm_compute; reflexivity).
  assert (Hok : (getMinerList (world 7000)
                   (static_cast_int (sub256 (number sealed10) 1)) []).1 = true)
    by (vm_compute; reflexivity).
  assert (Hnl : nodeList sealed10
                = (getMinerList (world 7000)
                     (static_cast_int (sub256 (number sealed10) 1)) []).2)
    by (vm_compute; reflexivity).
  assert (Hi : 0 ≤ 2) by lia.
  assert (Hs : sig_ok (getMinerList (world 7000)
                         (static_cast_int (sub256 (number sealed10) 1)) []).2
                      (hash_WithoutSeal sealed10) (2, toy_sign (pub_of 2) 501 0)).
  { split; [vm_compute; reflexivity |]. exists (pub_of 2). split; vm_compute; reflexivity. }
  assert (Hk : Z.of_nat (length (getMinerList (world 7000)
                 (static_cast_int (sub256 (number sealed10) 1)) []).2)
               - (Z.of_nat (length (getMinerList (world 7000)
                    (static_cast_int (sub256 (number sealed10) 1)) []).2) - 1) / 3
               ≤ Z.of_nat 3) by (vm_compute; discriminate).
  split; [exact Hs |].
  exact (X13_checkBlockSign_counts_pairs (world 7000) sealed10 2 (toy_sign (pub_of 2) 501 0) 3
           env_cast_exact HN Hok Hnl Hi Hs Hk).
Defined.

Lemma X15_known_sets_witness :
  within_caps caps miner_peer
  ∧ length (known SignReqPacket (broadcastMark caps 9 (Some SignReqPacket) miner_peer)) = 3%nat.
Proof.
  assert (Hc : within_caps caps miner_peer) by (intros i; destruct i; vm_compute; lia).
  split; [exact Hc |].
  assert (Hk : 9 ∉ known SignReqPacket miner_peer)
    by (apply (bool_decide_eq_false_1 (9 ∈ known SignReqPacket miner_peer));
        vm_compute; reflexivity).
  assert (Hl : length (known SignReqPacket miner_peer) = caps SignReqPacket) by reflexivity.
  exact (proj2 (X15_known_sets_hold_capacity_plus_one caps roster_type 9 (Some SignReqPacket) []
                  miner_peer Hc) SignReqPacket Hk Hl).
Defined.

Lemma X17_views_witness :
  view_headroom idle ∧ m_view idle ≤ m_to_view idle
  ∧ views_grow idle (step (world 9000) ECheckTimeout idle).
Proof.
  assert (Hh : view_headroom idle) by by_compute.
  assert (Ho : m_view idle ≤ m_to_view idle) by (vm_compute; discriminate).
  assert (Hr : is_report ECheckTimeout = false) by reflexivity.
  split; [exact Hh |]. split; [exact Ho |].
  exact (X17_views_only_grow (world 9000) ECheckTimeout idle Hr Hh Ho).
Defined.

Lemma X18_backup_witness :
  commit_due three_signs = true
  ∧ commit_broadcast (world 5003) three_signs
    = [Broadcast CommitReqPacket (own_commit_vote (world 5003) three_signs) [] []]
  ∧ (∃ tail, emitted three_signs (checkAndCommit (world 5003) three_signs)
             = BackupMsg (m_raw_prepare_cache three_signs)
               :: commit_broadcast (world 5003) three_signs ++ tail
             ∧ (tail = []
                ∨ ∃ items sl p,
                    tail = [OnSealGenerated (block_hash (m_prepare_cache three_signs))
                                            items sl p]))
  ∧ at_key (block_hash (m_prepare_cache three_signs))
           (m_commit_cache (checkAndCommit (world 5003) three_signs))
      !! sig (own_commit_vote (world 5003) three_signs)
    = Some (own_commit_vote (world 5003) three_signs).
Proof.
  assert (Hd : commit_due three_signs = true) by (vm_compute; reflexivity).
  assert (Hv : votes_commit (world 5003) three_signs = true) by (vm_compute; reflexivity).
  split; [exact Hd |]. split; [vm_compute; reflexivity |].
  destruct (proj2 (X18_backup_precedes_commit (world 5003) three_signs) Hd)
    as (_ & _ & He & Hc & _).
  split; [exact He | exact (Hc Hv)].
Defined.

Lemma X19_filed_witness :
  caches_filed signed_twice
  ∧ caches_filed (step (world 5004) (EHandleMsg (PktCommit (vote 10 0 2 501 0)) 2 (pub_of 2))
                       signed_twice).
Proof.
  assert (Hf : caches_filed signed_twice)
    by by_decide.
  split; [exact Hf |].
  exact (X19_caches_stay_filed (world 5004) _ signed_twice Hf).
Defined.

Lemma X21_leader_witness :
  (getLeader idle).1 = true
  ∧ getLeader (set_m_view (m_view idle + 1) idle) = (true, ((getLeader idle).2 + 1) mod 4).
Proof.
  assert (Hl : (getLeader idle).1 = true) by (vm_compute; reflexivity).
  assert (Hn : 0 < m_node_num idle) by (vm_compute; reflexivity).
  assert (Hk : 0 ≤ 1) by lia.
  assert (H0 : 0 ≤ m_view idle + number (m_highest_block idle)) by (vm_compute; discriminate).
  assert (Hw : m_view idle + number (m_highest_block idle) + 1 < 2 ^ 256)
    by (vm_compute; reflexivity).
  split; [exact Hl |].
  exact (proj2 (X21_leader_rotates_with_view idle 1 Hl Hn Hk H0 Hw)).
Defined.

Lemma X22_cycle_witness :
  cycle_capped idle ∧ cycle_capped (step (world 9000) ECheckTimeout idle).
Proof.
  assert (Hk : 0 ≤ kMaxChangeCycle) by (vm_compute; discriminate).
  assert (Hc : cycle_capped idle) by (vm_compute; discriminate).
  split; [exact Hc | exact (X22_change_cycle_stays_capped (world 9000) ECheckTimeout idle Hk Hc)].
Defined.

Lemma X23_quorum_witness :
  OnSealGenerated 501 [[]; []; []; []]
    [(3, 8405641984); (2, 8405641728); (0, 8405641216)] false
    ∈ emitted idle (run agree_view0 idle)
  ∧ quorum idle ≤ Z.of_nat (length [(3, 8405641984); (2, 8405641728); (0, 8405641216)]).
Proof.
  assert (Hr : Forall (λ we : World * Event, is_report we.2 = false) agree_view0)
    by (repeat constructor).
  assert (Hin : OnSealGenerated 501 [[]; []; []; []]
                  [(3, 8405641984); (2, 8405641728); (0, 8405641216)] false
                ∈ emitted idle (run agree_view0 idle)).
  { vm_compute. repeat first [apply list_elem_of_here | apply list_elem_of_further]. }
  split; [exact Hin |].
  exact (X23_sealed_block_carries_quorum agree_view0 idle _ _ _ _ Hr Hin).
Defined.

Lemma X24_sign_vote_witness :
  Broadcast SignReqPacket own_sign [] []
    ∈ emitted idle (handlePrepareMsg (world 5001) 1 (proposal 10 0 1 500) false idle)
  ∧ prepare_admitted (world 5001) (proposal 10 0 1 500) false idle = true.
Proof.
  assert (Hin : Broadcast SignReqPacket own_sign [] []
                ∈ emitted idle (handlePrepareMsg (world 5001) 1 (proposal 10 0 1 500) false idle)).
  { vm_compute. repeat first [apply list_elem_of_here | apply list_elem_of_further]. }
  split; [exact Hin |].
  exact (proj1 (X24_sign_vote_only_for_admitted_proposal (world 5001) 1 (proposal 10 0 1 500)
                  false idle own_sign [] [] Hin)).
Defined.

Lemma X25_view_changes_witness :
  m_consensus_block_number asked_view1 ≤ number block10
  ∧ vote_at (m_recv_view_change_req (reportBlock (world 6000) block10 asked_view1))
            1 1 (vote 10 1 1 501 0)
  ∧ number block10 ≤ height (vote 10 1 1 501 0).
Proof.
  assert (Hb : m_consensus_block_number asked_view1 ≤ number block10) by by_compute.
  assert (Hv : vote_at (m_recv_view_change_req (reportBlock (world 6000) block10 asked_view1))
                       1 1 (vote 10 1 1 501 0)).
  { exists (at_key 1 (m_recv_view_change_req (reportBlock (world 6000) block10 asked_view1))).
    split; vm_compute; reflexivity. }
  split; [exact Hb |]. split; [exact Hv |].
  exact (proj1 (proj2 (X25_reportBlock_keeps_fresh_view_changes (world 6000) block10 asked_view1
                         1 1 (vote 10 1 1 501 0) Hb Hv))).
Defined.

(** C10 (as stated) fails on the empty-block view change: the primary's
    proposal is admitted, the executor finds its block empty, the handler
    runs [changeViewForEmptyBlockWithoutLock] (timers zeroed, empty-block
    flag set, threads notified), and [m_leader_failed] is still unset, so
    [getLeader] keeps naming node 1. *)
Lemma C10_empty_block_leaves_flag_unset :
  prepare_admitted world_empty_block (proposal 10 0 1 500) false idle = true
  ∧ empty_block_seen
    = changeViewForEmptyBlockWithoutLock
        (set_m_last_exec_finish_time 5001 (addRawPrepare (proposal 10 0 1 500) idle))
  ∧ m_empty_block_flag empty_block_seen = true
  ∧ (m_last_consensus_time empty_block_seen, m_last_sign_time empty_block_seen) = (0, 0)
  ∧ emitted idle empty_block_seen = [Notify]
  ∧ m_leader_failed empty_block_seen = false
  ∧ getLeader empty_block_seen = (true, 1).
Proof. vm_compute. repeat split; reflexivity. Qed.
